(** * Operator Department Updater: a shallow embedding and its properties

    The development follows [operator_department_updater.py].  Python
    strings are sequences of Unicode code points, dictionaries are finite
    maps, and the orchestrator [main] is a program in a small state and
    exception monad whose state is the [RunContext] together with the
    list of effects performed on the outside world. *)

From Stdlib Require Import ZArith QArith String Ascii List Lia DecimalString
  DecimalZ.
From stdpp Require Import gmap list.
Import ListNotations.

Local Open Scope N_scope.

(** ** Python strings *)

(** A [str] is a list of code points. *)
Abbreviation char := N (only parsing).
Abbreviation str := (list N) (only parsing).

(** The code points of an ASCII literal. *)
Definition lit (s : string) : str :=
  List.map N_of_ascii (list_ascii_of_string s).
Arguments lit s%_string.

(** What the interpreter and its libraries decide outside the ASCII range
    (Unicode tables), outside plain digit strings ([int]), and on the host
    platform ([Path.glob] matching, the text of the built-in [ValueError]
    of [max]).  Every theorem below holds for every such runtime. *)
Class PyRuntime := {
  isdigit_ext : char -> bool;
  isspace_ext : char -> bool;
  lower_ext : str -> str;
  int_ext : str -> option Z;
  fnmatch : str -> str -> bool;
  max_empty_msg : str
}.

(** Matching a name against a pattern in which [*] stands for any run of
    characters. *)
Fixpoint glob_match (pat : str) : str -> bool :=
  match pat with
  | [] => fun name => bool_decide (name = [])
  | c :: pat' =>
      if c =? 42
      then fix star (name : str) : bool :=
             glob_match pat' name ||
             match name with [] => false | _ :: name' => star name' end
      else fun name =>
             match name with
             | [] => false
             | n :: name' => (c =? n) && glob_match pat' name'
             end
  end.

(** A runtime that knows ASCII only; it runs the model on plain data. *)
#[export] Instance plain_runtime : PyRuntime | 100 := {|
  isdigit_ext := fun _ => false;
  isspace_ext := fun _ => false;
  lower_ext := fun s => s;
  int_ext := fun _ => None;
  fnmatch := glob_match;
  max_empty_msg := lit "max() arg is an empty sequence"
|}.

Section Strings.
Context `{PyRuntime}.

Definition is_ascii (c : char) : bool := c <? 128.

(** [ch.isdigit()] *)
Definition isdigit (c : char) : bool :=
  if is_ascii c then (48 <=? c) && (c <=? 57) else isdigit_ext c.

(** [ch.isspace()]: tab to carriage return, the four separators 0x1c to
    0x1f and the space. *)
Definition isspace (c : char) : bool :=
  if is_ascii c
  then ((9 <=? c) && (c <=? 13)) || ((28 <=? c) && (c <=? 31)) || (c =? 32)
  else isspace_ext c.

Definition ascii_lower (c : char) : char :=
  if (65 <=? c) && (c <=? 90) then c + 32 else c.

(** [s.lower()] *)
Definition lower (s : str) : str :=
  if forallb is_ascii s then List.map ascii_lower s else lower_ext s.

Fixpoint dropwhile (p : char -> bool) (s : str) : str :=
  match s with
  | [] => []
  | c :: s' => if p c then dropwhile p s' else s
  end.

Definition lstrip (s : str) : str := dropwhile isspace s.
Definition rstrip (s : str) : str := rev (dropwhile isspace (rev s)).

(** [s.strip()] *)
Definition strip (s : str) : str := rstrip (lstrip s).

(** [t.lstrip("0")] *)
Definition lstrip_zeros (t : str) : str := dropwhile (N.eqb 48) t.

(** [x or d] on strings *)
Definition str_or (x d : str) : str :=
  match x with [] => d | _ => x end.

(** [norm_num]: [s or ""] is [s] itself on a [str]. *)
Definition norm_num (s : str) : str :=
  let t := List.filter isdigit s in
  match t with
  | [] => strip s
  | _ => str_or (lstrip_zeros t) (lit "0")
  end.

(** [any(ch.isdigit() for ch in s)] *)
Definition any_digit (s : str) : bool := existsb isdigit s.

End Strings.

(** [str(n)] for an integer. *)
Definition str_of_int (n : Z) : str :=
  lit (NilZero.string_of_int (Z.to_int n)).

(** ** Exceptions *)

Inductive exn_class :=
  KeyError | ValueError | OSError | TimeoutExpired | OverflowError
| OtherException.

(** An exception: its class and the text of [str(e)]. *)
Record exn := Exn { exn_kind : exn_class; exn_msg : str }.

Inductive result (A : Type) :=
| Ok (a : A)
| Err (e : exn).
Arguments Ok {A} a.
Arguments Err {A} e.

(** [repr(k)] of a key without quotes or escapes, as in [str(KeyError(k))]. *)
Definition key_repr (k : str) : str := lit "'" ++ k ++ lit "'".

(** [d[k]] *)
Definition dict_get {V} (d : gmap str V) (k : str) : result V :=
  match d !! k with
  | Some v => Ok v
  | None => Err (Exn KeyError (key_repr k))
  end.

(** [d.setdefault(k, v)] *)
Definition setdefault {V} (k : str) (v : V) (d : gmap str V) : gmap str V :=
  match d !! k with
  | Some _ => d
  | None => <[k := v]> d
  end.

(** ** Constants *)

Definition REQ_OPER : str := lit "OPER_oper_no".
Definition REQ_NEW : str := lit "CS_Dept".
Definition OPT_OLD : str := lit "AW_Dept".

Definition oper_synonyms : list str :=
  [lit "oper_oper_no"; lit "oper no"; lit "oper_no"; lit "operator id";
   lit "operator"; lit "oper id"; lit "id"; lit "oper"].
Definition new_synonyms : list str :=
  [lit "cs_dept"; lit "cs dept"; lit "cd_dept"; lit "dept_code";
   lit "dept code"; lit "dept"; lit "department"; lit "new dept";
   lit "new department"].
Definition old_synonyms : list str :=
  [lit "aw_dept"; lit "aw dept"; lit "aw_dept_code"; lit "aw dept code"].

(** [h in (...)] *)
Definition str_in (h : str) (l : list str) : bool := bool_decide (h ∈ l).

(** ** Reading UnmatchedDepartment.csv *)

Section Parser.
Context `{PyRuntime}.

(** One iteration of the header loop: three independent [if]s. *)
Definition match_header (name_map : gmap str nat) (i : nat) (h : str)
  : gmap str nat :=
  let m1 := if str_in h oper_synonyms then <[REQ_OPER := i]> name_map
            else name_map in
  let m2 := if str_in h new_synonyms then <[REQ_NEW := i]> m1 else m1 in
  if str_in h old_synonyms then <[OPT_OLD := i]> m2 else m2.

(** [for i, h in enumerate(header_low)], from index [i]. *)
Fixpoint scan_header (i : nat) (header_low : list str)
  (name_map : gmap str nat) : gmap str nat :=
  match header_low with
  | [] => name_map
  | h :: rest => scan_header (S i) rest (match_header name_map i h)
  end.

Definition header_low (row0 : list str) : list str :=
  List.map (fun h => lower (strip h)) row0.

(** The name map after the matching loop. *)
Definition detect_names (row0 : list str) : gmap str nat :=
  scan_header 0 (header_low row0) ∅.

(** [if REQ_OPER not in name_map or REQ_NEW not in name_map: ...] *)
Definition positional_fallback (ncols : nat) (name_map : gmap str nat)
  : gmap str nat :=
  match name_map !! REQ_OPER, name_map !! REQ_NEW with
  | Some _, Some _ => name_map
  | _, _ =>
      let m := <[REQ_OPER := 0%nat]> name_map in
      if (3 <=? ncols)%nat then <[REQ_NEW := 2%nat]> (<[OPT_OLD := 1%nat]> m)
      else if (2 <=? ncols)%nat then <[REQ_NEW := 1%nat]> m
      else m
  end.

(** The role-to-column mapping the parser works with. *)
Definition header_map (row0 : list str) : gmap str nat :=
  positional_fallback (length row0) (detect_names row0).

(** [cell(r, i)] *)
Definition cell (r : list str) (i : nat) : str :=
  match r !! i with
  | Some c => strip c
  | None => []
  end.

Definition is_empty {A} (l : list A) : bool :=
  match l with [] => true | _ => false end.

(** The body of [for r in rows[1:]]; [None] is [continue]. *)
Definition read_row (name_map : gmap str nat) (r : list str)
  : result (option (gmap str str)) :=
  if is_empty r then Ok None else
  match dict_get name_map REQ_OPER with
  | Err e => Err e
  | Ok i_oper =>
      let oper := cell r i_oper in
      match dict_get name_map REQ_NEW with
      | Err e => Err e
      | Ok i_new =>
          let newd := cell r i_new in
          if is_empty oper || is_empty newd then Ok None else
          let rec0 : gmap str str :=
            <[REQ_NEW := norm_num newd]> {[REQ_OPER := norm_num oper]} in
          Ok (Some
                match name_map !! OPT_OLD with
                | Some i_old => <[OPT_OLD := norm_num (cell r i_old)]> rec0
                | None => rec0
                end)
      end
  end.

Fixpoint read_rows (name_map : gmap str nat) (data : list (list str))
  : result (list (gmap str str)) :=
  match data with
  | [] => Ok []
  | r :: rest =>
      match read_row name_map r with
      | Err e => Err e
      | Ok o =>
          match read_rows name_map rest with
          | Err e => Err e
          | Ok out => Ok (match o with Some rec => rec :: out | None => out end)
          end
      end
  end.

(** [read_unmatched], on the rows [csv.reader] produced. *)
Definition read_unmatched (rows : list (list str))
  : result (list (gmap str str)) :=
  if (length rows <? 2)%nat then Ok [] else
  match rows with
  | [] => Ok []
  | row0 :: data => read_rows (header_map row0) data
  end.

End Parser.

(** ** Indexing the Active Operator List *)

(** A CSV file as the program finds it. *)
Inductive csv_file :=
| Missing
| Unreadable (e : exn)
| Rows (rows : list (list str)).

Section Indexer.
Context `{PyRuntime}.

(** [r[i]] where the caller has checked the length. *)
Definition col (r : list str) (i : nat) : str := nth i r [].

(** Whether row 0 is skipped as a header. *)
Definition start_idx (rows : list (list str)) : nat :=
  match rows with
  | [] => 0
  | first :: _ =>
      if is_empty first then 0%nat else
      let c0 := strip (col first 0) in
      let c3 := if (3 <? length first)%nat then strip (col first 3) else [] in
      if negb (any_digit c0) || negb (any_digit c3) then 1%nat else 0%nat
  end.

(** The body of [for r in rows[start_idx:]] on the pair
    [(oper_to_name, dept_to_name)]. *)
Definition index_row (maps : gmap str str * gmap str str) (r : list str)
  : gmap str str * gmap str str :=
  if (length r <? 4)%nat then maps else
  let dept_code := norm_num (col r 0) in
  let dept_name := strip (col r 1) in
  let oper_name := strip (col r 2) in
  let oper_id := norm_num (col r 3) in
  let dept_to_name :=
    if is_empty dept_code then maps.2
    else setdefault dept_code dept_name maps.2 in
  let oper_to_name :=
    if is_empty oper_id then maps.1
    else setdefault oper_id oper_name maps.1 in
  (oper_to_name, dept_to_name).

Definition index_rows (rows : list (list str))
  : gmap str str * gmap str str :=
  fold_left index_row (drop (start_idx rows) rows) (∅, ∅).

(** [index_active_list]: returns [(oper_to_name, dept_to_name)]. *)
Definition index_active_list (f : csv_file)
  : result (gmap str str * gmap str str) :=
  match f with
  | Missing => Ok (∅, ∅)
  | Unreadable e => Err e
  | Rows rows => Ok (index_rows rows)
  end.

End Indexer.

(** ** Building the Excel 2003 XML document *)

(** A literal of the source written with ['] where the source has a
    double quote. *)
Definition xq (s : string) : str :=
  List.map (fun c => if c =? 39 then 34 else c) (lit s).
Arguments xq s%_string.

#[export] Instance result_ret : MRet result := fun _ a => Ok a.
#[export] Instance result_bind : MBind result := fun _ _ f r =>
  match r with
  | Ok a => f a
  | Err e => Err e
  end.

Section Builder.
Context `{PyRuntime}.

Definition is_plain_digit (c : char) : bool := (48 <=? c) && (c <=? 57).

(** Between 1 and 4300 ASCII digits: [int] accepts these in every
    version of the interpreter. *)
Definition plain_digits (s : str) : bool :=
  negb (is_empty s) && forallb is_plain_digit s && (length s <=? 4300)%nat.

Definition digits_value (s : str) : Z :=
  fold_left (fun acc c => (acc * 10 + Z.of_N (c - 48))%Z) s 0%Z.

(** [int(s)] *)
Definition py_int (s : str) : result Z :=
  if plain_digits s then Ok (digits_value s) else
  match int_ext s with
  | Some z => Ok z
  | None =>
      Err (Exn ValueError
             (lit "invalid literal for int() with base 10: " ++ key_repr s))
  end.

(** The schema and version marker row, the last row of [xml_head]. *)
Definition marker_row : str :=
  xq "   <Row>
    <Cell ss:StyleID='s62'><Data ss:Type='Number'>2022</Data></Cell>
    <Cell ss:StyleID='s62'><Data ss:Type='String'>101:2</Data></Cell>
    <Cell ss:StyleID='s62'><Data ss:Type='String'>103:4</Data></Cell>
   </Row>
".

Definition xml_head (created_utc : str) : str :=
  xq "<?xml version='1.0'?>
<?mso-application progid='Excel.Sheet'?>
<Workbook xmlns='urn:schemas-microsoft-com:office:spreadsheet'
 xmlns:o='urn:schemas-microsoft-com:office:office'
 xmlns:x='urn:schemas-microsoft-com:office:excel'
 xmlns:ss='urn:schemas-microsoft-com:office:spreadsheet'
 xmlns:html='http://www.w3.org/TR/REC-html40'>
 <DocumentProperties xmlns='urn:schemas-microsoft-com:office:office'>
  <Author>Operator Department Updater</Author>
  <LastAuthor>Operator Department Updater</LastAuthor>
  <Created>" ++ created_utc ++ xq "</Created>
  <Version>16.00</Version>
 </DocumentProperties>
 <ExcelWorkbook xmlns='urn:schemas-microsoft-com:office:excel'>
  <ProtectStructure>False</ProtectStructure>
  <ProtectWindows>False</ProtectWindows>
 </ExcelWorkbook>
 <Styles>
  <Style ss:ID='Default' ss:Name='Normal'>
   <Alignment ss:Vertical='Bottom'/>
   <Borders/>
   <Font ss:FontName='Calibri' x:Family='Swiss' ss:Size='11' ss:Color='#000000'/>
   <Interior/>
   <NumberFormat/>
   <Protection/>
  </Style>
  <Style ss:ID='s62'>
   <NumberFormat ss:Format='@'/>
  </Style>
 </Styles>
 <Worksheet ss:Name='Work Order Center'>
  <Table ss:ExpandedColumnCount='3' x:FullColumns='1' x:FullRows='1'>
" ++ marker_row.

(** The row appended for one record. *)
Definition xml_row (oper newd : Z) : str :=
  xq "   <Row>
    <Cell><Data ss:Type='String'>[u:1]</Data></Cell>
    <Cell><Data ss:Type='Number'>" ++ str_of_int oper ++ xq "</Data></Cell>
    <Cell><Data ss:Type='Number'>" ++ str_of_int newd ++ xq "</Data></Cell>
   </Row>
".

Definition xml_tail : str :=
  xq "  </Table>
  <WorksheetOptions xmlns='urn:schemas-microsoft-com:office:excel'>
   <ProtectObjects>False</ProtectObjects>
   <ProtectScenarios>False</ProtectScenarios>
  </WorksheetOptions>
 </Worksheet>
</Workbook>
".

(** The [try] block of the record loop. *)
Definition parse_record (rec : gmap str str) : result (Z * Z) :=
  so ← dict_get rec REQ_OPER;
  oper ← py_int so;
  sn ← dict_get rec REQ_NEW;
  newd ← py_int sn;
  mret (oper, newd).

(** [rows_xml] after the loop. *)
Fixpoint rows_xml (records : list (gmap str str)) : list str :=
  match records with
  | [] => []
  | rec :: rest =>
      match parse_record rec with
      | Err _ => rows_xml rest
      | Ok (oper, newd) => xml_row oper newd :: rows_xml rest
      end
  end.

(** [build_xml]; the clock reading [created_utc] is an argument. *)
Definition build_xml (created_utc : str) (records : list (gmap str str))
  : str :=
  xml_head created_utc ++ concat (rows_xml records) ++ xml_tail.

End Builder.

(** ** Files and folders *)

Local Open Scope Q_scope.

(** A file of a folder as the program can observe it: what [stat],
    [unlink] and a later [exists] followed by [read] give.  Times are
    exact rationals. *)
Record file := File {
  f_name : str;
  f_mtime : result Q;
  f_unlink : result unit;
  f_read : option (result str)
}.

(** A folder that is not there, or the files [Path.glob] finds in it:
    listing a folder that is there is taken to succeed. *)
Inductive folder :=
| Absent
| Present (files : list file).

Definition Qlt_bool (a b : Q) : bool := negb (Qle_bool b a).

Section Files.
Context `{PyRuntime}.

(** [folder.glob(pattern)] on an existing folder. *)
Definition glob (pattern : str) (files : list file) : list file :=
  List.filter (fun f => fnmatch pattern (f_name f)) files.

(** The body of the loop of [remove_old_files], on the pair of the
    counter [removed] and the files unlinked so far. *)
Definition purge_step (cutoff : Q) (acc : Z * list file) (p : file)
  : Z * list file :=
  match f_mtime p with
  | Err _ => acc
  | Ok m =>
      if Qlt_bool m cutoff then
        match f_unlink p with
        | Err _ => acc
        | Ok _ => ((acc.1 + 1)%Z, acc.2 ++ [p])
        end
      else acc
  end.

(** Whether converting the integer [n] to a [float] raises: from
    [2^1024 - 2^970] on, rounding to 53 bits passes the largest double. *)
Definition float_overflows (n : Z) : bool :=
  (2 ^ 1024 - 2 ^ 970 <=? Z.abs n)%Z.

Definition int_too_large : exn :=
  Exn OverflowError (lit "int too large to convert to float").

(** [remove_old_files]: the count returned and the files deleted;
    [now] is [time.time()].  The cutoff is computed before the loop and
    outside its [try]: [time.time() - retain_days * 86400] converts the
    integer product to a [float] and raises when that overflows. *)
Definition remove_old_files (now : Q) (dir : folder) (pattern : str)
  (retain_days : Z) : result (Z * list file) :=
  match dir with
  | Absent => Ok (0%Z, [])
  | Present files =>
      if (retain_days <=? 0)%Z then Ok (0%Z, []) else
      if float_overflows (retain_days * 86400) then Err int_too_large else
      let cutoff := now - inject_Z (retain_days * 86400) in
      Ok (fold_left (purge_step cutoff) (glob pattern files) (0%Z, []))
  end.

(** The body of the loop of [find_latest_txt_after]. *)
Definition latest_step (epoch : Q) (acc : option file * Q) (p : file)
  : option file * Q :=
  match f_mtime p with
  | Err _ => acc
  | Ok m =>
      if Qle_bool epoch m && Qlt_bool acc.2 m then (Some p, m) else acc
  end.

Definition find_latest_txt_after (dir : folder) (epoch : Q) : option file :=
  match dir with
  | Absent => None
  | Present files =>
      (fold_left (latest_step epoch) (glob (lit "*.txt") files) (None, 0)).1
  end.

(** [max(it, key=lambda p: p.stat().st_mtime)]: the first file of the
    greatest key; [ValueError] on an empty sequence, and the exception of
    [stat] when a key cannot be computed. *)
Fixpoint max_loop (best : file) (best_key : Q) (rest : list file)
  : result file :=
  match rest with
  | [] => Ok best
  | p :: rest' =>
      match f_mtime p with
      | Err e => Err e
      | Ok m =>
          if Qlt_bool best_key m then max_loop p m rest'
          else max_loop best best_key rest'
      end
  end.

Definition max_by_mtime (l : list file) : result file :=
  match l with
  | [] => Err (Exn ValueError max_empty_msg)
  | p :: rest =>
      match f_mtime p with
      | Err e => Err e
      | Ok m => max_loop p m rest
      end
  end.

End Files.

Local Close Scope Q_scope.

(** ** The run: context, effects and the outside world *)

Record config := Config {
  retain_days : Z;
  host : str;
  port : str;
  fa_user : str;
  fa_pass : str;
  from_addr : str;
  recips : list str;
  show_loader_window : bool
}.

(** What the loader process does once [subprocess.run] is called. *)
Inductive proc_behaviour :=
| LaunchFails (e : exn)
| Exits (returncode : Z) (seconds : Q)
| Hangs.

(** Everything [main] reads from outside, one field per place it looks. *)
Record world := World {
  w_stamp : str;
  w_when_str : str;
  w_date : str;
  w_platform : str;
  w_prepare : result unit;
  w_create_log : result unit;
  w_options : result config;
  w_log_append : result unit;
  w_assets_input_exists : bool;
  w_copy_input : result unit;
  w_now_inputs : Q;
  w_input_dir : folder;
  w_dest_csv : csv_file;
  w_created_utc : str;
  w_write_xml : result unit;
  w_write_runfile : result unit;
  w_start_epoch : Q;
  w_exe_path : str;
  w_exe_exists : bool;
  w_loader : proc_behaviour;
  w_active_list : csv_file;
  w_fa_txt_folder_path : str;
  w_fa_txt_folder : folder;
  w_ensure_emails_dir : result unit;
  w_write_email : result unit;
  w_smtp : result unit;
  w_smtp_quit : result unit;
  w_now_logs : Q;
  w_logs_dir : folder;
  w_append_loader_log : result unit;
  w_fatal_log : result unit
}.

(** Lines 282 to 302 as a whole: the configuration file read and the
    four managed folders made sure of ([w_prepare], lines 282 to 289), the
    run log created with its header ([w_create_log], lines 292 and 293)
    and the options read from the configuration ([w_options], lines 295
    to 302), each only when the ones before it succeeded. *)
Definition w_setup (w : world) : result config :=
  match w_prepare w with
  | Err e => Err e
  | Ok _ =>
      match w_create_log w with
      | Err e => Err e
      | Ok _ => w_options w
      end
  end.

(** What a run does to the outside: only what succeeded is listed, and
    making sure of a folder is not. *)
Inductive effect :=
| CreateLog (header : str)
| LogAppend (line : str)
| WriteInputCopy (name : str)
| Unlink (name : str)
| WriteXml (name content : str)
| WriteRunfile (content : str)
| RunLoader (cmd : list str) (flags timeout : Z) (outcome : result Z)
| WriteEmail (name html : str)
| SendEmail (sender : str) (to : list str) (subject html : str)
| AppendLoaderLog (content : str)
| FatalLog (name line : str).

(** [RunContext] (its clock readings are in the world) and the effects
    so far. *)
Record state := State {
  lines : list str;
  subject_status : str;
  log_path : option str;
  effects : list effect
}.

Definition initial_state : state :=
  {| lines := []; subject_status := lit "OK"; log_path := None;
     effects := [] |}.

(** ** A state and exception monad *)

Definition M (A : Type) : Type := state -> result A * state.

Definition ret {A} (a : A) : M A := fun s => (Ok a, s).

Definition bind {A B} (m : M A) (f : A -> M B) : M B := fun s =>
  match m s with
  | (Ok a, s') => f a s'
  | (Err e, s') => (Err e, s')
  end.

(** [try: m  except Exception as e: h e] *)
Definition try_except {A} (m : M A) (h : exn -> M A) : M A := fun s =>
  match m s with
  | (Ok a, s') => (Ok a, s')
  | (Err e, s') => h e s'
  end.

(** A call into the outside world whose result the world decides. *)
Definition lift {A} (r : result A) : M A := fun s => (r, s).

Definition emit (e : effect) : M unit := fun s =>
  (Ok tt, {| lines := lines s; subject_status := subject_status s;
             log_path := log_path s; effects := effects s ++ [e] |}).

Definition set_status (v : str) : M unit := fun s =>
  (Ok tt, {| lines := lines s; subject_status := v;
             log_path := log_path s; effects := effects s |}).

Definition set_log_path (p : str) : M unit := fun s =>
  (Ok tt, {| lines := lines s; subject_status := subject_status s;
             log_path := Some p; effects := effects s |}).

Definition get_status : M str := fun s => (Ok (subject_status s), s).

#[export] Instance M_ret : MRet M := @ret.
#[export] Instance M_bind : MBind M := fun A B f m => bind m f.

Notation "m1 ;; m2" := (bind m1 (fun _ => m2))
  (at level 100, m2 at level 200, right associativity).

(** ** Small string helpers *)

Definition nl : str := [10].
Definition crlf : str := [13; 10].
Definition em_dash : str := [8212].
Definition right_arrow : str := [8594].

(** [s.startswith(p)] *)
Fixpoint startswith (p s : str) : bool :=
  match p, s with
  | [], _ => true
  | _ :: _, [] => false
  | a :: p', b :: s' => (a =? b) && startswith p' s'
  end.

(** [html.escape(s)] *)
Definition html_escape (s : str) : str :=
  flat_map (fun c =>
    if c =? 38 then lit "&amp;"
    else if c =? 60 then lit "&lt;"
    else if c =? 62 then lit "&gt;"
    else if c =? 34 then lit "&quot;"
    else if c =? 39 then lit "&#x27;"
    else [c]) s.

(** ** The orchestrator *)

Section Run.
Context `{PyRuntime}.
Variable w : world.

(** [RunContext.add] *)
Definition add (msg : str) : M unit := fun s =>
  let s1 := {| lines := lines s ++ [msg]; subject_status := subject_status s;
               log_path := log_path s; effects := effects s |} in
  match log_path s, w_log_append w with
  | Some _, Ok _ => emit (LogAppend (msg ++ nl)) s1
  | _, _ => (Ok tt, s1)
  end.

Definition ISSUE : str := lit "ISSUE".
Definition SUCCESS : str := lit "SUCCESS".

Definition dest_csv_name : str :=
  lit "UnmatchedDepartment_" ++ w_stamp w ++ lit ".csv".
Definition xml_name : str := w_date w ++ lit " update operator depts.xml".
Definition email_file_name : str :=
  lit "DepartmentUpdate_EMAIL_" ++ w_stamp w ++ lit ".html".
Definition run_log_name : str :=
  lit "DepartmentUpdate_LOG_" ++ w_stamp w ++ lit ".txt".

(** The text the run log is created with. *)
Definition log_header : str :=
  lit "Operator Department Updater " ++ em_dash ++ lit " Run Report" ++ nl ++
  lit "Date: " ++ w_when_str w ++ nl ++ nl.

(** Lines 282 to 302: the configuration and the managed folders, then
    [ctx.log_path] and the run log with its header, then the options. *)
Definition setup : M config :=
  lift (w_prepare w);;
  set_log_path run_log_name;;
  lift (w_create_log w);;
  emit (CreateLog log_header);;
  cfg ← lift (w_options w);
  mret cfg.

(** Step 1; the result tells whether [dest_csv] is set. *)
Definition copy_input : M bool :=
  if w_assets_input_exists w then
    try_except
      (lift (w_copy_input w);;
       emit (WriteInputCopy dest_csv_name);;
       add (lit "Input CSV copied to local input folder"))
      (fun e =>
         add (lit "Input copy failed: " ++ exn_msg e);;
         set_status ISSUE);;
    mret true
  else
    add (lit "Input source not found");;
    set_status ISSUE;;
    mret false.

(** A call of [remove_old_files] with the line that reports it. *)
Definition purge (now : Q) (dir : folder) (pattern what : str)
  (days : Z) : M unit :=
  bind (lift (remove_old_files now dir pattern days))
       (fun r : Z * list file =>
          fold_right (fun f k => emit (Unlink (f_name f));; k) (mret tt) r.2;;
          if (r.1 =? 0)%Z then mret tt
          else add (lit "Removed old " ++ what ++ lit " older than " ++
                    str_of_int days ++ lit " days: " ++ str_of_int r.1)).

(** Step 2 *)
Definition parse_input (dest_set : bool) : M (list (gmap str str)) :=
  match dest_set, w_dest_csv w with
  | false, _ | _, Missing => mret []
  | true, f =>
      try_except
        (records ← lift (match f with
                         | Rows rows => read_unmatched rows
                         | Unreadable e => Err e
                         | Missing => Ok []
                         end);
         add (lit "Parsed " ++ str_of_int (Z.of_nat (length records)) ++
              lit " record(s) from CSV");;
         (if is_empty records then set_status ISSUE else mret tt);;
         mret records)
        (fun e =>
           add (lit "CSV parse failed: " ++ exn_msg e);;
           set_status ISSUE;;
           mret [])
  end.

(** Step 3; the result is [xml_generated]. *)
Definition generate_xml (records : list (gmap str str)) : M bool :=
  if is_empty records then
    add (lit "No records to write into XML");;
    set_status ISSUE;;
    mret false
  else
    try_except
      (let xml_content := build_xml (w_created_utc w) records in
       lift (w_write_xml w);;
       emit (WriteXml xml_name xml_content);;
       add (lit "XML generated: " ++ xml_name);;
       mret true)
      (fun e =>
         add (lit "XML generation failed: " ++ exn_msg e);;
         set_status ISSUE;;
         mret false).

(** Step 4 *)
Definition runfile_text (cfg : config) : str :=
  lit "setlocal" ++ crlf ++
  xq "pushd '%~dp0'" ++ crlf ++
  xq "FADATALOADER.EXE -n '10' -l 'logs' -a '" ++ host cfg ++ lit ":" ++
  port cfg ++ xq "' -u '" ++ fa_user cfg ++ xq "' -p '" ++ fa_pass cfg ++
  xq "' -i '" ++ xml_name ++ xq "'" ++ crlf ++
  lit "popd" ++ crlf ++
  lit "endlocal" ++ crlf.

Definition write_runfile (cfg : config) : M unit :=
  try_except
    (lift (w_write_runfile w);;
     emit (WriteRunfile (runfile_text cfg));;
     add (lit "Data loader runfile prepared"))
    (fun e => add (lit "Runfile write failed: " ++ exn_msg e)).

(** Step 5 *)
Definition CREATE_NO_WINDOW : Z := 0x08000000.
Definition loader_timeout : Z := 180.

(** [subprocess.run(cmd, ..., timeout=t)]: the return code, or the
    exception raised when the launch fails or the time runs out. *)
Definition subprocess_run (cmd : list str) (flags t : Z) : M Z :=
  let outcome :=
    match w_loader w with
    | LaunchFails e => Err e
    | Exits rc seconds =>
        if Qle_bool seconds (inject_Z t) then Ok rc
        else Err (Exn TimeoutExpired (lit "timed out"))
    | Hangs => Err (Exn TimeoutExpired (lit "timed out"))
    end in
  emit (RunLoader cmd flags t outcome);;
  lift outcome.

Definition loader_cmd (cfg : config) : list str :=
  [w_exe_path w; lit "-n"; lit "10"; lit "-l"; lit "logs";
   lit "-a"; host cfg ++ lit ":" ++ port cfg; lit "-u"; fa_user cfg;
   lit "-p"; fa_pass cfg; lit "-i"; xml_name].

(** The value of [fa_result] when step 5 is over. *)
Definition loader_result (cfg : config) (xml_generated : bool) : M str :=
  if xml_generated && w_exe_exists w then
    try_except
      (let flags :=
         if startswith (lit "win") (w_platform w) &&
            negb (show_loader_window cfg)
         then Z.lor 0 CREATE_NO_WINDOW else 0%Z in
       rc ← subprocess_run (loader_cmd cfg) flags loader_timeout;
       if (rc =? 0)%Z then mret (lit "SUCCESS")
       else mret (lit "FAILED (exit code " ++ str_of_int rc ++ lit ")"))
      (fun e =>
         match exn_kind e with
         | TimeoutExpired => mret (lit "FAILED (timeout)")
         | _ => mret (lit "FAILED (exception: " ++ exn_msg e ++ lit ")")
         end)
  else if negb xml_generated then mret (lit "SKIPPED (no XML)")
  else mret (lit "FAILED (FADATALOADER.EXE not found)").

Definition run_loader (cfg : config) (xml_generated : bool) : M unit :=
  fa_result ← loader_result cfg xml_generated;
  set_status (if startswith (lit "SUCCESS") fa_result then SUCCESS
              else ISSUE);;
  add (lit "Data loader: " ++ fa_result).

(** Step 7: the loader's own log, then its escaped text. *)
Definition locate_loader_log : M (option file) :=
  match find_latest_txt_after (w_fa_txt_folder w) (w_start_epoch w) with
  | Some p => mret (Some p)
  | None =>
      match w_fa_txt_folder w with
      | Present files =>
          p ← lift (max_by_mtime (glob (lit "*.txt") files));
          mret (Some p)
      | Absent => mret None
      end
  end.

Definition no_log_found : str :=
  html_escape (lit "(No FA .txt log found in " ++ w_fa_txt_folder_path w ++
               lit ")").

Definition read_loader_log (fa_txt : option file) : M str :=
  match fa_txt with
  | Some p =>
      match f_read p with
      | Some r => fa_log_raw ← lift r; mret (html_escape fa_log_raw)
      | None => mret no_log_found
      end
  | None => mret no_log_found
  end.

(** Step 8 *)
Definition name_or_not_found (o : option str) : str :=
  match o with
  | Some n => str_or n (lit "Not Found")
  | None => lit "Not Found"
  end.

Definition dept_name_of (dept_to_name : gmap str str) (d : str) : str :=
  name_or_not_found (if is_empty d then None else dept_to_name !! d).

Definition row_line (oper_to_name dept_to_name : gmap str str)
  (rec : gmap str str) : str :=
  let oper := default [] (rec !! REQ_OPER) in
  let newd := default [] (rec !! REQ_NEW) in
  let oldd := default [] (rec !! OPT_OLD) in
  let op_name := name_or_not_found (oper_to_name !! oper) in
  let old_name := dept_name_of dept_to_name oldd in
  let new_name := dept_name_of dept_to_name newd in
  let left := oper ++ lit " (" ++ op_name ++ lit ")" in
  let right := str_or oldd em_dash ++ lit " (" ++ old_name ++
               lit ") &rarr; " ++ str_or newd em_dash ++ lit " (" ++
               new_name ++ lit ")" in
  lit "<tr><td class='c1'>" ++ left ++ lit "</td><td class='c2'>" ++
  right ++ lit "</td></tr>".

Definition email_html (rows_html fa_log_html : str) : str :=
  lit "<!DOCTYPE html><html><head>" ++
  lit "<style>" ++
  lit "body{font-family:Arial,sans-serif;font-size:14px;margin:24px;background:#111;color:#eee}" ++
  lit "table{border-collapse:collapse;width:1100px;table-layout:fixed;margin:0}" ++
  lit "th,td{border:1px solid #555;padding:8px 10px;text-align:left;white-space:nowrap;overflow:hidden;text-overflow:ellipsis}" ++
  lit "th{background:#222}" ++
  lit ".c1{width:350px}" ++
  lit ".c2{width:auto}" ++
  lit "h2{margin:0 0 10px 0} h3{margin:20px 0 8px 0}" ++
  lit "pre.log{background:#0b0b0b;border:1px solid #444;padding:10px;max-height:500px;overflow:auto;white-space:pre-wrap}" ++
  lit "hr{border:0;border-top:1px solid #444;margin:20px 0}" ++
  lit "</style></head><body>" ++
  lit "<h2>Operator Department Updater " ++ em_dash ++
  lit " Run Report</h2>" ++
  lit "<p>Date: " ++ w_when_str w ++ lit "</p>" ++
  lit "<table><tr><th class='c1'>Operator</th><th class='c2'>Old Dept " ++
  right_arrow ++ lit " New Dept</th></tr>" ++ rows_html ++ lit "</table>" ++
  lit "<hr><h3>DataLoader Confirmation</h3><pre class='log'>" ++
  fa_log_html ++ lit "</pre>" ++
  lit "</body></html>".

Definition email_subject (status : str) (records : list (gmap str str))
  : str :=
  lit "[Operator Dept Update] " ++ w_when_str w ++ lit " " ++ em_dash ++
  lit " " ++ status ++ lit " " ++ em_dash ++ lit " " ++
  str_of_int (Z.of_nat (length records)) ++ lit " records".

(** [send_email_html]: the pair [(sent, err)].  [w_smtp] is the session
    up to and including [send_message]: [Ok] when the server took the
    message.  [w_smtp_quit] is the end of the [with] block after that,
    where [SMTP.__exit__] raises when the answer to [QUIT] is not 221. *)
Definition send_email_html (sender : str) (to : list str)
  (subject html_body : str) : M (bool * option str) :=
  try_except
    (if is_empty to then mret (false, Some (lit "No recipients configured"))
     else
       lift (w_smtp w);;
       emit (SendEmail sender to subject html_body);;
       lift (w_smtp_quit w);;
       mret (true, None))
    (fun e => mret (false, Some (exn_msg e))).

Definition report (cfg : config) (records : list (gmap str str))
  (names : gmap str str * gmap str str) (fa_log_html : str) : M unit :=
  lift (w_ensure_emails_dir w);;
  let rows_html :=
    concat (List.map (row_line names.1 names.2) (take 400 records)) in
  let html := email_html rows_html fa_log_html in
  try_except
    (lift (w_write_email w);;
     emit (WriteEmail email_file_name html);;
     add (lit "Email report generated and saved"))
    (fun e => add (lit "Email HTML save failed: " ++ exn_msg e));;
  status ← get_status;
  bind (send_email_html (from_addr cfg) (recips cfg)
          (email_subject status records) html)
       (fun '(sent, err) =>
          add (if sent then lit "Email sent"
               else lit "Email send failed: " ++ default (lit "None") err)).

(** Step 9 *)
Definition loader_log_banner : str :=
  nl ++ repeat 61 72 ++ nl ++ lit "FA Data Loader Log (raw .txt)" ++ nl ++
  repeat 61 72 ++ nl.

(** [append_full_loader_log], best effort. *)
Definition append_full_loader_log (txt_path : option file) : M unit :=
  match txt_path with
  | Some p =>
      match f_read p with
      | Some (Ok content) =>
          try_except
            (lift (w_append_loader_log w);;
             emit (AppendLoaderLog (loader_log_banner ++ content ++ nl)))
            (fun _ => mret tt)
      | _ => mret tt
      end
  | None => mret tt
  end.

Definition retention_and_append (cfg : config) (fa_txt : option file)
  : M unit :=
  purge (w_now_logs w) (w_logs_dir w) (lit "*.txt") (lit "logs")
        (retain_days cfg);;
  match fa_txt with
  | Some p =>
      match f_read p with
      | Some _ => append_full_loader_log fa_txt
      | None => mret tt
      end
  | None => mret tt
  end.

(** The [try] block of [main], in four parts. *)
Definition steps_1_to_4 : M (config * list (gmap str str) * bool) :=
  cfg ← setup;
  dest_set ← copy_input;
  purge (w_now_inputs w) (w_input_dir w) (lit "UnmatchedDepartment_*.csv")
        (lit "input files") (retain_days cfg);;
  records ← parse_input dest_set;
  xml_generated ← generate_xml records;
  write_runfile cfg;;
  mret (cfg, records, xml_generated).

Definition steps_7_to_9 (cfg : config) (records : list (gmap str str))
  (names : gmap str str * gmap str str) : M unit :=
  fa_txt ← locate_loader_log;
  fa_log_html ← read_loader_log fa_txt;
  report cfg records names fa_log_html;;
  retention_and_append cfg fa_txt.

Definition steps_5_to_9 (cfg : config) (records : list (gmap str str))
  (xml_generated : bool) : M unit :=
  run_loader cfg xml_generated;;
  names ← lift (index_active_list (w_active_list w));
  steps_7_to_9 cfg records names.

Definition main_body : M unit :=
 '(cfg, records, xml_generated) ← steps_1_to_4;
  steps_5_to_9 cfg records xml_generated.

(** The handler of [main]: one line in the fallback log, best effort. *)
Definition fatal (e : exn) : M unit :=
  try_except
    (lift (w_fatal_log w);;
     emit (FatalLog run_log_name (lit "[FATAL] " ++ exn_msg e ++ nl)))
    (fun _ => mret tt).

(** [main]: the state when the run is over. *)
Definition main : state := (try_except main_body fatal initial_state).2.

End Run.

(** ** Notions used to state the properties *)

Section Notions.
Context `{PyRuntime}.

(** Column [i] is the rightmost column of [header] (stripped and lowered)
    that is one of the synonyms [syn]. *)
Definition rightmost_match (syn : list str) (header : list str) (i : nat)
  : Prop :=
  (∃ h, header !! i = Some h ∧ str_in h syn = true) ∧
  ∀ j h, (i < j)%nat → header !! j = Some h → str_in h syn = false.

(** A key whose entry one iteration of the header loop sets exactly on a
    match with the synonyms [syn]. *)
Definition role (key : str) (syn : list str) : Prop :=
  ∀ (m : gmap str nat) i h,
    match_header m i h !! key = if str_in h syn then Some i else m !! key.

(** No column of [header] is one of the synonyms [syn]. *)
Definition unmatched (syn : list str) (header : list str) : Prop :=
  ∀ h, h ∈ header → str_in h syn = false.

(** The first row, in file order, that has at least four columns and
    whose column [key_col] normalizes to [k]. *)
Definition first_row_for (key_col : nat) (k : str)
  (data : list (list str)) : option (list str) :=
  List.find (fun r => (4 <=? length r)%nat &&
                      bool_decide (norm_num (col r key_col) = k)) data.

(** The operator id and the new department of a record when both are
    there and both parse as integers. *)
Definition both_integers (rec : gmap str str) : option (Z * Z) :=
  match rec !! REQ_OPER, rec !! REQ_NEW with
  | Some so, Some sn =>
      match py_int so, py_int sn with
      | Ok oper, Ok newd => Some (oper, newd)
      | _, _ => None
      end
  | _, _ => None
  end.

(** The integer pairs of the records that have them, in order. *)
Definition integer_pairs (records : list (gmap str str)) : list (Z * Z) :=
  omap both_integers records.

(** A file that [remove_old_files] deletes: it matches the pattern, its
    modification time is known and before the cutoff, and [unlink]
    succeeds. *)
Definition doomed (cutoff : Q) (pattern : str) (f : file) : bool :=
  fnmatch pattern (f_name f) &&
  match f_mtime f with
  | Ok m => Qlt_bool m cutoff
  | Err _ => false
  end &&
  match f_unlink f with
  | Ok _ => true
  | Err _ => false
  end.

(** The value of the variable [records] of [main] once step 2 is over. *)
Definition parsed_records (w : world) : list (gmap str str) :=
  if w_assets_input_exists w then
    match w_dest_csv w with
    | Rows rows =>
        match read_unmatched rows with
        | Ok records => records
        | Err _ => []
        end
    | _ => []
    end
  else [].

(** An effect that agrees with the records parsed in world [w]: the
    document is built from all of them and the subject of the email
    counts all of them. *)
Definition reports_all_records (w : world) (e : effect) : Prop :=
  match e with
  | WriteXml name content =>
      name = xml_name w ∧
      content = build_xml (w_created_utc w) (parsed_records w)
  | SendEmail _ _ subject _ =>
      ∃ status, subject = email_subject w status (parsed_records w)
  | _ => True
  end.

(** What [subprocess.run] gives in world [w]. *)
Definition loader_outcome (w : world) : result Z :=
  match w_loader w with
  | LaunchFails e => Err e
  | Exits rc seconds =>
      if Qle_bool seconds (inject_Z loader_timeout) then Ok rc
      else Err (Exn TimeoutExpired (lit "timed out"))
  | Hangs => Err (Exn TimeoutExpired (lit "timed out"))
  end.

(** The [creationflags] of the loader process. *)
Definition loader_flags (w : world) (cfg : config) : Z :=
  if startswith (lit "win") (w_platform w) && negb (show_loader_window cfg)
  then Z.lor 0 CREATE_NO_WINDOW else 0%Z.

(** The effects of step 5 before its narrative line: the loader is run
    when there is a document and an executable, and only then. *)
Definition loader_effects (w : world) (cfg : config) (xml_generated : bool)
  : list effect :=
  if xml_generated && w_exe_exists w
  then [RunLoader (loader_cmd w cfg) (loader_flags w cfg) loader_timeout
          (loader_outcome w)]
  else [].

(** The mirror of one narrative line in the run log, when it is written. *)
Definition log_effects (w : world) (s : state) (msg : str) : list effect :=
  match log_path s, w_log_append w with
  | Some _, Ok _ => [LogAppend (msg ++ nl)]
  | _, _ => []
  end.

(** The text of [fa_result] case by case. *)
Definition classify (w : world) (xml_generated : bool) : str :=
  if negb xml_generated then lit "SKIPPED (no XML)"
  else if negb (w_exe_exists w) then lit "FAILED (FADATALOADER.EXE not found)"
  else match loader_outcome w with
       | Ok rc =>
           if (rc =? 0)%Z then lit "SUCCESS"
           else lit "FAILED (exit code " ++ str_of_int rc ++ lit ")"
       | Err e =>
           match exn_kind e with
           | TimeoutExpired => lit "FAILED (timeout)"
           | _ => lit "FAILED (exception: " ++ exn_msg e ++ lit ")"
           end
       end.

End Notions.

(** The three tags of a loader outcome, read off the text of
    [fa_result]. *)
Inductive outcome_tag := TagSUCCESS | TagFAILED | TagSKIPPED.

Definition tag_of (fa_result : str) : option outcome_tag :=
  if startswith (lit "SUCCESS") fa_result then Some TagSUCCESS
  else if startswith (lit "FAILED") fa_result then Some TagFAILED
  else if startswith (lit "SKIPPED") fa_result then Some TagSKIPPED
  else None.

(** The tag the specification gives each situation: skipped without a
    document or without the executable, success on exit code zero,
    failed otherwise. *)
Definition specified_tag (w : world) (xml_generated : bool) : outcome_tag :=
  if negb xml_generated then TagSKIPPED
  else if negb (w_exe_exists w) then TagSKIPPED
  else match loader_outcome w with
       | Ok rc => if (rc =? 0)%Z then TagSUCCESS else TagFAILED
       | Err _ => TagFAILED
       end.

Definition is_email (e : effect) : bool :=
  match e with
  | WriteEmail _ _ | SendEmail _ _ _ _ => true
  | _ => false
  end.

Definition is_loader_success (e : effect) : bool :=
  match e with
  | RunLoader _ _ _ (Ok rc) => (rc =? 0)%Z
  | _ => false
  end.

Definition is_run_loader (e : effect) : bool :=
  match e with
  | RunLoader _ _ _ _ => true
  | _ => false
  end.

(** ** Reasoning about runs *)

(** From [s] to [s'] the effects and the narrative only grow, every new
    effect satisfies [G], and the status is unchanged or satisfies [S]. *)
Definition grows (G : effect -> Prop) (S : str -> Prop) (s s' : state)
  : Prop :=
  (∃ added, effects s' = effects s ++ added ∧ Forall G added) ∧
  (∃ said, lines s' = lines s ++ said) ∧
  (subject_status s' = subject_status s ∨ S (subject_status s')).

(** Whatever the state it starts in and whether or not it raises, [m]
    changes the state as [grows G S] allows. *)
Definition does {A} (G : effect -> Prop) (S : str -> Prop) (m : M A)
  : Prop :=
  ∀ s, grows G S s (m s).2.

(** When [m] returns, the value it returns satisfies [R]. *)
Definition yields {A} (m : M A) (R : A -> Prop) : Prop :=
  ∀ s a s', m s = (Ok a, s') → R a.

(** The test of log lines: every narrative line may be mirrored. *)
Definition allows_log (G : effect -> Prop) : Prop := ∀ l, G (LogAppend l).

(** The effects no property below singles out. *)
Definition plain (e : effect) : bool :=
  match e with
  | CreateLog _ | LogAppend _ | WriteInputCopy _ | Unlink _ | WriteRunfile _
  | AppendLoaderLog _ | FatalLog _ _ => true
  | _ => false
  end.

(** ** Sample data *)

Definition sample_config : config :=
  {| retain_days := 30; host := lit "fa-host"; port := lit "2000";
     fa_user := lit "loader"; fa_pass := lit "secret";
     from_addr := lit "no-reply@example.org";
     recips := [lit "fleet@example.org"]; show_loader_window := false |}.

Definition sample_file (name : string) (mtime : Q) : file :=
  {| f_name := lit name; f_mtime := Ok mtime; f_unlink := Ok tt;
     f_read := Some (Ok (lit "Load complete")) |}.

(** A run in which every step succeeds, with the choice of the loader's
    presence and of its log folder left open. *)
Definition sample_world (exe_exists : bool) (fa_txt_folder : folder)
  : world :=
  {| w_stamp := lit "2024-03-01_060000";
     w_when_str := lit "Mar 01, 2024 06:00";
     w_date := lit "2024-03-01";
     w_platform := lit "win32";
     w_prepare := Ok tt;
     w_create_log := Ok tt;
     w_options := Ok sample_config;
     w_log_append := Ok tt;
     w_assets_input_exists := true;
     w_copy_input := Ok tt;
     w_now_inputs := 1709272800;
     w_input_dir := Present [];
     w_dest_csv := Rows [[lit "oper_no"; lit "dept"];
                         [lit "0042"; lit " 007"];
                         [lit "T-X"; lit "12"]];
     w_created_utc := lit "2024-03-01T11:00:00Z";
     w_write_xml := Ok tt;
     w_write_runfile := Ok tt;
     w_start_epoch := 1709272801;
     w_exe_path := lit "DataLoad_21.1.x/FADATALOADER.EXE";
     w_exe_exists := exe_exists;
     w_loader := Exits 0 12;
     w_active_list := Rows [[lit "10"; lit "Sales"; lit "Jane"; lit "007"]];
     w_fa_txt_folder_path := lit "DataLoad_21.1.x/logs/2022";
     w_fa_txt_folder := fa_txt_folder;
     w_ensure_emails_dir := Ok tt;
     w_write_email := Ok tt;
     w_smtp := Ok tt;
     w_smtp_quit := Ok tt;
     w_now_logs := 1709272900;
     w_logs_dir := Present [];
     w_append_loader_log := Ok tt;
     w_fatal_log := Ok tt |}.

(** The sample world with another input file and another reference
    file. *)
Definition sample_world_with (dest_csv active_list : csv_file) : world :=
  let w := sample_world true Absent in
  {| w_stamp := w_stamp w;
     w_when_str := w_when_str w;
     w_date := w_date w;
     w_platform := w_platform w;
     w_prepare := w_prepare w;
     w_create_log := w_create_log w;
     w_options := w_options w;
     w_log_append := w_log_append w;
     w_assets_input_exists := w_assets_input_exists w;
     w_copy_input := w_copy_input w;
     w_now_inputs := w_now_inputs w;
     w_input_dir := w_input_dir w;
     w_dest_csv := dest_csv;
     w_created_utc := w_created_utc w;
     w_write_xml := w_write_xml w;
     w_write_runfile := w_write_runfile w;
     w_start_epoch := w_start_epoch w;
     w_exe_path := w_exe_path w;
     w_exe_exists := w_exe_exists w;
     w_loader := w_loader w;
     w_active_list := active_list;
     w_fa_txt_folder_path := w_fa_txt_folder_path w;
     w_fa_txt_folder := w_fa_txt_folder w;
     w_ensure_emails_dir := w_ensure_emails_dir w;
     w_write_email := w_write_email w;
     w_smtp := w_smtp w;
     w_smtp_quit := w_smtp_quit w;
     w_now_logs := w_now_logs w;
     w_logs_dir := w_logs_dir w;
     w_append_loader_log := w_append_loader_log w;
     w_fatal_log := w_fatal_log w |}.

(** ** Well-formed records *)

Section WellFormed.
Context `{PyRuntime}.

(** What every record has: both required values, not empty, and in the
    form [norm_num] leaves alone. *)
Definition well_formed_record (rec : gmap str str) : Prop :=
  ∃ oper newd,
    rec !! REQ_OPER = Some oper ∧ rec !! REQ_NEW = Some newd ∧
    oper ≠ [] ∧ newd ≠ [] ∧
    norm_num oper = oper ∧ norm_num newd = newd.

End WellFormed.

(** ** Recipients, in the console and in the updater *)

(** [sep.join(l)] *)
Fixpoint join (sep : str) (l : list str) : str :=
  match l with
  | [] => []
  | [x] => x
  | x :: rest => x ++ sep ++ join sep rest
  end.

(** [re.split] on a class of single characters and [s.split(c)] on one
    character: the pieces between the separators, the empty ones
    included. *)
Fixpoint split_on (p : char -> bool) (s : str) : list str :=
  match s with
  | [] => [[]]
  | c :: s' =>
      if p c then [] :: split_on p s'
      else match split_on p s' with
           | piece :: rest => (c :: piece) :: rest
           | [] => [[c]]
           end
  end.

Section Recipients.
Context `{PyRuntime}.

(** [[x.strip() for x in pieces if x.strip()]] *)
Definition stripped_parts (pieces : list str) : list str :=
  List.filter (fun x => negb (is_empty x)) (List.map strip pieces).

(** The class [[;,\n]] of [normalize_recipients]. *)
Definition is_recipient_sep (c : char) : bool :=
  (c =? 59) || (c =? 44) || (c =? 10).

(** [normalize_recipients] of the console. *)
Definition normalize_recipients (text : str) : str :=
  join (lit ", ") (stripped_parts (split_on is_recipient_sep text)).

(** The recipients value [save_config] stores for [recipients_list]. *)
Definition saved_recipients (recipients_list : list str) : str :=
  normalize_recipients (join (lit ", ") recipients_list).

(** [value.replace(";", ",")] *)
Definition replace_semicolons (value : str) : str :=
  List.map (fun c => if c =? 59 then 44 else c) value.

(** The list [recips] that [main] of the updater computes from the
    recipients value of the configuration. *)
Definition recipients_of (value : str) : list str :=
  stripped_parts (split_on (N.eqb 44) (replace_semicolons value)).

(** The list the console rebuilds its rows from: [re.split] on [[;,]]. *)
Definition console_emails (value : str) : list str :=
  stripped_parts (split_on (fun c => (c =? 59) || (c =? 44)) value).

(** An address as the console hands it over: trimmed, not empty, and
    without a comma, a semicolon or a line feed. *)
Definition clean_address (e : str) : Prop :=
  e ≠ [] ∧ strip e = e ∧ ∀ c, c ∈ e → is_recipient_sep c = false.

End Recipients.

(** ** Locating and loading the configuration *)

(** What [get_config_path] looks at: the variable [ODU_CONFIG], which
    paths exist, and the three places it tries in order. *)
Record machine := Machine {
  env_odu_config : option str;
  path_exists : str -> bool;
  app_config : str;
  cwd_config : str;
  base_config : str
}.

Definition config_not_found : exn :=
  Exn OSError (lit "config.ini not found (checked app dir, cwd, and base).").

(** [get_config_path] *)
Definition get_config_path (h : machine) : result str :=
  let search :=
    match List.find (path_exists h)
            [app_config h; cwd_config h; base_config h] with
    | Some p => Ok p
    | None => Err config_not_found
    end in
  match env_odu_config h with
  | Some env =>
      if negb (is_empty env) && path_exists h env then Ok env else search
  | None => search
  end.

Definition required_sections : list str :=
  [lit "PATHS"; lit "SERVER"; lit "UPLOAD"; lit "EMAIL"; lit "RETENTION"].

(** The loop of [load_config] over the required sections. *)
Fixpoint check_sections (cfg : gmap str (gmap str str)) (secs : list str)
  : result unit :=
  match secs with
  | [] => Ok tt
  | sec :: rest =>
      match cfg !! sec with
      | None =>
          Err (Exn ValueError (lit "Missing [" ++ sec ++ lit "] in config.ini"))
      | Some _ => check_sections cfg rest
      end
  end.

(** [load_config], on what [cfg.read] gave: the sections with their
    options, or the exception of the parser. *)
Definition load_config (read : result (gmap str (gmap str str)))
  : result (gmap str (gmap str str)) :=
  cfg ← read;
  _ ← check_sections cfg required_sections;
  mret (match cfg !! lit "OPTIONS" with
        | Some _ => cfg
        | None => <[lit "OPTIONS" := ∅]> cfg
        end).

(** ** More notions for runs *)

Definition is_write_xml (e : effect) : bool :=
  match e with
  | WriteXml _ _ => true
  | _ => false
  end.

Definition is_send_email (e : effect) : bool :=
  match e with
  | SendEmail _ _ _ _ => true
  | _ => false
  end.

(** [m] never raises. *)
Definition succeeds {A} (m : M A) : Prop :=
  ∀ s, ∃ a s', m s = (Ok a, s').

(** The text written through [ctx.log_path], in the order written: the
    header the run log is created with, the lines [RunContext.add]
    appends and what [append_full_loader_log] appends.  The line of the
    handler of [main] goes to a log of the same name under the application
    folder and is not part of it. *)
Definition run_log_text (l : list effect) : str :=
  flat_map (fun e => match e with
                     | CreateLog t | LogAppend t | AppendLoaderLog t => t
                     | _ => []
                     end) l.

(** The narrative as the run log has it: a line feed after each line. *)
Definition narrative_text (s : state) : str :=
  concat (List.map (fun line => line ++ nl) (lines s)).

(** The run log holds its header and then the narrative, line for
    line. *)
Definition mirrored (w : world) (s : state) : Prop :=
  is_Some (log_path s) ∧
  run_log_text (effects s) = log_header w ++ narrative_text s.

(** The same with, perhaps, the loader's log after the narrative. *)
Definition mirrored_with_loader_log (w : world) (s : state) : Prop :=
  ∃ tail,
    run_log_text (effects s) = log_header w ++ narrative_text s ++ tail ∧
    (tail = [] ∨
     (∃ u, w_append_loader_log w = Ok u) ∧
     ∃ content, tail = loader_log_banner ++ content ++ nl).

(** [m] keeps the property [I] of the state, raising or not. *)
Definition keeps {A} (I : state -> Prop) (m : M A) : Prop :=
  ∀ s, I s → I (m s).2.

(** From a state with [I], [m] ends in a state with [J], raising or
    not. *)
Definition leads {A} (I J : state -> Prop) (m : M A) : Prop :=
  ∀ s, I s → J (m s).2.

Definition is_unlink (e : effect) : bool :=
  match e with
  | Unlink _ => true
  | _ => false
  end.

(** The file [name] is one the run of [w] with configuration [cfg] may
    delete: a file of the input folder or of the logs folder that
    [remove_old_files] deletes there, with the pattern of that folder. *)
Definition deletes_expired `{PyRuntime} (w : world) (cfg : config)
  (name : str) : Prop :=
  ∃ files f,
    f ∈ files ∧ f_name f = name ∧ (0 < retain_days cfg)%Z ∧
    ((w_input_dir w = Present files ∧
      doomed (w_now_inputs w - inject_Z (retain_days cfg * 86400))%Q
             (lit "UnmatchedDepartment_*.csv") f = true) ∨
     (w_logs_dir w = Present files ∧
      doomed (w_now_logs w - inject_Z (retain_days cfg * 86400))%Q
             (lit "*.txt") f = true)).

(** [read_unmatched] from its first line: [opened] is what lines 139
    and 140 give, the rows of the file or the exception of [open], of the
    decoder or of [csv.reader]. *)
Definition read_unmatched_file `{PyRuntime}
  (opened : result (list (list str))) : result (list (gmap str str)) :=
  match opened with
  | Ok rows => read_unmatched rows
  | Err e => Err e
  end.

(** The decimal numeral a string of ASCII digits spells. *)
Definition digit_uint (c : char) (u : Decimal.uint) : Decimal.uint :=
  if c =? 48 then Decimal.D0 u else if c =? 49 then Decimal.D1 u
  else if c =? 50 then Decimal.D2 u else if c =? 51 then Decimal.D3 u
  else if c =? 52 then Decimal.D4 u else if c =? 53 then Decimal.D5 u
  else if c =? 54 then Decimal.D6 u else if c =? 55 then Decimal.D7 u
  else if c =? 56 then Decimal.D8 u else Decimal.D9 u.

Definition digits_uint (s : str) : Decimal.uint :=
  fold_right digit_uint Decimal.Nil s.

(** An email that is the one the run of [w] with configuration [cfg] and
    status [status] should send. *)
Definition mail_matches `{PyRuntime} (w : world) (cfg : config)
  (status : str) (e : effect) : Prop :=
  match e with
  | SendEmail sender to subject _ =>
      sender = from_addr cfg ∧ to = recips cfg ∧ to ≠ [] ∧
      w_smtp w = Ok tt ∧
      subject = email_subject w status (parsed_records w)
  | _ => True
  end.

(** * Properties *)

(** ** Strings *)

Section StringFacts.
Context `{PyRuntime}.

Lemma dropwhile_incl (p : char -> bool) (s : str) (c : char) :
  c ∈ dropwhile p s → c ∈ s.
Proof.
  induction s as [|a s IH]; simpl; [done|].
  destruct (p a); [|done].
  intros Hc. right. by apply IH.
Qed.

Lemma dropwhile_head (p : char -> bool) (s : str) (c : char) (r : str) :
  dropwhile p s = c :: r → p c = false.
Proof.
  induction s as [|a s IH]; simpl; [done|].
  destruct (p a) eqn:E; [done|].
  intros [= <- _]. done.
Qed.

Lemma dropwhile_false_head (p : char -> bool) (c : char) (s : str) :
  p c = false → dropwhile p (c :: s) = c :: s.
Proof. intros E. simpl. by rewrite E. Qed.

Lemma dropwhile_idem (p : char -> bool) (s : str) :
  dropwhile p (dropwhile p s) = dropwhile p s.
Proof.
  destruct (dropwhile p s) as [|c r] eqn:E; [done|].
  apply dropwhile_false_head. by eapply dropwhile_head.
Qed.

Lemma dropwhile_snoc (p : char -> bool) (s : str) (c : char) :
  p c = false → dropwhile p (s ++ [c]) = dropwhile p s ++ [c].
Proof.
  intros E. induction s as [|a s IH]; simpl.
  - by rewrite E.
  - destruct (p a); [done|]. done.
Qed.

Lemma dropwhile_all (p : char -> bool) (s : str) :
  dropwhile p s = [] ↔ ∀ c, c ∈ s → p c = true.
Proof.
  induction s as [|a s IH]; simpl.
  - split; [|done]. intros _ c Hc. by apply elem_of_nil in Hc.
  - destruct (p a) eqn:E.
    + rewrite IH. split.
      * intros Hs c Hc. apply elem_of_cons in Hc as [->|Hc]; auto.
      * intros Hs c Hc. apply Hs. by right.
    + split; [done|]. intros Hs. specialize (Hs a). rewrite E in Hs.
      discriminate Hs. by left.
Qed.

Lemma rstrip_cons (c : char) (s : str) :
  isspace c = false → rstrip (c :: s) = c :: rstrip s.
Proof.
  intros E. unfold rstrip. simpl.
  rewrite dropwhile_snoc by done.
  by rewrite rev_app_distr.
Qed.

Lemma rstrip_idem (s : str) : rstrip (rstrip s) = rstrip s.
Proof.
  unfold rstrip. by rewrite rev_involutive, dropwhile_idem.
Qed.

Lemma rstrip_incl (s : str) (c : char) : c ∈ rstrip s → c ∈ s.
Proof.
  unfold rstrip. intros Hc.
  apply list_elem_of_In, in_rev, list_elem_of_In in Hc.
  apply dropwhile_incl in Hc.
  by apply list_elem_of_In, in_rev, list_elem_of_In.
Qed.

Lemma strip_incl (s : str) (c : char) : c ∈ strip s → c ∈ s.
Proof.
  intros Hc. by apply dropwhile_incl with isspace, rstrip_incl.
Qed.

(** [strip] changes nothing the second time. *)
Lemma strip_idem (s : str) : strip (strip s) = strip s.
Proof.
  unfold strip, lstrip.
  destruct (dropwhile isspace s) as [|c r] eqn:E; [done|].
  pose proof (dropwhile_head _ _ _ _ E) as Hc.
  rewrite rstrip_cons by done.
  rewrite dropwhile_false_head by done.
  rewrite <- rstrip_cons by done.
  apply rstrip_idem.
Qed.

(** A string with a character that is not white space does not strip to
    the empty string. *)
Lemma strip_nonempty (s : str) :
  (∃ c, c ∈ s ∧ isspace c = false) → strip s ≠ [].
Proof.
  intros (c & Hc & Hsp) Hs. unfold strip, lstrip in Hs.
  destruct (dropwhile isspace s) as [|a r] eqn:E.
  - apply dropwhile_all with (c := c) in E; [congruence|done].
  - rewrite rstrip_cons in Hs; [done|]. by eapply dropwhile_head.
Qed.

Lemma filter_nil_incl (p : char -> bool) (s t : str) :
  (∀ c, c ∈ t → c ∈ s) → List.filter p s = [] → List.filter p t = [].
Proof.
  intros Hincl Hs.
  destruct (List.filter p t) as [|c r] eqn:E; [done|].
  assert (In c (List.filter p t)) as Hc by (rewrite E; by left).
  apply filter_In in Hc as [Hc Hp].
  assert (In c (List.filter p s)) as Hc'.
  { apply filter_In. split; [|done].
    apply list_elem_of_In, Hincl, list_elem_of_In, Hc. }
  by rewrite Hs in Hc'.
Qed.

Lemma filter_all (p : char -> bool) (s : str) :
  (∀ c, c ∈ s → p c = true) → List.filter p s = s.
Proof.
  induction s as [|a s IH]; simpl; [done|].
  intros Hs. rewrite (Hs a) by by left.
  f_equal. apply IH. intros c Hc. apply Hs. by right.
Qed.

Lemma filter_sound (p : char -> bool) (s : str) (c : char) :
  c ∈ List.filter p s → p c = true.
Proof.
  rewrite list_elem_of_In, filter_In. tauto.
Qed.

Lemma isdigit_zero : isdigit 48 = true.
Proof. reflexivity. Qed.

(** The digits of [s] in the order of [s], without the leading zeros,
    or ["0"] when nothing is left: all digits, not empty, and unchanged
    by taking the digits or dropping leading zeros again. *)
Lemma digits_result (t : str) :
  t ≠ [] → (∀ c, c ∈ t → isdigit c = true) →
  let r := str_or (lstrip_zeros t) (lit "0") in
  r ≠ [] ∧ List.filter isdigit r = r ∧
  str_or (lstrip_zeros r) (lit "0") = r.
Proof.
  intros Ht Hd r. subst r. unfold lstrip_zeros.
  destruct (dropwhile (N.eqb 48) t) as [|c u] eqn:E.
  - repeat split; done.
  - cbn [str_or]. split; [done|]. split.
    + assert (∀ x, x ∈ c :: u → isdigit x = true) as Hall.
      { intros x Hx. apply Hd. apply dropwhile_incl with (N.eqb 48).
        by rewrite E. }
      apply (filter_all isdigit (c :: u) Hall).
    + pose proof (dropwhile_head _ _ _ _ E) as Hc.
      by rewrite dropwhile_false_head.
Qed.

End StringFacts.

(** ** The normalizer *)

Section Normalizer.
Context `{PyRuntime}.

Lemma dropwhile_forallb (p : char -> bool) (t d : str) :
  str_or (dropwhile p t) d = if forallb p t then d else dropwhile p t.
Proof.
  induction t as [|c t IH]; simpl; [done|].
  destruct (p c); simpl; done.
Qed.

(** C8: [norm_num] is idempotent, on every string. *)
Theorem norm_num_idempotent (s : str) :
  norm_num (norm_num s) = norm_num s.
Proof.
  unfold norm_num at 2 3.
  destruct (List.filter isdigit s) as [|c t] eqn:E.
  - unfold norm_num.
    rewrite (filter_nil_incl isdigit s (strip s) (strip_incl s) E).
    apply strip_idem.
  - destruct (digits_result (c :: t)) as (Hne & Hfilter & Hzeros); [done| |].
    { intros x Hx. apply (filter_sound isdigit s). by rewrite E. }
    unfold norm_num. rewrite Hfilter.
    destruct (str_or (lstrip_zeros (c :: t)) (lit "0")); done.
Qed.

(** C4, as the code has it: an input with a character that is not white
    space normalizes to a string that is not empty.  Without a digit the
    result is the trimmed input; with one, it is the digits without their
    leading zeros, or ["0"] when all of them are zeros. *)
Theorem norm_num_nonempty (s : str) :
  (∃ c, c ∈ s ∧ isspace c = false) →
  norm_num s ≠ [] ∧
  (List.filter isdigit s = [] → norm_num s = strip s) ∧
  (List.filter isdigit s ≠ [] →
   norm_num s = if forallb (N.eqb 48) (List.filter isdigit s) then lit "0"
                else lstrip_zeros (List.filter isdigit s)).
Proof.
  intros Hs. unfold norm_num.
  destruct (List.filter isdigit s) as [|c t] eqn:E.
  - split; [by apply strip_nonempty|]. split; done.
  - destruct (digits_result (c :: t)) as (Hne & _); [done| |].
    { intros x Hx. apply (filter_sound isdigit s). by rewrite E. }
    split; [done|]. split; [done|].
    intros _. apply dropwhile_forallb.
Qed.

End Normalizer.

Lemma norm_num_nonempty_witness :
  (∃ c, c ∈ lit " 0042" ∧ isspace c = false) ∧
  norm_num (lit " 0042") ≠ [] ∧ norm_num (lit " 0042") = lit "42".
Proof.
  assert (∃ c, c ∈ lit " 0042" ∧ isspace c = false) as Hs.
  { exists 48%N. split; [right; by left | reflexivity]. }
  split; [exact Hs|].
  split; [exact (proj1 (norm_num_nonempty (lit " 0042") Hs)) | reflexivity].
Defined.

(** C4, as the specification has it, fails on a blank: the input is not
    empty and the result is, whatever the runtime. *)
Lemma norm_num_blank :
  lit " " ≠ [] ∧ ∀ R : PyRuntime, @norm_num R (lit " ") = [].
Proof. split; [done|]. intros R. reflexivity. Qed.

Example norm_num_0042 : norm_num (lit "0042") = lit "42".
Proof. reflexivity. Qed.
Example norm_num_007 : norm_num (lit " 007") = lit "7".
Proof. reflexivity. Qed.
Example norm_num_zeros : norm_num (lit "0-00") = lit "0".
Proof. reflexivity. Qed.
Example norm_num_text : norm_num (lit "  A b ") = lit "A b".
Proof. reflexivity. Qed.
Example str_of_int_signs :
  str_of_int (-120) = lit "-120" ∧ str_of_int 0 = lit "0".
Proof. split; reflexivity. Qed.

(** ** Header detection *)

Lemma keys_distinct :
  REQ_OPER ≠ REQ_NEW ∧ REQ_OPER ≠ OPT_OLD ∧ REQ_NEW ≠ OPT_OLD.
Proof. repeat split; intros E; vm_compute in E; discriminate E. Qed.

Section HeaderFacts.
Context `{PyRuntime}.

Lemma role_oper : role REQ_OPER oper_synonyms.
Proof.
  destruct keys_distinct as (H1 & H2 & H3).
  intros m i h. unfold match_header.
  destruct (str_in h oper_synonyms), (str_in h new_synonyms),
    (str_in h old_synonyms); by simplify_map_eq.
Qed.

Lemma role_new : role REQ_NEW new_synonyms.
Proof.
  destruct keys_distinct as (H1 & H2 & H3).
  intros m i h. unfold match_header.
  destruct (str_in h oper_synonyms), (str_in h new_synonyms),
    (str_in h old_synonyms); by simplify_map_eq.
Qed.

Lemma role_old : role OPT_OLD old_synonyms.
Proof.
  destruct keys_distinct as (H1 & H2 & H3).
  intros m i h. unfold match_header.
  destruct (str_in h oper_synonyms), (str_in h new_synonyms),
    (str_in h old_synonyms); by simplify_map_eq.
Qed.

Section Role.
Variables (key : str) (syn : list str).
Hypothesis Hrole : role key syn.

Lemma scan_unmatched (hs : list str) (i : nat) (m : gmap str nat) :
  unmatched syn hs → scan_header i hs m !! key = m !! key.
Proof.
  revert i m. induction hs as [|h hs IH]; intros i m Hun; simpl; [done|].
  rewrite IH, Hrole.
  - rewrite (Hun h); [done | by left].
  - intros h' Hh'. apply Hun. by right.
Qed.

Lemma scan_rightmost (hs : list str) (i j : nat) (m : gmap str nat) :
  rightmost_match syn hs j → scan_header i hs m !! key = Some (i + j)%nat.
Proof.
  revert i j m. induction hs as [|h hs IH]; intros i j m [(h0 & Hj & Hin) Hlater].
  - by rewrite lookup_nil in Hj.
  - simpl. destruct j as [|j].
    + simpl in Hj. injection Hj as ->.
      rewrite scan_unmatched, Hrole, Hin; [f_equal; lia|].
      intros h' Hh'. apply list_elem_of_lookup in Hh' as [k Hk].
      apply (Hlater (S k)); [lia | done].
    + rewrite (IH (S i) j); [f_equal; lia|].
      split; [by exists h0|].
      intros k h' Hk Hh'. apply (Hlater (S k)); [lia | done].
Qed.

End Role.

Lemma detect_unmatched_oper (row0 : list str) :
  unmatched oper_synonyms (header_low row0) →
  detect_names row0 !! REQ_OPER = None.
Proof.
  intros Hun. unfold detect_names.
  by rewrite (scan_unmatched _ _ role_oper).
Qed.

Lemma detect_unmatched_new (row0 : list str) :
  unmatched new_synonyms (header_low row0) →
  detect_names row0 !! REQ_NEW = None.
Proof.
  intros Hun. unfold detect_names.
  by rewrite (scan_unmatched _ _ role_new).
Qed.

(** What the fallback branch leaves in the map. *)
Lemma fallback_taken (ncols : nat) (m : gmap str nat) :
  m !! REQ_OPER = None ∨ m !! REQ_NEW = None →
  let m' := positional_fallback ncols m in
  m' !! REQ_OPER = Some 0%nat ∧
  ((3 ≤ ncols)%nat →
   m' !! OPT_OLD = Some 1%nat ∧ m' !! REQ_NEW = Some 2%nat) ∧
  (ncols = 2%nat →
   m' !! REQ_NEW = Some 1%nat ∧ m' !! OPT_OLD = m !! OPT_OLD).
Proof.
  destruct keys_distinct as (H1 & H2 & H3).
  intros Hnone m'.
  assert (m' = let m0 := <[REQ_OPER := 0%nat]> m in
               if (3 <=? ncols)%nat
               then <[REQ_NEW := 2%nat]> (<[OPT_OLD := 1%nat]> m0)
               else if (2 <=? ncols)%nat then <[REQ_NEW := 1%nat]> m0
                    else m0) as ->.
  { subst m'. unfold positional_fallback.
    destruct Hnone as [-> | Hn]; [done|].
    rewrite Hn. by destruct (m !! REQ_OPER). }
  cbn zeta. split; [|split].
  - destruct (3 <=? ncols)%nat, (2 <=? ncols)%nat; by simplify_map_eq.
  - intros Hn. apply Nat.leb_le in Hn. rewrite Hn. by simplify_map_eq.
  - intros ->. simpl. by simplify_map_eq.
Qed.

(** With both required roles matched by name, the parser works with the
    map of the matching loop as it is. *)
Lemma header_map_matched (row0 : list str) :
  is_Some (detect_names row0 !! REQ_OPER) →
  is_Some (detect_names row0 !! REQ_NEW) →
  header_map row0 = detect_names row0.
Proof.
  intros [a Ha] [b Hb]. unfold header_map, positional_fallback.
  by rewrite Ha, Hb.
Qed.

(** C10: in the role-to-column mapping the matching loop builds (lines
    144 to 152), each role has the index of the rightmost header column
    that is one of its synonyms, a later match having overwritten an
    earlier one; and when both the operator id and the new department are
    matched by name, those are the columns the parser reads. *)
Theorem rightmost_column_wins (row0 : list str) :
  (∀ i, rightmost_match oper_synonyms (header_low row0) i →
        detect_names row0 !! REQ_OPER = Some i) ∧
  (∀ i, rightmost_match new_synonyms (header_low row0) i →
        detect_names row0 !! REQ_NEW = Some i) ∧
  (∀ i, rightmost_match old_synonyms (header_low row0) i →
        detect_names row0 !! OPT_OLD = Some i) ∧
  (∀ i j, rightmost_match oper_synonyms (header_low row0) i →
          rightmost_match new_synonyms (header_low row0) j →
          header_map row0 !! REQ_OPER = Some i ∧
          header_map row0 !! REQ_NEW = Some j ∧
          ∀ k, rightmost_match old_synonyms (header_low row0) k →
               header_map row0 !! OPT_OLD = Some k).
Proof.
  assert (∀ i, rightmost_match oper_synonyms (header_low row0) i →
               detect_names row0 !! REQ_OPER = Some i) as Hoper.
  { intros i Hm. unfold detect_names.
    by rewrite (scan_rightmost _ _ role_oper _ _ i). }
  assert (∀ i, rightmost_match new_synonyms (header_low row0) i →
               detect_names row0 !! REQ_NEW = Some i) as Hnew.
  { intros i Hm. unfold detect_names.
    by rewrite (scan_rightmost _ _ role_new _ _ i). }
  assert (∀ i, rightmost_match old_synonyms (header_low row0) i →
               detect_names row0 !! OPT_OLD = Some i) as Hold.
  { intros i Hm. unfold detect_names.
    by rewrite (scan_rightmost _ _ role_old _ _ i). }
  repeat split; try done.
  all: intros; rewrite header_map_matched; eauto.
Qed.

(** C3: when the operator id or the new department has no header column
    among its synonyms, column 0 is the operator id; with three columns or
    more, column 1 is the old department and column 2 the new one; with
    exactly two, column 1 is the new department, so that the data row
    [A, 10] gives a record whose new department is ["10"]. *)
Theorem positional_scheme (row0 : list str) :
  unmatched oper_synonyms (header_low row0) ∨
  unmatched new_synonyms (header_low row0) →
  header_map row0 !! REQ_OPER = Some 0%nat ∧
  ((3 ≤ length row0)%nat →
   header_map row0 !! OPT_OLD = Some 1%nat ∧
   header_map row0 !! REQ_NEW = Some 2%nat) ∧
  (length row0 = 2%nat →
   header_map row0 !! REQ_NEW = Some 1%nat ∧
   ∃ rec, read_unmatched [row0; [lit "A"; lit " 10"]] = Ok [rec] ∧
          rec !! REQ_OPER = Some (lit "A") ∧
          rec !! REQ_NEW = Some (lit "10")).
Proof.
  intros Hun.
  assert (detect_names row0 !! REQ_OPER = None ∨
          detect_names row0 !! REQ_NEW = None) as Hnone.
  { destruct Hun; [left; by apply detect_unmatched_oper
                  |right; by apply detect_unmatched_new]. }
  destruct (fallback_taken (length row0) _ Hnone) as (H0 & H3 & H2).
  fold (header_map row0) in H0, H3, H2.
  split; [done|]. split; [done|].
  intros Hlen. destruct (H2 Hlen) as [Hnew Hold]. split; [done|].
  destruct keys_distinct as (K1 & K2 & K3).
  unfold read_unmatched. cbn [length Nat.ltb Nat.leb read_rows].
  unfold read_row, dict_get. cbn [is_empty]. rewrite H0, Hnew.
  destruct (header_map row0 !! OPT_OLD) as [i_old|]; eexists;
    (split; [reflexivity|]); split; by simplify_map_eq.
Qed.

End HeaderFacts.

Lemma rightmost_column_wins_witness :
  rightmost_match oper_synonyms
    (header_low [lit "ID"; lit " Operator "; lit "Dept"]) 1 ∧
  rightmost_match new_synonyms
    (header_low [lit "ID"; lit " Operator "; lit "Dept"]) 2 ∧
  header_map [lit "ID"; lit " Operator "; lit "Dept"] !! REQ_OPER
  = Some 1%nat.
Proof.
  assert (rightmost_match oper_synonyms
            (header_low [lit "ID"; lit " Operator "; lit "Dept"]) 1) as Hoper.
  { split.
    - exists (lit "operator"). split; reflexivity.
    - intros j h Hj Hh. destruct j as [|[|[|j]]]; [lia | lia | |].
      + vm_compute in Hh. injection Hh as <-. reflexivity.
      + vm_compute in Hh. discriminate Hh. }
  assert (rightmost_match new_synonyms
            (header_low [lit "ID"; lit " Operator "; lit "Dept"]) 2) as Hnew.
  { split.
    - exists (lit "dept"). split; reflexivity.
    - intros j h Hj Hh. destruct j as [|[|[|j]]]; [lia | lia | lia |].
      vm_compute in Hh. discriminate Hh. }
  split; [exact Hoper|]. split; [exact Hnew|].
  exact (proj1 (proj2 (proj2 (proj2
           (rightmost_column_wins [lit "ID"; lit " Operator "; lit "Dept"])))
           1%nat 2%nat Hoper Hnew)).
Defined.

(** After the loop, the guard of lines 154 to 160 may write over what it
    recorded: of the two operator columns the loop records the rightmost,
    column 1, and with no column for the new department the positional
    scheme then puts the operator id in column 0. *)
Example positional_scheme_after_loop :
  rightmost_match oper_synonyms
    (header_low [lit "id"; lit "oper"; lit "x"]) 1 ∧
  detect_names [lit "id"; lit "oper"; lit "x"] !! REQ_OPER = Some 1%nat ∧
  header_map [lit "id"; lit "oper"; lit "x"] !! REQ_OPER = Some 0%nat.
Proof.
  split; [|split; by vm_compute].
  split.
  - exists (lit "oper"). split; reflexivity.
  - intros j h Hj Hh. destruct j as [|[|[|j]]]; [lia | lia | |].
    + vm_compute in Hh. injection Hh as <-. reflexivity.
    + vm_compute in Hh. discriminate Hh.
Qed.

Lemma positional_scheme_witness :
  (unmatched oper_synonyms (header_low [lit "Badge"; lit "Unit"]) ∨
   unmatched new_synonyms (header_low [lit "Badge"; lit "Unit"])) ∧
  header_map [lit "Badge"; lit "Unit"] !! REQ_OPER = Some 0%nat ∧
  header_map [lit "Badge"; lit "Unit"] !! REQ_NEW = Some 1%nat.
Proof.
  assert (unmatched oper_synonyms (header_low [lit "Badge"; lit "Unit"]))
    as Hun.
  { intros h Hh.
    apply elem_of_cons in Hh as [->|Hh]; [reflexivity|].
    apply elem_of_cons in Hh as [->|Hh]; [reflexivity|].
    by apply elem_of_nil in Hh. }
  split; [by left|].
  destruct (positional_scheme [lit "Badge"; lit "Unit"] (or_introl Hun))
    as (H0 & _ & H2).
  split; [exact H0|]. exact (proj1 (H2 eq_refl)).
Defined.

Example read_unmatched_named :
  ∃ rec, read_unmatched [[lit "oper_no"; lit " dept"];
                         [lit "0042"; lit " 007"]] = Ok [rec] ∧
         rec !! REQ_OPER = Some (lit "42") ∧ rec !! REQ_NEW = Some (lit "7") ∧
         rec !! OPT_OLD = None.
Proof. eexists. split; [reflexivity|]. repeat split; by vm_compute. Qed.

(** A file of one row has no data row: the first row is always taken as
    the header. *)
Example read_unmatched_one_row :
  ∀ R : PyRuntime, @read_unmatched R [[lit "A"; lit " 10"]] = Ok [].
Proof. reflexivity. Qed.

(** A header of one column that matches no synonym leaves the new
    department without a column: the first data row raises [KeyError]. *)
Example read_unmatched_one_column :
  read_unmatched [[lit "Badge"]; [lit "7"]]
  = Err (Exn KeyError (lit "'CS_Dept'")).
Proof. by vm_compute. Qed.

(** ** The reference index *)

Section IndexFacts.
Context `{PyRuntime}.

Lemma setdefault_lookup (k k' v : str) (m : gmap str str) :
  setdefault k v m !! k' =
  match m !! k' with
  | Some v' => Some v'
  | None => if bool_decide (k = k') then Some v else None
  end.
Proof.
  unfold setdefault. case_bool_decide as Hk.
  - subst k'. destruct (m !! k) eqn:E; [by rewrite E|].
    by rewrite lookup_insert_eq.
  - destruct (m !! k) eqn:E.
    + by destruct (m !! k').
    + rewrite lookup_insert_ne by done. by destruct (m !! k').
Qed.

Lemma index_fold (data : list (list str)) (o d : gmap str str) (k : str) :
  (fold_left index_row data (o, d)).1 !! k =
    match o !! k with
    | Some v => Some v
    | None => if is_empty k then None
              else (fun r => strip (col r 2)) <$> first_row_for 3 k data
    end ∧
  (fold_left index_row data (o, d)).2 !! k =
    match d !! k with
    | Some v => Some v
    | None => if is_empty k then None
              else (fun r => strip (col r 1)) <$> first_row_for 0 k data
    end.
Proof.
  revert o d. induction data as [|r data IH]; intros o d.
  - simpl. split; [destruct (o !! k) | destruct (d !! k)];
      by destruct (is_empty k).
  - cbn [fold_left]. unfold index_row at 2 4. unfold first_row_for.
    cbn [List.find]. fold (first_row_for 3 k data) (first_row_for 0 k data).
    destruct (length r <? 4)%nat eqn:Hlen.
    + assert ((4 <=? length r)%nat = false) as ->.
      { apply Nat.ltb_lt in Hlen. apply Nat.leb_gt. lia. }
      apply IH.
    + assert ((4 <=? length r)%nat = true) as ->.
      { apply Nat.ltb_ge in Hlen. by apply Nat.leb_le. }
      cbn [andb fst snd].
      match goal with
      | |- context [fold_left index_row data (?o', ?d')] =>
          destruct (IH o' d') as [IHo IHd]
      end.
      rewrite IHo, IHd. clear IHo IHd. split.
      * destruct (is_empty (norm_num (col r 3))) eqn:Hk.
        -- case_bool_decide as Heq; [|done].
           subst k. rewrite Hk. by destruct (o !! _).
        -- rewrite setdefault_lookup.
           destruct (o !! k); [done|].
           case_bool_decide as Heq; [|done].
           subst k. by rewrite Hk.
      * destruct (is_empty (norm_num (col r 0))) eqn:Hk.
        -- case_bool_decide as Heq; [|done].
           subst k. rewrite Hk. by destruct (d !! _).
        -- rewrite setdefault_lookup.
           destruct (d !! k); [done|].
           case_bool_decide as Heq; [|done].
           subst k. by rewrite Hk.
Qed.

(** C6: an operator id is mapped to the operator name of the first data
    row, in file order, that has at least four columns and that id as its
    normalized fourth column, and a department code to the department name
    of the first such row with that code as its normalized first column;
    the empty key is never mapped. *)
Theorem first_write_wins (rows : list (list str)) :
  ∃ oper_to_name dept_to_name : gmap str str,
    index_active_list (Rows rows) = Ok (oper_to_name, dept_to_name) ∧
    ∀ k : str,
      let data := drop (start_idx rows) rows in
      oper_to_name !! k =
        (if is_empty k then None
         else (fun r => strip (col r 2)) <$> first_row_for 3 k data) ∧
      dept_to_name !! k =
        (if is_empty k then None
         else (fun r => strip (col r 1)) <$> first_row_for 0 k data).
Proof.
  exists (index_rows rows).1, (index_rows rows).2. split.
  - simpl. by destruct (index_rows rows).
  - intros k data. unfold index_rows. fold data.
    destruct (index_fold data ∅ ∅ k) as [Ho Hd].
    rewrite Ho, Hd, !lookup_empty. done.
Qed.

End IndexFacts.

Example index_duplicates :
  ∃ o d, index_active_list
           (Rows [[lit "Dept"; lit "DeptName"; lit "Name"; lit "ID"];
                  [lit "10"; lit "Sales"; lit "Jane"; lit "007"];
                  [lit "010"; lit "Retail"; lit "John"; lit "7"];
                  [lit "11"; lit "Short"; lit "Row"]]) = Ok (o, d) ∧
         o !! lit "7" = Some (lit "Jane") ∧
         d !! lit "10" = Some (lit "Sales") ∧
         d !! lit "11" = None.
Proof. eexists _, _. split; [reflexivity|]. repeat split; by vm_compute. Qed.


(** ** Rules for runs *)

Section RunRules.
Variables (G : effect -> Prop) (S : str -> Prop).

Lemma grows_refl (s : state) : grows G S s s.
Proof.
  repeat split.
  - exists []. by rewrite app_nil_r.
  - exists []. by rewrite app_nil_r.
  - by left.
Qed.

Lemma grows_trans (s1 s2 s3 : state) :
  grows G S s1 s2 → grows G S s2 s3 → grows G S s1 s3.
Proof.
  intros ((a1 & E1 & F1) & (l1 & L1) & St1) ((a2 & E2 & F2) & (l2 & L2) & St2).
  repeat split.
  - exists (a1 ++ a2). rewrite E2, E1, app_assoc. split; [done|].
    by apply Forall_app.
  - exists (l1 ++ l2). by rewrite L2, L1, app_assoc.
  - destruct St2 as [St2|St2]; [|by right].
    rewrite St2. destruct St1 as [St1|St1]; [by left | by right].
Qed.

Lemma does_ret {A} (a : A) : does G S (ret a).
Proof. intros s. apply grows_refl. Qed.

Lemma does_lift {A} (r : result A) : does G S (lift r).
Proof. intros s. apply grows_refl. Qed.

Lemma does_get_status : does G S get_status.
Proof. intros s. apply grows_refl. Qed.

Lemma does_set_log_path (p : str) : does G S (set_log_path p).
Proof.
  intros s. repeat split; simpl.
  - exists []. by rewrite app_nil_r.
  - exists []. by rewrite app_nil_r.
  - by left.
Qed.

Lemma does_emit (e : effect) : G e → does G S (emit e).
Proof.
  intros He s. repeat split; simpl.
  - exists [e]. split; [done|]. by constructor.
  - exists []. by rewrite app_nil_r.
  - by left.
Qed.

Lemma does_set_status (v : str) : S v → does G S (set_status v).
Proof.
  intros Hv s. repeat split; simpl.
  - exists []. by rewrite app_nil_r.
  - exists []. by rewrite app_nil_r.
  - by right.
Qed.

Lemma does_add (w : world) (msg : str) : allows_log G → does G S (add w msg).
Proof.
  intros Hlog s. unfold add.
  destruct (log_path s), (w_log_append w); repeat split; simpl;
    try (by exists []; rewrite app_nil_r); try (by left); try (by eexists).
  exists [LogAppend (msg ++ nl)]. split; [done|]. constructor; [apply Hlog|done].
Qed.

Lemma does_bind {A B} (m : M A) (f : A -> M B) :
  does G S m → (∀ a, does G S (f a)) → does G S (bind m f).
Proof.
  intros Hm Hf s. unfold bind. specialize (Hm s).
  destruct (m s) as [[a|e] s1]; simpl in *; [|done].
  eapply grows_trans; [exact Hm | apply Hf].
Qed.

Lemma does_bind_yields {A B} (R : A -> Prop) (m : M A) (f : A -> M B) :
  does G S m → yields m R → (∀ a, R a → does G S (f a)) →
  does G S (bind m f).
Proof.
  intros Hm Hy Hf s. unfold bind. specialize (Hm s).
  destruct (m s) as [[a|e] s1] eqn:E; simpl in *; [|done].
  eapply grows_trans; [exact Hm | apply Hf]. by eapply Hy.
Qed.

Lemma does_try {A} (m : M A) (h : exn -> M A) :
  does G S m → (∀ e, does G S (h e)) → does G S (try_except m h).
Proof.
  intros Hm Hh s. unfold try_except. specialize (Hm s).
  destruct (m s) as [[a|e] s1]; simpl in *; [done|].
  eapply grows_trans; [exact Hm | apply Hh].
Qed.

End RunRules.

Lemma yields_ret {A} (a : A) (R : A -> Prop) : R a → yields (ret a) R.
Proof. intros Ha s a' s' [= <- _]. done. Qed.

Lemma yields_bind {A B} (R1 : A -> Prop) (m : M A) (f : A -> M B)
  (R : B -> Prop) :
  yields m R1 → (∀ a, R1 a → yields (f a) R) → yields (bind m f) R.
Proof.
  intros Hm Hf s b s'. unfold bind.
  destruct (m s) as [[a|e] s1] eqn:E; [|done].
  apply Hf. by eapply Hm.
Qed.

Lemma yields_any {A} (m : M A) : yields m (fun _ => True).
Proof. by intros s a s' _. Qed.

(** The structure of a program decides most [does] goals: one rule per
    construct, a case split per test. *)
Ltac does_step :=
  lazymatch goal with
  | |- does _ _ (bind _ _) => apply does_bind; [|intros ?]
  | |- does _ _ (try_except _ _) => apply does_try; [|intros ?]
  | |- does _ _ (ret _) => apply does_ret
  | |- does _ _ (lift _) => apply does_lift
  | |- does _ _ get_status => apply does_get_status
  | |- does _ _ (set_log_path _) => apply does_set_log_path
  | |- does _ _ (emit _) => apply does_emit
  | |- does _ _ (set_status _) => apply does_set_status
  | |- does _ _ (add _ _) => apply does_add
  | |- does _ _ (if ?b then _ else _) => destruct b
  | |- does _ _ (match ?x with _ => _ end) => destruct x
  | |- does _ _ (let _ := _ in _) => cbv zeta
  end.

Ltac does_tac :=
  unfold mbind, M_bind, mret, M_ret; repeat does_step; auto.

(** ** The steps of a run *)

Section StepFacts.
Context `{PyRuntime}.
Variables (w : world) (G : effect -> Prop) (S : str -> Prop).
Hypothesis Hplain : ∀ e, plain e = true → G e.

Lemma log_allowed : allows_log G.
Proof. intros l. by apply Hplain. Qed.
Hint Resolve log_allowed : core.

Lemma does_setup : does G S (setup w).
Proof. unfold setup. does_tac. Qed.

Lemma does_copy_input : S ISSUE → does G S (copy_input w).
Proof. intros HS. unfold copy_input. does_tac. Qed.

Lemma does_emit_unlinks (deleted : list file) :
  does G S (fold_right (fun f k => emit (Unlink (f_name f));; k)
              (mret tt) deleted).
Proof. induction deleted as [|f deleted IH]; simpl; does_tac. Qed.

Lemma does_purge (now : Q) (dir : folder) (pattern what : str) (days : Z) :
  does G S (purge w now dir pattern what days).
Proof.
  unfold purge. apply does_bind; [apply does_lift|]. intros r.
  apply does_bind; [apply does_emit_unlinks|]. intros _. does_tac.
Qed.

Lemma does_parse_input (dest_set : bool) :
  S ISSUE → does G S (parse_input w dest_set).
Proof. intros HS. unfold parse_input. does_tac. Qed.

Lemma does_generate_xml (records : list (gmap str str)) :
  S ISSUE →
  G (WriteXml (xml_name w) (build_xml (w_created_utc w) records)) →
  does G S (generate_xml w records).
Proof. intros HS HG. unfold generate_xml. does_tac. Qed.

Lemma does_write_runfile (cfg : config) : does G S (write_runfile w cfg).
Proof. unfold write_runfile. does_tac. Qed.

Lemma does_loader_result (cfg : config) (xml_generated : bool) :
  (∀ c f t o, G (RunLoader c f t o)) →
  does G S (loader_result w cfg xml_generated).
Proof.
  intros HG. unfold loader_result, subprocess_run. does_tac.
Qed.

Lemma does_run_loader (cfg : config) (xml_generated : bool) :
  (∀ c f t o, G (RunLoader c f t o)) → S SUCCESS → S ISSUE →
  does G S (run_loader w cfg xml_generated).
Proof.
  intros HG HS1 HS2. unfold run_loader.
  unfold mbind, M_bind. apply does_bind; [by apply does_loader_result|].
  intros fa_result. destruct (startswith (lit "SUCCESS") fa_result); does_tac.
Qed.

Lemma does_locate_loader_log : does G S (locate_loader_log w).
Proof. unfold locate_loader_log. does_tac. Qed.

Lemma does_read_loader_log (fa_txt : option file) :
  does G S (read_loader_log w fa_txt).
Proof. unfold read_loader_log. does_tac. Qed.

Lemma does_report (cfg : config) (records : list (gmap str str))
  (names : gmap str str * gmap str str) (fa_log_html : str) :
  (∀ name html, G (WriteEmail name html)) →
  (∀ sender to st html,
     G (SendEmail sender to (email_subject w st records) html)) →
  does G S (report w cfg records names fa_log_html).
Proof.
  intros HG1 HG2. unfold report, send_email_html. does_tac.
Qed.

Lemma does_retention_and_append (cfg : config) (fa_txt : option file) :
  does G S (retention_and_append w cfg fa_txt).
Proof.
  unfold retention_and_append, append_full_loader_log.
  apply does_bind; [apply does_purge|]. intros _. does_tac.
Qed.

Lemma does_steps_7_to_9 (cfg : config) (records : list (gmap str str))
  (names : gmap str str * gmap str str) :
  (∀ name html, G (WriteEmail name html)) →
  (∀ sender to st html,
     G (SendEmail sender to (email_subject w st records) html)) →
  does G S (steps_7_to_9 w cfg records names).
Proof.
  intros HG1 HG2. unfold steps_7_to_9, mbind, M_bind.
  apply does_bind; [apply does_locate_loader_log|]. intros fa_txt.
  apply does_bind; [apply does_read_loader_log|]. intros fa_log_html.
  apply does_bind; [by apply does_report|]. intros _.
  apply does_retention_and_append.
Qed.

Lemma does_fatal (e : exn) : does G S (fatal w e).
Proof. unfold fatal. does_tac. Qed.

Lemma yields_copy_input :
  yields (copy_input w) (fun b => b = w_assets_input_exists w).
Proof.
  unfold copy_input. destruct (w_assets_input_exists w).
  - eapply yields_bind; [apply yields_any|]. intros _ _.
    by apply yields_ret.
  - eapply yields_bind; [apply yields_any|]. intros _ _.
    eapply yields_bind; [apply yields_any|]. intros _ _.
    by apply yields_ret.
Qed.

Lemma yields_parse_input :
  yields (parse_input w (w_assets_input_exists w))
         (fun records => records = parsed_records w).
Proof.
  intros s a s'.
  unfold parse_input, parsed_records, try_except, bind, mbind, M_bind,
    mret, M_ret, lift, add, set_status, emit, ret.
  destruct (w_assets_input_exists w); [|intros ?; by simplify_eq].
  destruct (w_dest_csv w) as [|e|rows]; [intros ?; by simplify_eq| |].
  - cbn -[lit]. destruct (log_path s), (w_log_append w); cbn -[lit];
      intros ?; by simplify_eq.
  - destruct (read_unmatched rows) as [records|e0]; cbn -[lit];
      destruct (log_path s), (w_log_append w); cbn -[lit];
      try destruct (is_empty records); cbn -[lit];
      intros ?; by simplify_eq.
Qed.

End StepFacts.

(** ** The loader step *)

Section LoaderFacts.
Context `{PyRuntime}.
Variable w : world.

Lemma add_run (msg : str) (s : state) :
  add w msg s =
  (Ok tt, {| lines := lines s ++ [msg]; subject_status := subject_status s;
             log_path := log_path s;
             effects := effects s ++ log_effects w s msg |}).
Proof.
  unfold add, log_effects, emit.
  destruct (log_path s), (w_log_append w); simpl; by rewrite ?app_nil_r.
Qed.

Lemma loader_result_run (cfg : config) (xml_generated : bool) (s : state) :
  loader_result w cfg xml_generated s =
  (Ok (classify w xml_generated),
   {| lines := lines s; subject_status := subject_status s;
      log_path := log_path s;
      effects := effects s ++ loader_effects w cfg xml_generated |}).
Proof.
  destruct s as [ls st lp es].
  unfold loader_result, classify, loader_effects, subprocess_run.
  fold (loader_outcome w). fold (loader_flags w cfg).
  destruct xml_generated, (w_exe_exists w); cbn -[lit];
    rewrite ?app_nil_r; try done.
  unfold try_except, mbind, M_bind, bind, emit, lift, mret, M_ret, ret.
  cbn -[lit].
  destruct (loader_outcome w) as [rc|[k msg]]; cbn -[lit].
  - by destruct (rc =? 0)%Z.
  - by destruct k.
Qed.

(** Of the texts [classify] produces only ["SUCCESS"] starts with
    ["SUCCESS"], and it is produced exactly on a return code of zero. *)
Lemma classify_success (xml_generated : bool) :
  (startswith (lit "SUCCESS") (classify w xml_generated) = true ↔
   classify w xml_generated = lit "SUCCESS") ∧
  (classify w xml_generated = lit "SUCCESS" ↔
   xml_generated = true ∧ w_exe_exists w = true ∧
   loader_outcome w = Ok 0%Z).
Proof.
  unfold classify.
  destruct xml_generated; [|split; split; [done|done|done|by intros (? & _)]].
  destruct (w_exe_exists w);
    [|split; split; [done|done|done|by intros (_ & ? & _)]].
  cbn [negb].
  destruct (loader_outcome w) as [rc|[k msg]].
  - destruct (rc =? 0)%Z eqn:Hrc.
    + apply Z.eqb_eq in Hrc as ->. by repeat split.
    + apply Z.eqb_neq in Hrc.
      split; split; try done.
      intros (_ & _ & [= ->]). done.
  - destruct k; split; split; try done; by intros (_ & _ & ?).
Qed.

Lemma loader_outcome_zero :
  loader_outcome w = Ok 0%Z ↔
  ∃ seconds, w_loader w = Exits 0 seconds ∧
             (seconds <= inject_Z loader_timeout)%Q.
Proof.
  unfold loader_outcome. destruct (w_loader w) as [e|rc seconds|].
  - split; [done | by intros (? & ? & _)].
  - destruct (Qle_bool seconds (inject_Z loader_timeout)) eqn:Ht.
    + apply Qle_bool_iff in Ht. split.
      * intros [= ->]. by exists seconds.
      * by intros (? & [= -> _] & _).
    + split; [done|]. intros (x & [= _ <-] & Hle).
      apply Qle_bool_iff in Hle. congruence.
  - split; [done | by intros (? & ? & _)].
Qed.

Lemma run_loader_run (cfg : config) (xml_generated : bool) (s : state) :
  let fa_result := classify w xml_generated in
  let status := if startswith (lit "SUCCESS") fa_result then SUCCESS
                else ISSUE in
  let s1 := {| lines := lines s; subject_status := status;
               log_path := log_path s;
               effects := effects s ++
                          loader_effects w cfg xml_generated |} in
  run_loader w cfg xml_generated s =
  (Ok tt, {| lines := lines s ++ [lit "Data loader: " ++ fa_result];
             subject_status := status;
             log_path := log_path s;
             effects := effects s1 ++
                        log_effects w s1 (lit "Data loader: " ++ fa_result)
          |}).
Proof.
  cbv zeta. unfold run_loader, mbind, M_bind, bind.
  rewrite loader_result_run. unfold set_status. cbn -[lit].
  by rewrite add_run.
Qed.

End LoaderFacts.

(** C2, as the code has it: [fa_result] is ["SKIPPED (no XML)"] without a
    document, whether or not the executable is there; with a document and
    no executable it is ["FAILED (FADATALOADER.EXE not found)"], a failed
    outcome; with both it is ["SUCCESS"] on return code zero,
    ["FAILED (exit code n)"] on another code [n], ["FAILED (timeout)"]
    when the 180 seconds run out and ["FAILED (exception: ...)"] on any
    other exception. *)
Theorem loader_classification `{PyRuntime} (w : world) (cfg : config)
  (xml_generated : bool) (s : state) :
  ∃ fa_result,
    (loader_result w cfg xml_generated s).1 = Ok fa_result ∧
    (xml_generated = false → fa_result = lit "SKIPPED (no XML)") ∧
    (xml_generated = true → w_exe_exists w = false →
     fa_result = lit "FAILED (FADATALOADER.EXE not found)") ∧
    (xml_generated = true → w_exe_exists w = true →
     (∀ seconds, w_loader w = Exits 0 seconds →
                 (seconds <= 180)%Q → fa_result = lit "SUCCESS") ∧
     (∀ rc seconds, w_loader w = Exits rc seconds → (seconds <= 180)%Q →
                    rc ≠ 0%Z →
                    fa_result = lit "FAILED (exit code " ++ str_of_int rc ++
                                lit ")") ∧
     (∀ rc seconds, w_loader w = Exits rc seconds → ¬ (seconds <= 180)%Q →
                    fa_result = lit "FAILED (timeout)") ∧
     (w_loader w = Hangs → fa_result = lit "FAILED (timeout)") ∧
     (∀ e, w_loader w = LaunchFails e →
           fa_result = match exn_kind e with
                       | TimeoutExpired => lit "FAILED (timeout)"
                       | _ => lit "FAILED (exception: " ++ exn_msg e ++
                              lit ")"
                       end)).
Proof.
  exists (classify w xml_generated). rewrite loader_result_run.
  split; [done|]. unfold classify, loader_outcome.
  split; [by intros ->|]. split; [by intros -> ->|].
  intros -> ->. cbn [negb].
  assert (∀ q, (q <= 180)%Q ↔ Qle_bool q (inject_Z loader_timeout) = true)
    as Hle by (intros q; symmetry; apply Qle_bool_iff).
  repeat split.
  - intros seconds -> Ht. apply Hle in Ht. by rewrite Ht.
  - intros rc seconds -> Ht Hrc. apply Hle in Ht. rewrite Ht.
    apply Z.eqb_neq in Hrc. by rewrite Hrc.
  - intros rc seconds -> Ht.
    destruct (Qle_bool seconds (inject_Z loader_timeout)) eqn:E; [|done].
    by apply Hle in E.
  - by intros ->.
  - intros e ->. by destruct e as [[] msg].
Qed.

Lemma loader_classification_witness :
  w_exe_exists (sample_world false (Present [])) = false ∧
  (loader_result (sample_world false (Present [])) sample_config true
     initial_state).1
  = Ok (lit "FAILED (FADATALOADER.EXE not found)").
Proof.
  split; [reflexivity|].
  destruct (loader_classification (sample_world false (Present []))
              sample_config true initial_state)
    as (fa_result & Hrun & _ & Hmissing & _).
  rewrite Hrun. f_equal. apply Hmissing; reflexivity.
Defined.

(** C2, as the specification has it, fails without the executable: the
    specification tags the outcome as skipped, the code as failed. *)
Lemma specified_tag_fails :
  (loader_result (sample_world false (Present [])) sample_config true
     initial_state).1
  = Ok (lit "FAILED (FADATALOADER.EXE not found)") ∧
  tag_of (lit "FAILED (FADATALOADER.EXE not found)") = Some TagFAILED ∧
  specified_tag (sample_world false (Present [])) true = TagSKIPPED.
Proof. repeat split; reflexivity. Qed.

(** ** Whole runs *)

Section MainFacts.
Context `{PyRuntime}.
Variables (w : world) (G : effect -> Prop) (S : str -> Prop).
Hypothesis Hplain : ∀ e, plain e = true → G e.

Lemma yields_steps_1_to_4 :
  yields (steps_1_to_4 w) (fun x => x.1.2 = parsed_records w).
Proof.
  unfold steps_1_to_4, mbind, M_bind.
  eapply yields_bind; [apply yields_any|]. intros cfg _.
  eapply yields_bind; [apply yields_copy_input|]. intros dest_set ->.
  eapply yields_bind; [apply yields_any|]. intros _ _.
  eapply yields_bind; [apply yields_parse_input|]. intros records ->.
  eapply yields_bind; [apply yields_any|]. intros xml_generated _.
  eapply yields_bind; [apply yields_any|]. intros _ _.
  by apply yields_ret.
Qed.

Lemma does_steps_1_to_4 :
  S ISSUE →
  G (WriteXml (xml_name w) (build_xml (w_created_utc w) (parsed_records w))) →
  does G S (steps_1_to_4 w).
Proof.
  intros HS HG. unfold steps_1_to_4, mbind, M_bind.
  apply does_bind; [by apply does_setup|]. intros cfg.
  eapply does_bind_yields;
    [by apply does_copy_input | apply yields_copy_input |].
  intros dest_set ->.
  apply does_bind; [by apply does_purge|]. intros _.
  eapply does_bind_yields;
    [by apply does_parse_input | apply yields_parse_input |].
  intros records ->.
  apply does_bind; [by apply does_generate_xml|]. intros xml_generated.
  apply does_bind; [by apply does_write_runfile|]. intros _.
  apply does_ret.
Qed.

Lemma does_steps_6_to_9 (cfg : config) (records : list (gmap str str)) :
  (∀ names, does G S (steps_7_to_9 w cfg records names)) →
  does G S (names ← lift (index_active_list (w_active_list w));
            steps_7_to_9 w cfg records names).
Proof.
  intros H79. unfold mbind, M_bind. apply does_bind; [apply does_lift|].
  apply H79.
Qed.

Lemma does_main :
  S ISSUE → S SUCCESS →
  G (WriteXml (xml_name w) (build_xml (w_created_utc w) (parsed_records w))) →
  (∀ c f t o, G (RunLoader c f t o)) →
  (∀ cfg names, does G S (steps_7_to_9 w cfg (parsed_records w) names)) →
  does G S (try_except (main_body w) (fatal w)).
Proof.
  intros HS1 HS2 HG1 HG2 H79.
  apply does_try; [|intros e; by apply does_fatal].
  unfold main_body, mbind, M_bind.
  eapply does_bind_yields;
    [by apply does_steps_1_to_4 | apply yields_steps_1_to_4 |].
  intros [[cfg records] xml_generated]. simpl. intros ->.
  unfold steps_5_to_9.
  apply does_bind; [by apply does_run_loader|]. intros _.
  by apply does_steps_6_to_9.
Qed.

End MainFacts.

(** ** The status of a run *)

Section StatusFacts.
Context `{PyRuntime}.
Variable w : world.

Lemma plain_not_loader (e : effect) :
  plain e = true → is_run_loader e = false.
Proof. by destruct e. Qed.

Lemma early_steps :
  does (fun e => is_run_loader e = false) (fun v => v = ISSUE)
       (steps_1_to_4 w).
Proof. apply does_steps_1_to_4; [apply plain_not_loader|done|done]. Qed.

Lemma late_steps (cfg : config) (records : list (gmap str str)) :
  does (fun e => is_run_loader e = false) (fun _ => False)
       (names ← lift (index_active_list (w_active_list w));
        steps_7_to_9 w cfg records names).
Proof.
  apply does_steps_6_to_9. intros names.
  apply does_steps_7_to_9; [apply plain_not_loader|done|done].
Qed.

(** A run that raises before step 5 never ran the loader and ends with
    the status ["OK"] or ["ISSUE"]. *)
Lemma main_early_failure (e : exn) (s4 : state) :
  steps_1_to_4 w initial_state = (Err e, s4) →
  grows (fun e => is_run_loader e = false) (fun v => v = ISSUE)
        initial_state (main w).
Proof.
  intros E4. unfold main, try_except, main_body, mbind, M_bind, bind.
  rewrite E4. eapply grows_trans.
  - pose proof (early_steps initial_state) as Hg. by rewrite E4 in Hg.
  - apply does_fatal, plain_not_loader.
Qed.

(** A run that reaches step 5 keeps, to its end, the status step 5 set, and
    never runs the loader again. *)
Lemma main_from_loader (cfg : config) (records : list (gmap str str))
  (xml_generated : bool) (s4 : state) :
  steps_1_to_4 w initial_state = (Ok (cfg, records, xml_generated), s4) →
  grows (fun e => is_run_loader e = false) (fun _ => False)
        (run_loader w cfg xml_generated s4).2 (main w).
Proof.
  intros E4.
  unfold main, try_except, main_body, steps_5_to_9, mbind, M_bind.
  unfold bind at 1. rewrite E4. unfold bind at 1.
  pose proof (run_loader_run w cfg xml_generated s4) as E5. cbv zeta in E5.
  destruct (run_loader w cfg xml_generated s4) as [r s5].
  injection E5 as -> _. cbn [snd].
  pose proof (late_steps cfg records s5) as Hg.
  unfold mbind, M_bind in Hg.
  destruct (bind _ _ s5) as [[u|e] s9]; [exact Hg|].
  eapply grows_trans; [exact Hg|]. apply does_fatal, plain_not_loader.
Qed.

Lemma no_success_without_loader (l : list effect) :
  Forall (fun e => is_run_loader e = false) l →
  ¬ Exists (fun e => is_loader_success e = true) l.
Proof.
  intros Hall Hex. apply Exists_exists in Hex as (e & He & Hs).
  rewrite Forall_forall in Hall. specialize (Hall e He).
  destruct e; try done.
Qed.

Lemma log_effects_plain (s : state) (msg : str) :
  Forall (fun e => is_run_loader e = false) (log_effects w s msg).
Proof.
  unfold log_effects. destruct (log_path s), (w_log_append w);
    repeat constructor.
Qed.

Lemma loader_effects_success (cfg : config) (xml_generated : bool) :
  Exists (fun e => is_loader_success e = true)
         (loader_effects w cfg xml_generated) ↔
  classify w xml_generated = lit "SUCCESS".
Proof.
  rewrite (proj2 (classify_success w xml_generated)).
  unfold loader_effects.
  destruct xml_generated, (w_exe_exists w); simpl;
    try (split; [by intros ?%Exists_nil | by intros (? & ? & _)]).
  rewrite Exists_cons, Exists_nil. simpl.
  destruct (loader_outcome w) as [rc|e].
  - split.
    + intros [Hrc|[]]. apply Z.eqb_eq in Hrc as ->. done.
    + intros (_ & _ & [= ->]). by left.
  - split; [by intros [|[]] | by intros (_ & _ & ?)].
Qed.

Lemma status_values : lit "OK" ≠ SUCCESS ∧ ISSUE ≠ SUCCESS.
Proof. split; intros E; vm_compute in E; discriminate E. Qed.

(** C1: step 5 never raises; it appends the line of the loader's outcome to
    the narrative and sets the status to ["SUCCESS"] when that outcome is
    ["SUCCESS"], which is when the loader ran and returned zero in time, and
    to ["ISSUE"] otherwise, whatever the status was.  For the whole run:
    the status is ["SUCCESS"] exactly when the loader was run and returned
    zero, and a run that reaches step 5 ends with the status step 5 set
    and keeps the earlier lines. *)
Theorem loader_decides_status :
  (∀ cfg xml_generated s, ∃ s',
     run_loader w cfg xml_generated s = (Ok tt, s') ∧
     (loader_result w cfg xml_generated s).1 = Ok (classify w xml_generated) ∧
     lines s' = lines s ++ [lit "Data loader: " ++ classify w xml_generated] ∧
     (classify w xml_generated = lit "SUCCESS" → subject_status s' = SUCCESS) ∧
     (classify w xml_generated ≠ lit "SUCCESS" → subject_status s' = ISSUE) ∧
     (classify w xml_generated = lit "SUCCESS" ↔
      xml_generated = true ∧ w_exe_exists w = true ∧
      ∃ seconds, w_loader w = Exits 0 seconds ∧ (seconds <= 180)%Q)) ∧
  (subject_status (main w) = SUCCESS ↔
   Exists (fun e => is_loader_success e = true) (effects (main w))) ∧
  (∀ cfg records xml_generated s4,
     steps_1_to_4 w initial_state = (Ok (cfg, records, xml_generated), s4) →
     subject_status (main w) =
       (if bool_decide (classify w xml_generated = lit "SUCCESS")
        then SUCCESS else ISSUE) ∧
     (lines s4 ++ [lit "Data loader: " ++ classify w xml_generated])
       `prefix_of` lines (main w)).
Proof.
  assert (∀ xml_generated,
            (if startswith (lit "SUCCESS") (classify w xml_generated)
             then SUCCESS else ISSUE) =
            (if bool_decide (classify w xml_generated = lit "SUCCESS")
             then SUCCESS else ISSUE)) as Hstatus.
  { intros xml_generated.
    destruct (classify_success w xml_generated) as [Hstart _].
    destruct (startswith (lit "SUCCESS") (classify w xml_generated)).
    - rewrite bool_decide_true; [done | by apply Hstart].
    - rewrite bool_decide_false; [done|]. intros E. by apply Hstart in E. }
  split; [|split].
  - intros cfg xml_generated s. eexists. split; [apply run_loader_run|].
    cbn [lines subject_status]. rewrite loader_result_run, Hstatus.
    split; [done|]. split; [done|].
    split; [intros E; by rewrite bool_decide_true|].
    split; [intros E; by rewrite bool_decide_false|].
    rewrite (proj2 (classify_success w xml_generated)), loader_outcome_zero.
    done.
  - destruct (steps_1_to_4 w initial_state)
      as [[[[cfg records] xml_generated]|e] s4] eqn:E4.
    + pose proof (early_steps initial_state) as Hg4. rewrite E4 in Hg4.
      cbn [snd] in Hg4. destruct Hg4 as ((a4 & Ha4 & Hall4) & _ & _).
      destruct (main_from_loader _ _ _ _ E4) as ((a9 & Ha9 & Hall9) & _ & Hst).
      destruct Hst as [Hst|[]].
      rewrite Hst, Ha9. rewrite run_loader_run. cbn [snd effects subject_status].
      rewrite Ha4, Hstatus. cbn [initial_state effects app].
      rewrite !Exists_app, loader_effects_success.
      split.
      * case_bool_decide as Hc; [tauto|]. by intros ?%status_values.
      * intros [[[Hex|Hex]|Hex]|Hex].
        -- by apply no_success_without_loader in Hex.
        -- by rewrite bool_decide_true.
        -- apply no_success_without_loader in Hex; [done|].
           apply log_effects_plain.
        -- by apply no_success_without_loader in Hex.
    + destruct (main_early_failure _ _ E4) as ((a & Ha & Hall) & _ & Hst).
      rewrite Ha. cbn [initial_state effects app]. split.
      * intros E. rewrite E in Hst. destruct status_values as [H1 H2].
        destruct Hst as [Hst|Hst]; by symmetry in Hst.
      * intros Hex. by apply no_success_without_loader in Hex.
  - intros cfg records xml_generated s4 E4.
    destruct (main_from_loader _ _ _ _ E4) as (_ & (said & Hsaid) & Hst).
    destruct Hst as [Hst|[]].
    rewrite Hst, Hsaid. rewrite run_loader_run. cbn [snd lines subject_status].
    split; [apply Hstatus|]. by exists said.
Qed.

End StatusFacts.

Lemma loader_decides_status_witness :
  ∃ cfg records xml_generated s4,
    steps_1_to_4 (sample_world true (Present [])) initial_state
    = (Ok (cfg, records, xml_generated), s4) ∧
    subject_status (main (sample_world true (Present []))) = SUCCESS.
Proof.
  destruct (steps_1_to_4 (sample_world true (Present [])) initial_state)
    as [[[[cfg records] xml_generated]|e] s4] eqn:E4;
    [|vm_compute in E4; discriminate E4].
  exists cfg, records, xml_generated, s4. split; [reflexivity|].
  destruct (loader_decides_status (sample_world true (Present [])))
    as (_ & _ & Hrun).
  destruct (Hrun cfg records xml_generated s4 E4) as [-> _].
  assert (xml_generated = true) as ->
    by (vm_compute in E4; by injection E4 as _ _ -> _).
  reflexivity.
Defined.

(** ** The loader's log *)

Section LogFacts.
Context `{PyRuntime}.
Variables (w : world) (files : list file).
Hypothesis Hfolder : w_fa_txt_folder w = Present files.
Hypothesis Hnone : glob (lit "*.txt") files = [].

Lemma locate_raises (s : state) :
  locate_loader_log w s = (Err (Exn ValueError max_empty_msg), s).
Proof.
  unfold locate_loader_log, find_latest_txt_after.
  rewrite Hfolder, Hnone. reflexivity.
Qed.

Lemma steps_7_to_9_raise (cfg : config) (records : list (gmap str str))
  (names : gmap str str * gmap str str) (s : state) :
  steps_7_to_9 w cfg records names s
  = (Err (Exn ValueError max_empty_msg), s).
Proof.
  unfold steps_7_to_9, mbind, M_bind, bind. by rewrite locate_raises.
Qed.

Lemma main_reaches_step_7 (cfg : config) (records : list (gmap str str))
  (xml_generated : bool) (s4 : state)
  (names : gmap str str * gmap str str) :
  steps_1_to_4 w initial_state = (Ok (cfg, records, xml_generated), s4) →
  index_active_list (w_active_list w) = Ok names →
  main w = (fatal w (Exn ValueError max_empty_msg)
              (run_loader w cfg xml_generated s4).2).2.
Proof.
  intros E4 Hnames.
  unfold main, try_except, main_body, steps_5_to_9, mbind, M_bind, bind.
  rewrite E4.
  pose proof (run_loader_run w cfg xml_generated s4) as E5. cbv zeta in E5.
  destruct (run_loader w cfg xml_generated s4) as [r s5].
  injection E5 as -> _. cbn [snd].
  unfold lift. rewrite Hnames. by rewrite steps_7_to_9_raise.
Qed.

Lemma no_email_in_run :
  Forall (fun e => is_email e = false) (effects (main w)).
Proof.
  assert (does (fun e => is_email e = false) (fun _ => True)
               (try_except (main_body w) (fatal w))) as Hdoes.
  { apply does_main; try done.
    - intros e He. by destruct e.
    - intros cfg names s. rewrite steps_7_to_9_raise. apply grows_refl. }
  destruct (Hdoes initial_state) as ((added & Hadded & Hall) & _).
  unfold main. by rewrite Hadded.
Qed.

End LogFacts.

(** C9: when the loader's log folder exists and holds no .txt file, steps
    7 to 9 raise the [ValueError] of [max] at once and change nothing; no
    run writes or sends the email report; and a run that reaches step 7
    ends as step 5 left it, with the one line of the fallback log when that
    log can be written. *)
Theorem empty_log_folder_is_fatal `{PyRuntime} (w : world)
  (files : list file) :
  w_fa_txt_folder w = Present files →
  glob (lit "*.txt") files = [] →
  (∀ cfg records names s,
     steps_7_to_9 w cfg records names s
     = (Err (Exn ValueError max_empty_msg), s)) ∧
  Forall (fun e => is_email e = false) (effects (main w)) ∧
  (∀ cfg records xml_generated s4 names,
     steps_1_to_4 w initial_state = (Ok (cfg, records, xml_generated), s4) →
     index_active_list (w_active_list w) = Ok names →
     let s5 := (run_loader w cfg xml_generated s4).2 in
     lines (main w) = lines s5 ∧
     subject_status (main w) = subject_status s5 ∧
     effects (main w) =
       effects s5 ++
       match w_fatal_log w with
       | Ok _ => [FatalLog (run_log_name w)
                    (lit "[FATAL] " ++ max_empty_msg ++ nl)]
       | Err _ => []
       end).
Proof.
  intros Hfolder Hnone.
  split; [by apply steps_7_to_9_raise with files|].
  split; [by apply no_email_in_run with files|].
  intros cfg records xml_generated s4 names E4 Hnames s5.
  rewrite (main_reaches_step_7 w files Hfolder Hnone _ _ _ _ _ E4 Hnames).
  fold s5. unfold fatal, try_except, bind, lift, emit, mret, M_ret, ret.
  destruct (w_fatal_log w); cbn [snd lines subject_status effects exn_msg];
    by rewrite ?app_nil_r.
Qed.

Lemma empty_log_folder_is_fatal_witness :
  w_fa_txt_folder (sample_world true (Present [sample_file "readme.md" 5]))
  = Present [sample_file "readme.md" 5] ∧
  glob (lit "*.txt") [sample_file "readme.md" 5] = [] ∧
  Forall (fun e => is_email e = false)
    (effects (main (sample_world true (Present [sample_file "readme.md" 5])))).
Proof.
  split; [reflexivity|]. split; [reflexivity|].
  exact (proj1 (proj2 (empty_log_folder_is_fatal
                         (sample_world true
                            (Present [sample_file "readme.md" 5]))
                         [sample_file "readme.md" 5] eq_refl eq_refl))).
Defined.

Example empty_log_folder_run :
  let final := main (sample_world true (Present [])) in
  List.map (fun l => bool_decide (l = lit "Data loader: SUCCESS"))
    (lines final)
  = [false; false; false; false; true] ∧
  List.filter (fun e => negb (plain e)) (effects final)
  = [WriteXml (xml_name (sample_world true (Present [])))
       (build_xml (lit "2024-03-01T11:00:00Z")
          (parsed_records (sample_world true (Present []))));
     RunLoader (loader_cmd (sample_world true (Present [])) sample_config)
       CREATE_NO_WINDOW 180 (Ok 0%Z)] ∧
  last (effects final)
  = Some (FatalLog (lit "DepartmentUpdate_LOG_2024-03-01_060000.txt")
            (lit "[FATAL] max() arg is an empty sequence" ++ nl)).
Proof. repeat split; by vm_compute. Qed.

(** ** The document builder *)

Section BuilderFacts.
Context `{PyRuntime}.

(** The [try] block succeeds exactly on the records with both integers. *)
Lemma parse_record_both (rec : gmap str str) :
  match parse_record rec with
  | Ok p => Some p
  | Err _ => None
  end = both_integers rec.
Proof.
  unfold parse_record, both_integers, dict_get, mbind, result_bind, mret,
    result_ret.
  destruct (rec !! REQ_OPER) as [so|]; [|done].
  destruct (py_int so) as [oper|]; destruct (rec !! REQ_NEW) as [sn|];
    try done.
  by destruct (py_int sn).
Qed.

Lemma rows_xml_pairs (records : list (gmap str str)) :
  rows_xml records =
  List.map (fun p => xml_row p.1 p.2) (integer_pairs records).
Proof.
  induction records as [|rec rest IH]; [done|].
  unfold integer_pairs in *. csimpl. rewrite <- parse_record_both.
  destruct (parse_record rec) as [[oper newd]|e]; csimpl; by rewrite IH.
Qed.

Lemma integer_pairs_length (records : list (gmap str str)) :
  (length (integer_pairs records) ≤ length records)%nat.
Proof.
  induction records as [|rec rest IH]; [done|].
  unfold integer_pairs in *. csimpl.
  destruct (both_integers rec); csimpl; lia.
Qed.

Lemma run_reports_all_records (w : world) :
  Forall (reports_all_records w) (effects (main w)).
Proof.
  assert (does (reports_all_records w) (fun _ => True)
               (try_except (main_body w) (fatal w))) as Hdoes.
  { apply does_main; try done.
    - intros e He. by destruct e.
    - intros cfg names. apply does_steps_7_to_9; try done.
      + intros e He. by destruct e.
      + intros sender to st html. by exists st. }
  destruct (Hdoes initial_state) as ((added & Hadded & Hall) & _).
  unfold main. by rewrite Hadded.
Qed.


End BuilderFacts.

Example document_of_sample :
  let w := sample_world true (Present [sample_file "load.txt" 1709272805]) in
  length (parsed_records w) = 2%nat ∧
  integer_pairs (parsed_records w) = [(42, 7)%Z] ∧
  List.filter (fun e => match e with SendEmail _ _ _ _ => true | _ => false end)
    (effects (main w))
  = [SendEmail (lit "no-reply@example.org") [lit "fleet@example.org"]
       (lit "[Operator Dept Update] Mar 01, 2024 06:00 " ++ em_dash ++
        lit " SUCCESS " ++ em_dash ++ lit " 2 records")
       (email_html w
          (concat (List.map
                     (row_line {[lit "7" := lit "Jane"]}
                               {[lit "10" := lit "Sales"]})
                     (parsed_records w)))
          (lit "Load complete"))].
Proof. repeat split; by vm_compute. Qed.

(** ** Retention *)

Section RetentionFacts.
Context `{PyRuntime}.

Lemma Qlt_bool_iff (a b : Q) : Qlt_bool a b = true ↔ (a < b)%Q.
Proof.
  unfold Qlt_bool. rewrite negb_true_iff. split.
  - intros Hle. apply Qnot_le_lt. intros Hba.
    apply Qle_bool_iff in Hba. congruence.
  - intros Hlt. destruct (Qle_bool b a) eqn:E; [|done].
    apply Qle_bool_iff in E. by apply Qlt_not_le in Hlt.
Qed.

Lemma purge_step_doomed (cutoff : Q) (pattern : str) (acc : Z * list file)
  (p : file) :
  fnmatch pattern (f_name p) = true →
  purge_step cutoff acc p =
  if doomed cutoff pattern p then ((acc.1 + 1)%Z, acc.2 ++ [p]) else acc.
Proof.
  intros Hm. unfold purge_step, doomed. rewrite Hm. simpl.
  destruct (f_mtime p) as [m|]; [|done].
  destruct (Qlt_bool m cutoff); [|done].
  by destruct (f_unlink p).
Qed.

Lemma purge_fold (cutoff : Q) (pattern : str) (files : list file)
  (n : Z) (acc : list file) :
  fold_left (purge_step cutoff) (glob pattern files) (n, acc) =
  ((n + Z.of_nat (length (List.filter (doomed cutoff pattern) files)))%Z,
   acc ++ List.filter (doomed cutoff pattern) files).
Proof.
  revert n acc. induction files as [|p files IH]; intros n acc.
  - simpl. by rewrite Z.add_0_r, app_nil_r.
  - unfold glob in *. simpl.
    destruct (fnmatch pattern (f_name p)) eqn:Hm.
    + cbn [fold_left]. rewrite (purge_step_doomed cutoff pattern) by done.
      destruct (doomed cutoff pattern p); rewrite IH.
      * cbn [fst snd length]. rewrite <- app_assoc. f_equal. lia.
      * done.
    + assert (doomed cutoff pattern p = false) as ->.
      { unfold doomed. by rewrite Hm. }
      apply IH.
Qed.

Lemma doomed_iff (cutoff : Q) (pattern : str) (f : file) :
  doomed cutoff pattern f = true ↔
  fnmatch pattern (f_name f) = true ∧
  (∃ m, f_mtime f = Ok m ∧ (m < cutoff)%Q) ∧
  (∃ u, f_unlink f = Ok u).
Proof.
  unfold doomed. rewrite !andb_true_iff.
  destruct (f_mtime f) as [m|e], (f_unlink f) as [u|e'].
  - rewrite Qlt_bool_iff. split.
    + intros [[Hm Hlt] _]. split; [done|]. split; [by exists m | by exists u].
    + intros (Hm & (m' & [= <-] & Hlt) & _). done.
  - split; [by intros [_ ?] | by intros (_ & _ & ? & ?)].
  - split; [by intros [[_ ?] _] | by intros (_ & (? & ? & _) & _)].
  - split; [by intros [_ ?] | by intros (_ & _ & ? & ?)].
Qed.

(** The integers a [float] takes, for a product of positive factors. *)
Lemma float_overflows_iff (n : Z) :
  (0 ≤ n)%Z →
  float_overflows n = false ↔ (n < 2 ^ 1024 - 2 ^ 970)%Z.
Proof.
  intros Hn. unfold float_overflows. rewrite Z.leb_gt, Z.abs_eq by done.
  done.
Qed.

Lemma remove_old_files_in_range (now : Q) (files : list file)
  (pattern : str) (days : Z) :
  (0 < days)%Z → (days * 86400 < 2 ^ 1024 - 2 ^ 970)%Z →
  let cutoff := (now - inject_Z (days * 86400))%Q in
  let deleted := List.filter (doomed cutoff pattern) files in
  remove_old_files now (Present files) pattern days
  = Ok (Z.of_nat (length deleted), deleted).
Proof.
  intros Hdays Hfits cutoff deleted. unfold remove_old_files.
  assert ((days <=? 0)%Z = false) as -> by (apply Z.leb_gt; lia).
  assert (float_overflows (days * 86400) = false) as ->
    by (apply float_overflows_iff; lia).
  fold cutoff. by rewrite purge_fold.
Qed.

Lemma remove_old_files_overflow (now : Q) (files : list file)
  (pattern : str) (days : Z) :
  (2 ^ 1024 - 2 ^ 970 ≤ days * 86400)%Z →
  remove_old_files now (Present files) pattern days = Err int_too_large.
Proof.
  intros Hover. unfold remove_old_files.
  assert ((days <=? 0)%Z = false) as -> by (apply Z.leb_gt; lia).
  assert (float_overflows (days * 86400) = true) as ->; [|done].
  unfold float_overflows. apply Z.leb_le. rewrite Z.abs_eq by lia. done.
Qed.

(** Below the range of [float] the call returns, whatever the folder. *)
Lemma remove_old_files_returns (now : Q) (dir : folder) (pattern : str)
  (days : Z) :
  (days * 86400 < 2 ^ 1024 - 2 ^ 970)%Z →
  ∃ r, remove_old_files now dir pattern days = Ok r.
Proof.
  intros Hfits. unfold remove_old_files.
  destruct dir as [|files]; [by eexists|].
  destruct (days <=? 0)%Z eqn:Hdays; [by eexists|].
  apply Z.leb_gt in Hdays.
  assert (float_overflows (days * 86400) = false) as ->
    by (apply float_overflows_iff; lia).
  by eexists.
Qed.


End RetentionFacts.



Example purge_keeps_on_failure :
  remove_old_files 8640000
    (Present [File (lit "a.txt") (Ok 1%Q) (Err (Exn OSError (lit "in use")))
                None;
              File (lit "b.txt") (Err (Exn OSError (lit "gone"))) (Ok tt) None;
              sample_file "c.txt" 2])
    (lit "*.txt") 30
  = Ok (1%Z, [sample_file "c.txt" 2]).
Proof. by vm_compute. Qed.

Example purge_disabled :
  remove_old_files 8640000 (Present [sample_file "c.txt" 2]) (lit "*.txt") 0
  = Ok (0%Z, []).
Proof. reflexivity. Qed.

(** * Further properties *)

(** ** Normalized strings *)

Section NormalizedFacts.
Context `{PyRuntime}.

Lemma filter_digits_sound (s : str) (c : char) (t : str) :
  List.filter isdigit s = c :: t →
  ∀ x, x ∈ c :: t → isdigit x = true.
Proof.
  intros E x Hx. apply (filter_sound isdigit s). by rewrite E.
Qed.

(** The result of [norm_num] is a value [norm_num] leaves alone. *)
Lemma norm_num_fixed (s : str) : norm_num (norm_num s) = norm_num s.
Proof.
  unfold norm_num at 2 3.
  destruct (List.filter isdigit s) as [|c t] eqn:E.
  - unfold norm_num.
    rewrite (filter_nil_incl isdigit s (strip s) (strip_incl s) E).
    apply strip_idem.
  - destruct (digits_result (c :: t)) as (Hne & Hfilter & Hzeros);
      [done | by eapply filter_digits_sound |].
    unfold norm_num. rewrite Hfilter.
    destruct (str_or (lstrip_zeros (c :: t)) (lit "0")); done.
Qed.

Lemma strip_nil : strip [] = [].
Proof. reflexivity. Qed.

Lemma cell_stripped (r : list str) (i : nat) : strip (cell r i) = cell r i.
Proof.
  unfold cell. destruct (r !! i); [apply strip_idem | apply strip_nil].
Qed.

Lemma norm_num_of_stripped (x : str) :
  x ≠ [] → strip x = x → norm_num x ≠ [].
Proof.
  intros Hx Hs. unfold norm_num.
  destruct (List.filter isdigit x) as [|c t] eqn:E; [by rewrite Hs|].
  by destruct (digits_result (c :: t)) as (Hne & _);
    [| eapply filter_digits_sound |].
Qed.

(** X1: a string with a digit normalizes to digits only, without a
    leading zero unless the result is ["0"] itself. *)
Theorem norm_num_numeric (s : str) :
  List.filter isdigit s ≠ [] →
  norm_num s ≠ [] ∧
  (∀ c, c ∈ norm_num s → isdigit c = true) ∧
  (norm_num s = lit "0" ∨ ∃ c r, norm_num s = c :: r ∧ c ≠ 48).
Proof.
  intros Hd. unfold norm_num, lstrip_zeros.
  destruct (List.filter isdigit s) as [|c t] eqn:E; [done|].
  pose proof (filter_digits_sound s c t E) as Hall.
  destruct (dropwhile (N.eqb 48) (c :: t)) as [|d u] eqn:Ez.
  - cbn [str_or]. split; [done|]. split; [|by left].
    intros x Hx. apply list_elem_of_singleton in Hx as ->. reflexivity.
  - cbn [str_or]. split; [done|]. split.
    + intros x Hx. apply Hall. apply dropwhile_incl with (N.eqb 48).
      by rewrite Ez.
    + right. exists d, u. split; [done|].
      apply dropwhile_head in Ez. by apply N.eqb_neq in Ez.
Qed.

End NormalizedFacts.

Lemma norm_num_numeric_witness :
  List.filter isdigit (lit "No. 0042-7") ≠ [] ∧
  norm_num (lit "No. 0042-7") = lit "427" ∧
  norm_num (lit "No. 0042-7") ≠ [].
Proof.
  assert (List.filter isdigit (lit "No. 0042-7") ≠ []) as Hd
    by (vm_compute; discriminate).
  split; [exact Hd|]. split; [reflexivity|].
  exact (proj1 (norm_num_numeric (lit "No. 0042-7") Hd)).
Defined.

(** ** The records of the parser *)

Section RecordFacts.
Context `{PyRuntime}.

Lemma read_row_record (name_map : gmap str nat) (r : list str)
  (rec : gmap str str) :
  read_row name_map r = Ok (Some rec) → well_formed_record rec.
Proof.
  destruct keys_distinct as (K1 & K2 & K3).
  unfold read_row, dict_get.
  destruct (is_empty r); [done|].
  destruct (name_map !! REQ_OPER) as [i_oper|]; [|done].
  destruct (name_map !! REQ_NEW) as [i_new|]; [|done].
  destruct (is_empty (cell r i_oper)) eqn:Eo; [done|].
  destruct (is_empty (cell r i_new)) eqn:En; [done|].
  cbn [orb]. intros [= <-].
  exists (norm_num (cell r i_oper)), (norm_num (cell r i_new)).
  assert (cell r i_oper ≠ []) as Ho by (by destruct (cell r i_oper)).
  assert (cell r i_new ≠ []) as Hn by (by destruct (cell r i_new)).
  split; [destruct (name_map !! OPT_OLD); by simplify_map_eq|].
  split; [destruct (name_map !! OPT_OLD); by simplify_map_eq|].
  split; [apply norm_num_of_stripped; [done | apply cell_stripped]|].
  split; [apply norm_num_of_stripped; [done | apply cell_stripped]|].
  split; apply norm_num_fixed.
Qed.

Lemma read_rows_records (name_map : gmap str nat) (data : list (list str))
  (records : list (gmap str str)) :
  read_rows name_map data = Ok records →
  Forall well_formed_record records ∧ (length records ≤ length data)%nat.
Proof.
  revert records. induction data as [|r data IH]; intros records; simpl.
  - intros [= <-]. split; [constructor | done].
  - destruct (read_row name_map r) as [o|e] eqn:Er; [|done].
    destruct (read_rows name_map data) as [out|e]; [|done].
    destruct (IH out eq_refl) as [Hall Hlen].
    intros [= <-]. destruct o as [rec|]; simpl.
    + split; [|lia]. constructor; [by eapply read_row_record | done].
    + split; [done | lia].
Qed.

(** X2: every record [read_unmatched] returns has an operator id and a
    new department that are not empty and are normalized, and there is at
    most one record for each row below the header. *)
Theorem records_are_normalized (rows : list (list str))
  (records : list (gmap str str)) :
  read_unmatched rows = Ok records →
  Forall (fun rec =>
            ∃ oper newd,
              rec !! REQ_OPER = Some oper ∧ rec !! REQ_NEW = Some newd ∧
              oper ≠ [] ∧ newd ≠ [] ∧
              norm_num oper = oper ∧ norm_num newd = newd) records ∧
  (length records ≤ length rows - 1)%nat.
Proof.
  unfold read_unmatched.
  destruct (length rows <? 2)%nat eqn:Hlen.
  - intros [= <-]. split; [constructor | simpl; lia].
  - destruct rows as [|row0 data]; [done|].
    intros Hr. apply read_rows_records in Hr as [Hall Hle].
    split; [exact Hall | simpl; lia].
Qed.

End RecordFacts.

Lemma records_are_normalized_witness :
  ∃ records,
    read_unmatched [[lit "Oper No"; lit "AW Dept"; lit "Dept"];
                    [lit " 0042 "; lit "12"; lit "007"];
                    [lit ""; lit "12"; lit "9"];
                    [lit "T-X"]] = Ok records ∧
    length records = 1%nat ∧
    (length records ≤ 3)%nat.
Proof.
  eexists. split; [reflexivity|]. split; [reflexivity|].
  exact (proj2 (records_are_normalized
                  [[lit "Oper No"; lit "AW Dept"; lit "Dept"];
                   [lit " 0042 "; lit "12"; lit "007"];
                   [lit ""; lit "12"; lit "9"];
                   [lit "T-X"]] _ eq_refl)).
Defined.

(** ** What the parser raises *)

Section ParserErrors.
Context `{PyRuntime}.

Lemma scan_none (key : str) (syn : list str) (Hrole : role key syn)
  (hs : list str) (i : nat) (m : gmap str nat) :
  scan_header i hs m !! key = None → unmatched syn hs.
Proof.
  revert i m. induction hs as [|h hs IH]; intros i m Hnone.
  - intros h Hh. by apply elem_of_nil in Hh.
  - simpl in Hnone. pose proof (IH _ _ Hnone) as Hrest.
    rewrite (scan_unmatched key syn Hrole) in Hnone by done.
    rewrite Hrole in Hnone.
    intros h' Hh'. apply elem_of_cons in Hh' as [->|Hh']; [|by apply Hrest].
    by destruct (str_in h syn).
Qed.

Lemma header_map_has_oper (row0 : list str) :
  is_Some (header_map row0 !! REQ_OPER).
Proof.
  destruct (detect_names row0 !! REQ_OPER) as [a|] eqn:Ea.
  - destruct (detect_names row0 !! REQ_NEW) as [b|] eqn:Eb.
    + rewrite header_map_matched by eauto. eauto.
    + destruct (fallback_taken (length row0) (detect_names row0))
        as (H0 & _); [by right|]. by eexists.
  - destruct (fallback_taken (length row0) (detect_names row0))
      as (H0 & _); [by left|]. by eexists.
Qed.

Lemma header_map_new_none (row0 : list str) :
  header_map row0 !! REQ_NEW = None →
  (length row0 < 2)%nat ∧ unmatched new_synonyms (header_low row0).
Proof.
  destruct keys_distinct as (K1 & K2 & K3).
  intros Hnone.
  assert (detect_names row0 !! REQ_NEW = None) as Hd.
  { destruct (detect_names row0 !! REQ_NEW) as [b|] eqn:Eb; [|done].
    unfold header_map, positional_fallback in Hnone. rewrite Eb in Hnone.
    destruct (detect_names row0 !! REQ_OPER); [congruence|].
    destruct (3 <=? length row0)%nat, (2 <=? length row0)%nat;
      by simplify_map_eq. }
  split.
  - destruct (fallback_taken (length row0) (detect_names row0))
      as (_ & H3 & H2); [by right|].
    fold (header_map row0) in H3, H2.
    destruct (decide (length row0 < 2)%nat) as [|Hge]; [done|].
    destruct (decide (length row0 = 2)%nat) as [H2'|Hne].
    + destruct (H2 H2') as [Hnew _]. congruence.
    + destruct H3 as [_ Hnew]; [lia | congruence].
  - by apply (scan_none REQ_NEW new_synonyms role_new _ 0%nat ∅).
Qed.

Lemma read_rows_ok (name_map : gmap str nat) (data : list (list str)) :
  is_Some (name_map !! REQ_OPER) → is_Some (name_map !! REQ_NEW) →
  ∃ records, read_rows name_map data = Ok records.
Proof.
  intros [a Ha] [b Hb]. induction data as [|r data [out IH]]; simpl.
  - by eexists.
  - unfold read_row, dict_get. rewrite Ha, Hb, IH.
    destruct (is_empty r); [by eexists|].
    destruct (is_empty (cell r a) || is_empty (cell r b)); by eexists.
Qed.

Lemma read_rows_err (name_map : gmap str nat) (data : list (list str))
  (e : exn) :
  is_Some (name_map !! REQ_OPER) → read_rows name_map data = Err e →
  name_map !! REQ_NEW = None ∧ e = Exn KeyError (key_repr REQ_NEW).
Proof.
  intros Hoper Herr.
  destruct (name_map !! REQ_NEW) as [b|] eqn:Hb.
  - destruct (read_rows_ok name_map data Hoper) as [records Hok];
      [by eexists | congruence].
  - split; [done|]. destruct Hoper as [a Ha].
    induction data as [|r data IH]; simpl in Herr; [done|].
    unfold read_row, dict_get in Herr. rewrite Ha, Hb in Herr.
    destruct (is_empty r).
    + destruct (read_rows name_map data) as [out|e']; [done|].
      injection Herr as <-. by apply IH.
    + by injection Herr as <-.
Qed.

(** X3: [read_unmatched] raises what opening, decoding and splitting
    the file raise (lines 139 and 140) and, once the rows are there, only
    the [KeyError] of the new department, and that only under a header of
    fewer than two columns none of which is a synonym of the new
    department: with the rows there and a header of at least two columns
    it returns. *)
Theorem parser_raises_only_keyerror :
  (∀ row0 data, (2 ≤ length row0)%nat →
     ∃ records, read_unmatched_file (Ok (row0 :: data)) = Ok records) ∧
  (∀ opened e, read_unmatched_file opened = Err e →
     opened = Err e ∨
     ∃ row0 data,
       opened = Ok (row0 :: data) ∧ e = Exn KeyError (lit "'CS_Dept'") ∧
       (length row0 < 2)%nat ∧ unmatched new_synonyms (header_low row0)).
Proof.
  split.
  - intros row0 data Hlen. unfold read_unmatched_file, read_unmatched.
    destruct (length (row0 :: data) <? 2)%nat; [by eexists|].
    apply read_rows_ok; [apply header_map_has_oper|].
    destruct (header_map row0 !! REQ_NEW) eqn:E; [by eexists|].
    apply header_map_new_none in E as [Hlt _]. lia.
  - intros [rows|e0] e; [|intros [= ->]; by left].
    unfold read_unmatched_file, read_unmatched.
    destruct (length rows <? 2)%nat; [done|].
    destruct rows as [|row0 data]; [done|]. intros Herr.
    apply read_rows_err in Herr as [Hnone ->]; [|apply header_map_has_oper].
    right. exists row0, data. split; [done|]. split; [reflexivity|].
    by apply header_map_new_none.
Qed.

End ParserErrors.

Lemma parser_raises_only_keyerror_witness :
  (2 ≤ length [lit "Badge"; lit "Unit"])%nat ∧
  ∃ records,
    read_unmatched_file
      (Ok [[lit "Badge"; lit "Unit"]; [lit "7"]; [lit "8"; lit "3"]])
    = Ok records.
Proof.
  split; [simpl; lia|].
  apply (proj1 parser_raises_only_keyerror). simpl; lia.
Defined.

Example read_unmatched_file_errors :
  read_unmatched_file (Err (Exn OSError (lit "Permission denied")))
  = Err (Exn OSError (lit "Permission denied")) ∧
  read_unmatched_file (Ok [[lit "Badge"]; [lit "7"]])
  = Err (Exn KeyError (lit "'CS_Dept'")).
Proof. split; reflexivity. Qed.

(** ** The keys of the reference index *)

Section IndexKeys.
Context `{PyRuntime}.

Lemma first_row_for_key (key_col : nat) (k : str) (data : list (list str))
  (r : list str) :
  first_row_for key_col k data = Some r → norm_num (col r key_col) = k.
Proof.
  unfold first_row_for. intros Hf. apply find_some in Hf as [_ Hp].
  apply andb_true_iff in Hp as [_ Hk]. by apply bool_decide_eq_true in Hk.
Qed.

(** X4: every key of the two mappings of [index_active_list] is not empty
    and normalized, and every name is trimmed. *)
Theorem index_keys_normalized (rows : list (list str))
  (oper_to_name dept_to_name : gmap str str) :
  index_active_list (Rows rows) = Ok (oper_to_name, dept_to_name) →
  ∀ k v, oper_to_name !! k = Some v ∨ dept_to_name !! k = Some v →
         k ≠ [] ∧ norm_num k = k ∧ strip v = v.
Proof.
  intros [= Hidx] k v Hlookup. unfold index_rows in Hidx.
  destruct (index_fold (drop (start_idx rows) rows) ∅ ∅ k) as [Ho Hd].
  rewrite Hidx, lookup_empty in Ho, Hd. cbn [fst snd] in Ho, Hd.
  destruct k as [|c k]; cbn [is_empty] in Ho, Hd;
    [destruct Hlookup; congruence|].
  split; [done|].
  destruct Hlookup as [Hv|Hv].
  - rewrite Hv in Ho. symmetry in Ho.
    apply fmap_Some in Ho as (r & Hr & ->).
    apply first_row_for_key in Hr. rewrite <- Hr.
    split; [apply norm_num_fixed | apply strip_idem].
  - rewrite Hv in Hd. symmetry in Hd.
    apply fmap_Some in Hd as (r & Hr & ->).
    apply first_row_for_key in Hr. rewrite <- Hr.
    split; [apply norm_num_fixed | apply strip_idem].
Qed.

End IndexKeys.

Lemma index_keys_normalized_witness :
  ∃ o d,
    index_active_list
      (Rows [[lit "Dept"; lit "DeptName"; lit "Name"; lit "ID"];
             [lit "010"; lit " Sales "; lit " Jane"; lit "#007"]]) = Ok (o, d) ∧
    d !! lit "10" = Some (lit "Sales") ∧
    norm_num (lit "10") = lit "10".
Proof.
  set (rows := [[lit "Dept"; lit "DeptName"; lit "Name"; lit "ID"];
                [lit "010"; lit " Sales "; lit " Jane"; lit "#007"]]).
  assert (index_active_list (Rows rows)
          = Ok (fst (index_rows rows), snd (index_rows rows))) as Hidx.
  { unfold index_active_list. by f_equal. }
  assert (snd (index_rows rows) !! lit "10" = Some (lit "Sales")) as Hd
    by (by vm_compute).
  exists (fst (index_rows rows)), (snd (index_rows rows)).
  split; [exact Hidx|]. split; [exact Hd|].
  exact (proj1 (proj2 (index_keys_normalized rows _ _ Hidx
                         (lit "10") (lit "Sales") (or_intror Hd)))).
Defined.

(** ** From a cell to a number of the document *)

Section NumericCells.
Context `{PyRuntime}.

Lemma digits_value_zeros (t : str) :
  digits_value (dropwhile (N.eqb 48) t) = digits_value t.
Proof.
  unfold digits_value. induction t as [|c t IH]; [done|].
  cbn [dropwhile]. destruct (N.eqb_spec 48 c) as [<-|Hc]; [|done].
  rewrite IH. reflexivity.
Qed.

Lemma dropwhile_length (p : char -> bool) (s : str) :
  (length (dropwhile p s) ≤ length s)%nat.
Proof.
  induction s as [|c s IH]; simpl; [done|]. destruct (p c); simpl; lia.
Qed.

(** X5: when the digits of a cell are ASCII digits, at least one and at
    most 4300, [int] accepts the normalized cell and gives the number its
    digits spell, so the cell never costs a record its row in the
    document. *)
Theorem numeric_cells_parse (s : str) :
  List.filter isdigit s ≠ [] →
  (∀ c, c ∈ s → isdigit c = true → is_plain_digit c = true) →
  (length (List.filter isdigit s) ≤ 4300)%nat →
  py_int (norm_num s) = Ok (digits_value (List.filter isdigit s)).
Proof.
  intros Hd Hplain Hlen. unfold norm_num, lstrip_zeros.
  destruct (List.filter isdigit s) as [|c t] eqn:E; [done|].
  assert (∀ x, x ∈ c :: t → is_plain_digit x = true) as Hall.
  { intros x Hx. rewrite <- E in Hx.
    apply list_elem_of_In, filter_In in Hx as [Hin Hdig].
    apply Hplain; [by apply list_elem_of_In | done]. }
  rewrite <- (digits_value_zeros (c :: t)).
  pose proof (dropwhile_length (N.eqb 48) (c :: t)) as Hshort.
  destruct (dropwhile (N.eqb 48) (c :: t)) as [|d u] eqn:Ez; [reflexivity|].
  cbn [str_or]. unfold py_int.
  assert (plain_digits (d :: u) = true) as ->; [|done].
  unfold plain_digits. cbn [is_empty negb andb].
  apply andb_true_iff. split.
  - apply forallb_forall. intros x Hx. apply Hall.
    apply dropwhile_incl with (N.eqb 48). rewrite Ez.
    by apply list_elem_of_In.
  - apply Nat.leb_le. lia.
Qed.

End NumericCells.

Lemma numeric_cells_parse_witness :
  List.filter isdigit (lit " #0042") ≠ [] ∧
  py_int (norm_num (lit " #0042")) = Ok 42%Z.
Proof.
  assert (List.filter isdigit (lit " #0042") ≠ []) as Hd
    by (vm_compute; discriminate).
  split; [exact Hd|].
  rewrite (numeric_cells_parse (lit " #0042") Hd).
  - reflexivity.
  - intros c Hc Hdig. vm_compute in Hc.
    repeat (apply elem_of_cons in Hc as [->|Hc]; [reflexivity || discriminate Hdig|]).
    by apply elem_of_nil in Hc.
  - vm_compute. lia.
Defined.

(** ** Finding the loader's log *)

Section LatestFacts.
Context `{PyRuntime}.

Lemma latest_fold (epoch : Q) (l seen : list file) (best : option file)
  (bm : Q) :
  match best with
  | None => bm = 0%Q
  | Some p => p ∈ seen ∧ f_mtime p = Ok bm ∧ (epoch <= bm)%Q ∧ (0 < bm)%Q
  end →
  (∀ q mq, q ∈ seen → f_mtime q = Ok mq → (epoch <= mq)%Q → (mq <= bm)%Q) →
  let r := fold_left (latest_step epoch) l (best, bm) in
  match r.1 with
  | None => r.2 = 0%Q
  | Some p => p ∈ seen ++ l ∧ f_mtime p = Ok r.2 ∧ (epoch <= r.2)%Q ∧
              (0 < r.2)%Q
  end ∧
  (∀ q mq, q ∈ seen ++ l → f_mtime q = Ok mq → (epoch <= mq)%Q →
           (mq <= r.2)%Q).
Proof.
  revert seen best bm. induction l as [|p l IH]; intros seen best bm Hb Hmax.
  - cbn. rewrite app_nil_r. split; [|done].
    destruct best as [b|]; [|done]. done.
  - cbn [fold_left].
    assert ((0 <= bm)%Q) as Hpos.
    { destruct best; [apply Qlt_le_weak; tauto | subst; apply Qle_refl]. }
    replace (seen ++ p :: l) with ((seen ++ [p]) ++ l)
      by (by rewrite <- app_assoc).
    assert (match best with
            | None => bm = 0%Q
            | Some b => b ∈ seen ++ [p] ∧ f_mtime b = Ok bm ∧
                        (epoch <= bm)%Q ∧ (0 < bm)%Q
            end) as Hb'.
    { destruct best as [b|]; [|done]. destruct Hb as (Hin & Hrest).
      split; [|done]. apply elem_of_app. by left. }
    destruct (latest_step epoch (best, bm) p) as [b' m'] eqn:Estep.
    unfold latest_step in Estep. cbn [fst snd] in Estep.
    destruct (f_mtime p) as [m|e] eqn:Em.
    + destruct (Qle_bool epoch m && Qlt_bool bm m) eqn:Hc;
        injection Estep as <- <-.
      * apply andb_true_iff in Hc as [He Hl].
        apply Qle_bool_iff in He. apply Qlt_bool_iff in Hl.
        apply IH.
        -- split; [apply elem_of_app; right; by left|].
           split; [done|]. split; [done|]. by eapply Qle_lt_trans.
        -- intros q mq Hq Hmq Hep. apply elem_of_app in Hq as [Hq|Hq].
           ++ apply Qlt_le_weak. eapply Qle_lt_trans; [|exact Hl]. eauto.
           ++ apply list_elem_of_singleton in Hq as ->.
              rewrite Em in Hmq. injection Hmq as ->. apply Qle_refl.
      * apply IH; [exact Hb'|].
        intros q mq Hq Hmq Hep. apply elem_of_app in Hq as [Hq|Hq];
          [eauto|].
        apply list_elem_of_singleton in Hq as ->.
        rewrite Em in Hmq. injection Hmq as ->.
        apply andb_false_iff in Hc as [Hc|Hc].
        -- apply Qle_bool_iff in Hep. congruence.
        -- apply Qnot_lt_le. intros Hlt. apply Qlt_bool_iff in Hlt.
           congruence.
    + injection Estep as <- <-. apply IH; [exact Hb'|].
      intros q mq Hq Hmq Hep. apply elem_of_app in Hq as [Hq|Hq];
        [eauto|].
      apply list_elem_of_singleton in Hq as ->. congruence.
Qed.

(** X6: [find_latest_txt_after] gives nothing for a missing folder;
    otherwise the file it gives is a .txt file of the folder whose
    modification time is known, positive, at or after [epoch] and at least
    that of every other such file, and it gives nothing exactly when no
    .txt file has a known positive modification time at or after
    [epoch]. *)
Theorem latest_txt_is_newest (dir : folder) (epoch : Q) :
  (dir = Absent → find_latest_txt_after dir epoch = None) ∧
  ∀ files, dir = Present files →
    (∀ p, find_latest_txt_after dir epoch = Some p →
       p ∈ glob (lit "*.txt") files ∧
       ∃ m, f_mtime p = Ok m ∧ (epoch <= m)%Q ∧ (0 < m)%Q ∧
            ∀ q mq, q ∈ glob (lit "*.txt") files → f_mtime q = Ok mq →
                    (epoch <= mq)%Q → (mq <= m)%Q) ∧
    (find_latest_txt_after dir epoch = None ↔
     ∀ q mq, q ∈ glob (lit "*.txt") files → f_mtime q = Ok mq →
             (epoch <= mq)%Q → (mq <= 0)%Q).
Proof.
  split; [by intros ->|]. intros files ->. unfold find_latest_txt_after.
  destruct (latest_fold epoch (glob (lit "*.txt") files) [] None 0%Q)
    as [Hbest Hmax]; [done | by intros q mq ?%elem_of_nil |].
  cbn [app] in Hbest, Hmax.
  destruct (fold_left (latest_step epoch) (glob (lit "*.txt") files)
              (None, 0%Q)) as [best bm].
  cbn [fst snd] in *. split.
  - intros p ->. destruct Hbest as (Hin & Hm & He & Hp).
    split; [done|]. exists bm. eauto.
  - split.
    + intros ->. by subst bm.
    + intros Hnone. destruct best as [p|]; [|done].
      destruct Hbest as (Hin & Hm & He & Hp).
      specialize (Hnone p bm Hin Hm He).
      by apply Qle_not_lt in Hnone.
Qed.

Lemma max_loop_spec (rest : list file) (best : file) (bk : Q) (p : file) :
  f_mtime best = Ok bk → max_loop best bk rest = Ok p →
  p ∈ best :: rest ∧
  ∃ m, f_mtime p = Ok m ∧ (bk <= m)%Q ∧
       ∀ q, q ∈ rest → ∃ mq, f_mtime q = Ok mq ∧ (mq <= m)%Q.
Proof.
  revert best bk. induction rest as [|q rest IH]; intros best bk Hb; simpl.
  - intros [= <-]. split; [by left|]. exists bk.
    split; [done|]. split; [apply Qle_refl|]. by intros q ?%elem_of_nil.
  - destruct (f_mtime q) as [mq|e] eqn:Eq; [|done].
    destruct (Qlt_bool bk mq) eqn:Hlt; intros Hloop.
    + apply Qlt_bool_iff in Hlt.
      destruct (IH q mq Eq Hloop) as (Hin & m & Hm & Hle & Hall).
      split; [right; exact Hin|]. exists m. split; [done|].
      split; [apply Qlt_le_weak; by eapply Qlt_le_trans|].
      intros x Hx. apply elem_of_cons in Hx as [->|Hx]; [by exists mq | eauto].
    + destruct (IH best bk Hb Hloop) as (Hin & m & Hm & Hle & Hall).
      split.
      { apply elem_of_cons in Hin as [->|Hin]; [by left | by right; right]. }
      exists m. split; [done|]. split; [done|].
      intros x Hx. apply elem_of_cons in Hx as [->|Hx]; [|eauto].
      exists mq. split; [done|]. eapply Qle_trans; [|exact Hle].
      apply Qnot_lt_le. intros Hc. apply Qlt_bool_iff in Hc. congruence.
Qed.

Lemma max_loop_err (rest : list file) (best : file) (bk : Q) (e : exn) :
  max_loop best bk rest = Err e → ∃ q, q ∈ rest ∧ f_mtime q = Err e.
Proof.
  revert best bk. induction rest as [|q rest IH]; intros best bk; simpl;
    [done|].
  destruct (f_mtime q) as [mq|e'] eqn:Eq.
  - destruct (Qlt_bool bk mq); intros Hloop;
      destruct (IH _ _ Hloop) as (x & Hx & He); exists x;
      (split; [by right | done]).
  - intros [= <-]. exists q. split; [by left | done].
Qed.

(** X7: the fallback [max] over the .txt files raises [ValueError] on an
    empty sequence and the error of [stat] when a key cannot be computed,
    and nothing else; the file it returns is one of the sequence, and no
    file of the sequence is newer. *)
Theorem max_by_mtime_is_newest (l : list file) :
  (l = [] → max_by_mtime l = Err (Exn ValueError max_empty_msg)) ∧
  (∀ p, max_by_mtime l = Ok p →
     p ∈ l ∧ ∃ m, f_mtime p = Ok m ∧
                  ∀ q, q ∈ l → ∃ mq, f_mtime q = Ok mq ∧ (mq <= m)%Q) ∧
  (∀ e, max_by_mtime l = Err e →
     (l = [] ∧ e = Exn ValueError max_empty_msg) ∨
     ∃ q, q ∈ l ∧ f_mtime q = Err e).
Proof.
  split; [by intros ->|]. unfold max_by_mtime.
  destruct l as [|p0 rest]; [split; [done | intros e [= <-]; by left]|].
  destruct (f_mtime p0) as [m0|e0] eqn:E0.
  - split.
    + intros p Hloop.
      destruct (max_loop_spec rest p0 m0 p E0 Hloop)
        as (Hin & m & Hm & Hle & Hall).
      split; [done|]. exists m. split; [done|].
      intros q Hq. apply elem_of_cons in Hq as [->|Hq]; [by exists m0 | eauto].
    + intros e Hloop. right.
      destruct (max_loop_err _ _ _ _ Hloop) as (q & Hq & He).
      exists q. split; [by right | done].
  - split; [done|]. intros e [= <-]. right. exists p0.
    split; [by left | done].
Qed.

End LatestFacts.

Lemma latest_txt_is_newest_witness :
  find_latest_txt_after
    (Present [sample_file "old.txt" 90; sample_file "new.txt" 120;
              sample_file "notes.md" 500; sample_file "mid.txt" 110]) 100
  = Some (sample_file "new.txt" 120) ∧
  sample_file "new.txt" 120 ∈
    glob (lit "*.txt")
      [sample_file "old.txt" 90; sample_file "new.txt" 120;
       sample_file "notes.md" 500; sample_file "mid.txt" 110].
Proof.
  split; [reflexivity|].
  exact (proj1 (proj1 (proj2 (latest_txt_is_newest
                                (Present [sample_file "old.txt" 90;
                                          sample_file "new.txt" 120;
                                          sample_file "notes.md" 500;
                                          sample_file "mid.txt" 110]) 100)
                         _ eq_refl) _ eq_refl)).
Defined.

Lemma max_by_mtime_is_newest_witness :
  max_by_mtime [sample_file "a.txt" 3; sample_file "b.txt" 7;
                sample_file "c.txt" 7]
  = Ok (sample_file "b.txt" 7) ∧
  sample_file "b.txt" 7 ∈ [sample_file "a.txt" 3; sample_file "b.txt" 7;
                           sample_file "c.txt" 7].
Proof.
  split; [reflexivity|].
  exact (proj1 (proj1 (proj2 (max_by_mtime_is_newest
                                [sample_file "a.txt" 3; sample_file "b.txt" 7;
                                 sample_file "c.txt" 7])) _ eq_refl)).
Defined.

(** ** Sending and escaping *)

(** X8: [send_email_html] never raises and touches neither the narrative
    nor the status.  A message goes out exactly when there is a recipient
    and the mail server takes the message; it reports [sent] exactly when,
    besides, the session ends without an error, so that a message may have
    gone out although the answer is [(False, err)].  Without a recipient
    the error is ["No recipients configured"] and the server is not
    contacted. *)
Theorem send_email_never_raises `{PyRuntime} (w : world) (sender : str)
  (to : list str) (subject html_body : str) (s : state) :
  ∃ (sent went_out : bool) (err : option str),
    send_email_html w sender to subject html_body s =
    (Ok (sent, err),
     {| lines := lines s; subject_status := subject_status s;
        log_path := log_path s;
        effects := effects s ++
                   if went_out then [SendEmail sender to subject html_body]
                   else [] |}) ∧
    (went_out = true ↔ to ≠ [] ∧ ∃ u, w_smtp w = Ok u) ∧
    (sent = true ↔ went_out = true ∧ ∃ u, w_smtp_quit w = Ok u) ∧
    (sent = true → err = None) ∧
    (sent = false → is_Some err) ∧
    (to = [] → err = Some (lit "No recipients configured")).
Proof.
  destruct s as [ls st lp es].
  unfold send_email_html, try_except, bind, lift, emit, mret, M_ret, ret.
  destruct to as [|t to]; cbn -[lit].
  - exists false, false, (Some (lit "No recipients configured")).
    rewrite app_nil_r. repeat split; try done; by intros [? _].
  - destruct (w_smtp w) as [u|e]; cbn -[lit].
    + destruct (w_smtp_quit w) as [u'|e']; cbn -[lit].
      * exists true, true, (@None (list N)).
        split; [done|]. split; [split; [intros _|done]; split; [done|]; by exists u|].
        split; [split; [intros _|done]; split; [done|]; by exists u'|].
        done.
      * exists false, true, (Some (exn_msg e')).
        split; [done|]. split; [split; [intros _|done]; split; [done|]; by exists u|].
        split; [split; [done|]; by intros (_ & ? & ?)|].
        split; [done|]. split; [by eexists | done].
    + exists false, false, (Some (exn_msg e)). rewrite app_nil_r.
      split; [done|]. split; [split; [done|]; by intros (_ & ? & ?)|].
      split; [split; [done|]; by intros [? _]|].
      split; [done|]. split; [by eexists | done].
Qed.

(** A message that went out and was reported as not sent. *)
Example send_email_quit_error :
  let w := World (lit "2024-03-01_060000") (lit "Mar 01, 2024 06:00")
             (lit "2024-03-01") (lit "win32") (Ok tt) (Ok tt)
             (Ok sample_config) (Ok tt) true (Ok tt) 0 Absent Missing
             (lit "2024-03-01T11:00:00Z") (Ok tt) (Ok tt) 0 (lit "exe")
             true (Exits 0 1) Missing (lit "logs") Absent (Ok tt) (Ok tt)
             (Ok tt) (Err (Exn OtherException (lit "(421, b'closing')")))
             0 Absent (Ok tt) (Ok tt) in
  send_email_html w (lit "a@x.org") [lit "b@x.org"] (lit "s") (lit "h")
    initial_state
  = (Ok (false, Some (lit "(421, b'closing')")),
     {| lines := []; subject_status := lit "OK"; log_path := None;
        effects := [SendEmail (lit "a@x.org") [lit "b@x.org"] (lit "s")
                      (lit "h")] |}).
Proof. reflexivity. Qed.

Section EscapeFacts.

Lemma html_escape_app (s t : str) :
  html_escape (s ++ t) = html_escape s ++ html_escape t.
Proof. unfold html_escape. apply flat_map_app. Qed.

Lemma html_escape_char (x c : char) :
  c ∈ html_escape [x] → c ≠ 60 ∧ c ≠ 62 ∧ c ≠ 34 ∧ c ≠ 39.
Proof.
  unfold html_escape. cbn [flat_map]. rewrite app_nil_r.
  destruct (N.eqb_spec x 38) as [->|H38].
  { intros Hc. vm_compute in Hc.
    repeat (apply elem_of_cons in Hc as [->|Hc]; [by repeat split|]).
    by apply elem_of_nil in Hc. }
  destruct (N.eqb_spec x 60) as [->|H60].
  { intros Hc. vm_compute in Hc.
    repeat (apply elem_of_cons in Hc as [->|Hc]; [by repeat split|]).
    by apply elem_of_nil in Hc. }
  destruct (N.eqb_spec x 62) as [->|H62].
  { intros Hc. vm_compute in Hc.
    repeat (apply elem_of_cons in Hc as [->|Hc]; [by repeat split|]).
    by apply elem_of_nil in Hc. }
  destruct (N.eqb_spec x 34) as [->|H34].
  { intros Hc. vm_compute in Hc.
    repeat (apply elem_of_cons in Hc as [->|Hc]; [by repeat split|]).
    by apply elem_of_nil in Hc. }
  destruct (N.eqb_spec x 39) as [->|H39].
  { intros Hc. vm_compute in Hc.
    repeat (apply elem_of_cons in Hc as [->|Hc]; [by repeat split|]).
    by apply elem_of_nil in Hc. }
  intros Hc. apply list_elem_of_singleton in Hc as ->. done.
Qed.

(** X9: the text [html.escape] returns has no [<], [>], double or single
    quote, whatever the input; escaping goes piece by piece; and a text
    without these four characters and without [&] is returned as it
    is. *)
Theorem html_escape_safe (s : str) :
  (∀ c, c ∈ html_escape s → c ≠ 60 ∧ c ≠ 62 ∧ c ≠ 34 ∧ c ≠ 39) ∧
  (∀ t, html_escape (s ++ t) = html_escape s ++ html_escape t) ∧
  ((∀ c, c ∈ s → c ≠ 38 ∧ c ≠ 60 ∧ c ≠ 62 ∧ c ≠ 34 ∧ c ≠ 39) →
   html_escape s = s).
Proof.
  split; [|split; [apply html_escape_app|]].
  - induction s as [|x s IH]; [by intros c ?%elem_of_nil|].
    intros c Hc. change (x :: s) with ([x] ++ s) in Hc.
    rewrite html_escape_app in Hc. apply elem_of_app in Hc as [Hc|Hc].
    + by apply html_escape_char with x.
    + by apply IH.
  - induction s as [|x s IH]; intros Hs; [done|].
    change (x :: s) with ([x] ++ s). rewrite html_escape_app, IH.
    + f_equal. unfold html_escape. cbn [flat_map]. rewrite app_nil_r.
      destruct (Hs x) as (H38 & H60 & H62 & H34 & H39); [by left|].
      apply N.eqb_neq in H38, H60, H62, H34, H39.
      by rewrite H38, H60, H62, H34, H39.
    + intros c Hc. apply Hs. by right.
Qed.

End EscapeFacts.

Lemma html_escape_safe_witness :
  (∀ c, c ∈ lit "Load complete" →
        c ≠ 38 ∧ c ≠ 60 ∧ c ≠ 62 ∧ c ≠ 34 ∧ c ≠ 39) ∧
  html_escape (lit "Load complete") = lit "Load complete".
Proof.
  assert (∀ c, c ∈ lit "Load complete" →
               c ≠ 38 ∧ c ≠ 60 ∧ c ≠ 62 ∧ c ≠ 34 ∧ c ≠ 39) as Hs.
  { intros c Hc. vm_compute in Hc.
    repeat (apply elem_of_cons in Hc as [->|Hc]; [by repeat split|]).
    by apply elem_of_nil in Hc. }
  split; [exact Hs|].
  exact (proj2 (proj2 (html_escape_safe (lit "Load complete"))) Hs).
Defined.

Example html_escape_markup :
  html_escape (lit "<b>R&D 'x'</b>")
  = lit "&lt;b&gt;R&amp;D &#x27;x&#x27;&lt;/b&gt;".
Proof. reflexivity. Qed.

(** ** Retention windows *)

Section RetentionWindows.
Context `{PyRuntime}.

Lemma doomed_earlier_cutoff (c1 c2 : Q) (pattern : str) (f : file) :
  (c1 <= c2)%Q → doomed c1 pattern f = true → doomed c2 pattern f = true.
Proof.
  intros Hle. rewrite !doomed_iff.
  intros (Hm & (m & Hmt & Hlt) & Hu). split; [done|]. split; [|done].
  exists m. split; [done|]. by eapply Qlt_le_trans.
Qed.

(** X10: a longer retention never deletes more: with [0 < short <= long]
    days, at the same time and on the same folder, when the call under
    [long] returns, the call under [short] returns too, every file deleted
    under [long] is deleted under [short], and the count is no greater. *)
Theorem longer_retention_deletes_less (now : Q) (files : list file)
  (pattern : str) (short long : Z) (kept : Z * list file) :
  (0 < short)%Z → (short ≤ long)%Z →
  remove_old_files now (Present files) pattern long = Ok kept →
  ∃ gone,
    remove_old_files now (Present files) pattern short = Ok gone ∧
    (∀ f, f ∈ kept.2 → f ∈ gone.2) ∧ (kept.1 ≤ gone.1)%Z.
Proof.
  intros Hs Hl Hkept.
  assert (long * 86400 < 2 ^ 1024 - 2 ^ 970)%Z as Hfits.
  { destruct (Z.lt_ge_cases (long * 86400) (2 ^ 1024 - 2 ^ 970))
      as [Hlt|Hge]; [done|].
    rewrite remove_old_files_overflow in Hkept by done. discriminate. }
  rewrite remove_old_files_in_range in Hkept by lia.
  injection Hkept as <-.
  eexists. split; [apply remove_old_files_in_range; lia|].
  cbn [fst snd].
  set (c1 := (now - inject_Z (long * 86400))%Q).
  set (c2 := (now - inject_Z (short * 86400))%Q).
  assert ((c1 <= c2)%Q) as Hc.
  { subst c1 c2. unfold Qminus. apply Qplus_le_r. apply Qopp_le_compat.
    rewrite <- Zle_Qle. lia. }
  assert (∀ f, doomed c1 pattern f = true → doomed c2 pattern f = true)
    as Hmono by (intros f; by apply doomed_earlier_cutoff).
  split.
  - intros f. rewrite !list_elem_of_In, !filter_In.
    intros [Hin Hd]. split; [done | by apply Hmono].
  - induction files as [|f files IH]; simpl; [done|].
    destruct (doomed c1 pattern f) eqn:E1.
    + rewrite (Hmono f E1). cbn [length]. lia.
    + destruct (doomed c2 pattern f); cbn [length]; lia.
Qed.

End RetentionWindows.

Lemma longer_retention_deletes_less_witness :
  (0 < 10)%Z ∧ (10 ≤ 60)%Z ∧
  remove_old_files 8640000
    (Present [sample_file "a.txt" 5000000; sample_file "b.txt" 100])
    (lit "*.txt") 60
  = Ok (1%Z, [sample_file "b.txt" 100]) ∧
  ∃ gone,
    remove_old_files 8640000
      (Present [sample_file "a.txt" 5000000; sample_file "b.txt" 100])
      (lit "*.txt") 10
    = Ok gone ∧ (1 ≤ gone.1)%Z.
Proof.
  split; [lia|]. split; [lia|].
  assert (remove_old_files 8640000
            (Present [sample_file "a.txt" 5000000; sample_file "b.txt" 100])
            (lit "*.txt") 60
          = Ok (1%Z, [sample_file "b.txt" 100])) as Hkept by (by vm_compute).
  split; [exact Hkept|].
  destruct (longer_retention_deletes_less 8640000
              [sample_file "a.txt" 5000000; sample_file "b.txt" 100]
              (lit "*.txt") 10 60 _ ltac:(lia) ltac:(lia) Hkept)
    as (gone & Hgone & _ & Hcount).
  by exists gone.
Defined.

(** ** Recipients *)

Section RecipientFacts.
Context `{PyRuntime}.

Lemma split_on_clean (p : char -> bool) (e : str) :
  (∀ c, c ∈ e → p c = false) → split_on p e = [e].
Proof.
  induction e as [|a e IH]; intros He; [done|].
  simpl. rewrite (He a) by by left.
  rewrite IH; [done|]. intros c Hc. apply He. by right.
Qed.

Lemma split_on_sep (p : char -> bool) (e : str) (c : char) (rest : str) :
  (∀ x, x ∈ e → p x = false) → p c = true →
  split_on p (e ++ c :: rest) = e :: split_on p rest.
Proof.
  intros He Hc. induction e as [|a e IH]; simpl.
  - by rewrite Hc.
  - rewrite (He a) by by left.
    rewrite IH; [done|]. intros x Hx. apply He. by right.
Qed.

Lemma split_on_pieces (p : char -> bool) (s : str) (piece : str) (c : char) :
  piece ∈ split_on p s → c ∈ piece → p c = false.
Proof.
  revert piece. induction s as [|a s IH]; intros piece; simpl.
  - intros Hp%list_elem_of_singleton. subst. by intros ?%elem_of_nil.
  - destruct (p a) eqn:Ea.
    + intros Hp. apply elem_of_cons in Hp as [->|Hp];
        [by intros ?%elem_of_nil | by apply IH].
    + destruct (split_on p s) as [|first rest] eqn:Es.
      * intros Hp%list_elem_of_singleton. subst.
        intros Hc%list_elem_of_singleton. by subst.
      * intros Hp. apply elem_of_cons in Hp as [->|Hp].
        -- intros Hc. apply elem_of_cons in Hc as [->|Hc]; [done|].
           apply (IH first); [by left | done].
        -- apply IH. by right.
Qed.

Lemma split_on_join (p : char -> bool) (parts : list str) (e : str) :
  p 44 = true → p 32 = false →
  (∀ x c, x ∈ e :: parts → c ∈ x → p c = false) →
  split_on p (join (lit ", ") (e :: parts)) = e :: List.map (cons 32) parts.
Proof.
  intros H44 H32. revert e. induction parts as [|e2 parts IH]; intros e Hc.
  - cbn [join List.map]. apply split_on_clean. intros c. apply Hc. by left.
  - change (join (lit ", ") (e :: e2 :: parts))
      with (e ++ 44 :: 32 :: join (lit ", ") (e2 :: parts)).
    rewrite split_on_sep; [|intros x; apply Hc; by left | done].
    cbn [split_on]. rewrite H32, IH; [done|].
    intros x c Hx. apply Hc. by right.
Qed.

Lemma strip_after_space (x : str) : strip (32 :: x) = strip x.
Proof. reflexivity. Qed.

(** Splitting a joined list of clean addresses and trimming the pieces
    gives the list back. *)
Lemma parts_of_join (p : char -> bool) (parts : list str) :
  p 44 = true → p 32 = false →
  (∀ x, x ∈ parts → x ≠ [] ∧ strip x = x ∧ ∀ c, c ∈ x → p c = false) →
  stripped_parts (split_on p (join (lit ", ") parts)) = parts.
Proof.
  intros H44 H32 Hparts. destruct parts as [|e parts]; [reflexivity|].
  rewrite split_on_join; [|done|done|].
  2: { intros x c Hx. by apply Hparts. }
  unfold stripped_parts. cbn [List.map List.filter].
  destruct (Hparts e) as (Hne & Hs & _); [by left|]. rewrite Hs.
  destruct e as [|a e]; [done|]. cbn [is_empty negb]. f_equal.
  assert (∀ x, x ∈ parts → x ≠ [] ∧ strip x = x) as Hrest.
  { intros x Hx. destruct (Hparts x) as (? & ? & _); [by right | done]. }
  clear -Hrest. induction parts as [|x parts IH]; [done|].
  cbn [List.map List.filter]. rewrite strip_after_space.
  destruct (Hrest x) as [Hne Hs]; [by left|]. rewrite Hs.
  destruct x as [|b x]; [done|]. cbn [is_empty negb]. f_equal.
  apply IH. intros y Hy. apply Hrest. by right.
Qed.

Lemma split_replaced (value : str) :
  split_on (N.eqb 44) (replace_semicolons value)
  = split_on (fun c => (c =? 59) || (c =? 44)) value.
Proof.
  induction value as [|c value IH]; [done|].
  cbn [replace_semicolons List.map split_on].
  fold (replace_semicolons value). rewrite IH.
  destruct (N.eqb_spec c 59) as [->|H59]; [done|].
  rewrite N.eqb_sym. cbn [orb]. done.
Qed.

Lemma stripped_parts_clean (text : str) (x : str) :
  x ∈ stripped_parts (split_on is_recipient_sep text) → clean_address x.
Proof.
  unfold stripped_parts. rewrite list_elem_of_In, filter_In, in_map_iff.
  intros [(piece & <- & Hpiece) Hne]. split; [|split].
  - by destruct (strip piece).
  - apply strip_idem.
  - intros c Hc. apply (split_on_pieces is_recipient_sep text piece).
    + by apply list_elem_of_In.
    + by apply strip_incl.
Qed.

Lemma clean_for_updater (x : str) (c : char) :
  clean_address x → c ∈ x → (c =? 59) || (c =? 44) = false.
Proof.
  intros (_ & _ & Hc) Hin. specialize (Hc c Hin).
  unfold is_recipient_sep in Hc.
  by destruct (c =? 59), (c =? 44).
Qed.

(** X11: on one and the same string, the expression of line 301 of the
    updater (replace [;] by [,], split on [,], strip, drop what is empty)
    and the expression of lines 207 and 313 of the console (split on [;]
    or [,], strip, drop what is empty) give the same list.  The string
    each program applies its expression to comes from its own
    [ConfigParser], and the two parsers need not return the same string
    for one file: that step is not part of the statement. *)
Theorem recipient_splits_agree (value : str) :
  recipients_of value = console_emails value.
Proof. unfold recipients_of, console_emails. by rewrite split_replaced. Qed.

(** X12: for addresses that are trimmed, not empty and free of [,], [;]
    and line feeds, the text [save_config] computes for the recipients
    option (line 53) is the addresses joined by [", "]; and whenever the
    value the updater has in hand at line 301 is that text, the list it
    computes is the same addresses in the same order.  Whether the
    updater's [ConfigParser] returns the text as it was stored is not part
    of the statement. *)
Theorem saved_recipients_split_back (emails : list str) (value : str) :
  (∀ e, e ∈ emails → clean_address e) →
  value = saved_recipients emails →
  saved_recipients emails = join (lit ", ") emails ∧
  recipients_of value = emails.
Proof.
  intros Hclean ->.
  assert (saved_recipients emails = join (lit ", ") emails) as Hsaved.
  { unfold saved_recipients, normalize_recipients.
    rewrite parts_of_join; [done|done|done|]. intros x Hx. apply Hclean, Hx. }
  split; [exact Hsaved|].
  rewrite Hsaved. unfold recipients_of. rewrite split_replaced.
  apply parts_of_join; [done|done|].
  intros x Hx. destruct (Hclean x Hx) as (Hne & Hs & Hc).
  split; [done|]. split; [done|].
  intros c Hin. by apply (clean_for_updater x c (Hclean x Hx)).
Qed.

Lemma join_chars (sep : str) (l : list str) (c : char) :
  c ∈ join sep l → c ∈ sep ∨ ∃ x, x ∈ l ∧ c ∈ x.
Proof.
  induction l as [|x l IH]; cbn [join].
  - intros Hc. by apply elem_of_nil in Hc.
  - destruct l as [|y l].
    + intros Hc. right. exists x. split; [by left | done].
    + rewrite !elem_of_app. intros [Hc|[Hc|Hc]].
      * right. exists x. split; [by left | done].
      * by left.
      * destruct (IH Hc) as [Hs|(z & Hz & Hcz)]; [by left|].
        right. exists z. split; [by right | done].
Qed.

(** X13: [normalize_recipients] changes nothing the second time, and its
    result has no [;] and no line feed: it is one line, with [", "]
    between the pieces. *)
Theorem normalize_recipients_stable (text : str) :
  normalize_recipients (normalize_recipients text)
  = normalize_recipients text ∧
  ∀ c, c ∈ normalize_recipients text → c ≠ 59 ∧ c ≠ 10.
Proof.
  pose proof (stripped_parts_clean text) as Hclean. split.
  - unfold normalize_recipients at 2 3.
    unfold normalize_recipients. rewrite parts_of_join; [done|done|done|].
    intros x Hx. apply Hclean, Hx.
  - intros c Hc. unfold normalize_recipients in Hc.
    apply join_chars in Hc as [Hc|(x & Hx & Hc)].
    + vm_compute in Hc.
      repeat (apply elem_of_cons in Hc as [->|Hc]; [by split|]).
      by apply elem_of_nil in Hc.
    + destruct (Hclean x Hx) as (_ & _ & Hsep). specialize (Hsep c Hc).
      unfold is_recipient_sep in Hsep.
      split; intros ->; by vm_compute in Hsep.
Qed.

End RecipientFacts.

Lemma saved_recipients_split_back_witness :
  (∀ e, e ∈ [lit "fleet@example.org"; lit "ops@example.org"] →
        clean_address e) ∧
  recipients_of (lit "fleet@example.org, ops@example.org")
  = [lit "fleet@example.org"; lit "ops@example.org"].
Proof.
  assert (∀ e, e ∈ [lit "fleet@example.org"; lit "ops@example.org"] →
               clean_address e) as Hclean.
  { intros e He.
    apply elem_of_cons in He as [->|He];
      [|apply elem_of_cons in He as [->|He]; [|by apply elem_of_nil in He]].
    - split; [done|]. split; [reflexivity|]. intros c Hc. vm_compute in Hc.
      repeat (apply elem_of_cons in Hc as [->|Hc]; [reflexivity|]).
      by apply elem_of_nil in Hc.
    - split; [done|]. split; [reflexivity|]. intros c Hc. vm_compute in Hc.
      repeat (apply elem_of_cons in Hc as [->|Hc]; [reflexivity|]).
      by apply elem_of_nil in Hc. }
  split; [exact Hclean|].
  exact (proj2 (saved_recipients_split_back _
                  (lit "fleet@example.org, ops@example.org") Hclean
                  eq_refl)).
Defined.

(** An entry of the list with a comma in it is saved as two pieces. *)
Example recipients_comma_splits :
  saved_recipients [lit "a,b@example.org"] = lit "a, b@example.org".
Proof. reflexivity. Qed.

Example normalize_recipients_mixed :
  normalize_recipients (lit " a@x.org ;b@x.org,,
 c@x.org ") = lit "a@x.org, b@x.org, c@x.org".
Proof. reflexivity. Qed.

(** ** The configuration file *)



Section LoadConfigFacts.

Lemma check_sections_ok (cfg : gmap str (gmap str str)) (secs : list str) :
  check_sections cfg secs = Ok tt ↔ ∀ sec, sec ∈ secs → is_Some (cfg !! sec).
Proof.
  induction secs as [|sec secs IH]; simpl.
  - split; [|done]. by intros _ sec ?%elem_of_nil.
  - destruct (cfg !! sec) as [v|] eqn:E.
    + rewrite IH. split.
      * intros Hall x Hx. apply elem_of_cons in Hx as [->|Hx]; eauto.
      * intros Hall x Hx. apply Hall. by right.
    + split; [done|]. intros Hall.
      destruct (Hall sec) as [v Hv]; [by left | congruence].
Qed.

Lemma check_sections_err (cfg : gmap str (gmap str str)) (secs : list str)
  (e : exn) :
  check_sections cfg secs = Err e →
  ∃ before sec after,
    secs = before ++ sec :: after ∧
    (∀ x, x ∈ before → is_Some (cfg !! x)) ∧ cfg !! sec = None ∧
    e = Exn ValueError (lit "Missing [" ++ sec ++ lit "] in config.ini").
Proof.
  induction secs as [|sec secs IH]; simpl; [done|].
  destruct (cfg !! sec) as [v|] eqn:E.
  - intros Herr. destruct (IH Herr) as (before & x & after & -> & Hb & Hx & ->).
    exists (sec :: before), x, after. repeat split; try done.
    intros y Hy. apply elem_of_cons in Hy as [->|Hy]; eauto.
  - intros [= <-]. exists [], sec, secs. repeat split; try done.
    by intros x ?%elem_of_nil.
Qed.

(** X15: when [load_config] returns, the five required sections and
    [OPTIONS] are all there, every section that was read is unchanged, and
    a missing [OPTIONS] has been added empty; when it raises after a
    successful read, the error names the first required section, in the
    order PATHS, SERVER, UPLOAD, EMAIL, RETENTION, that is missing. *)
Theorem load_config_sections (read : result (gmap str (gmap str str))) :
  (∀ cfg, load_config read = Ok cfg →
     ∃ parsed, read = Ok parsed ∧
       (∀ sec, sec ∈ required_sections → is_Some (cfg !! sec)) ∧
       is_Some (cfg !! lit "OPTIONS") ∧
       (∀ sec, is_Some (parsed !! sec) → cfg !! sec = parsed !! sec) ∧
       (parsed !! lit "OPTIONS" = None → cfg !! lit "OPTIONS" = Some ∅)) ∧
  (∀ parsed e, read = Ok parsed → load_config read = Err e →
     ∃ before sec after,
       required_sections = before ++ sec :: after ∧
       (∀ x, x ∈ before → is_Some (parsed !! x)) ∧ parsed !! sec = None ∧
       e = Exn ValueError (lit "Missing [" ++ sec ++ lit "] in config.ini")) ∧
  (∀ e, read = Err e → load_config read = Err e).
Proof.
  unfold load_config, mbind, result_bind, mret, result_ret.
  split; [|split].
  - intros cfg. destruct read as [parsed|e]; [|done].
    destruct (check_sections parsed required_sections) as [[]|e] eqn:Ec;
      [|done].
    pose proof (proj1 (check_sections_ok _ _) Ec) as Hall. clear Ec.
    rename Hall into Ec. intros [= <-]. exists parsed.
    split; [done|].
    destruct (parsed !! lit "OPTIONS") as [o|] eqn:Eo.
    + repeat split; try done; by eexists.
    + repeat split.
      * intros sec Hsec. destruct (Ec sec Hsec) as [v Hv].
        destruct (decide (sec = lit "OPTIONS")) as [->|Hne]; [congruence|].
        rewrite lookup_insert_ne by done. by eexists.
      * rewrite lookup_insert_eq. by eexists.
      * intros sec [v Hv].
        destruct (decide (sec = lit "OPTIONS")) as [->|Hne]; [congruence|].
        by rewrite lookup_insert_ne.
      * intros _. apply lookup_insert_eq.
  - intros parsed e -> Herr.
    destruct (check_sections parsed required_sections) as [[]|e'] eqn:Ec;
      [done|].
    injection Herr as <-. by apply check_sections_err.
  - by intros e ->.
Qed.

End LoadConfigFacts.

Lemma load_config_sections_witness :
  load_config (Ok {[lit "PATHS" := ∅; lit "SERVER" := ∅; lit "EMAIL" := ∅]})
  = Err (Exn ValueError (lit "Missing [UPLOAD] in config.ini")) ∧
  ∃ before sec after, required_sections = before ++ sec :: after.
Proof.
  assert (load_config
            (Ok {[lit "PATHS" := ∅; lit "SERVER" := ∅; lit "EMAIL" := ∅]})
          = Err (Exn ValueError (lit "Missing [UPLOAD] in config.ini")))
    as Herr by (by vm_compute).
  split; [exact Herr|].
  destruct (proj1 (proj2 (load_config_sections
                            (Ok {[lit "PATHS" := ∅; lit "SERVER" := ∅;
                                  lit "EMAIL" := ∅]}))) _ _ eq_refl Herr)
    as (before & sec & after & Hsecs & _).
  by exists before, sec, after.
Defined.

(** ** Steps that cannot raise *)

Section SucceedsRules.

Lemma succeeds_ret {A} (a : A) : succeeds (ret a).
Proof. intros s. by eexists _, _. Qed.

Lemma succeeds_lift {A} (a : A) : succeeds (lift (Ok a)).
Proof. intros s. by eexists _, _. Qed.

Lemma succeeds_emit (e : effect) : succeeds (emit e).
Proof. intros s. by eexists _, _. Qed.

Lemma succeeds_set_status (v : str) : succeeds (set_status v).
Proof. intros s. by eexists _, _. Qed.

Lemma succeeds_set_log_path (p : str) : succeeds (set_log_path p).
Proof. intros s. by eexists _, _. Qed.

Lemma succeeds_get_status : succeeds get_status.
Proof. intros s. by eexists _, _. Qed.

Lemma succeeds_add (w : world) (msg : str) : succeeds (add w msg).
Proof. intros s. rewrite add_run. by eexists _, _. Qed.

Lemma succeeds_bind {A B} (m : M A) (f : A -> M B) :
  succeeds m → (∀ a, succeeds (f a)) → succeeds (bind m f).
Proof.
  intros Hm Hf s. unfold bind. destruct (Hm s) as (a & s1 & ->). apply Hf.
Qed.

Lemma succeeds_try {A} (m : M A) (h : exn -> M A) :
  (∀ e, succeeds (h e)) → succeeds (try_except m h).
Proof.
  intros Hh s. unfold try_except. destruct (m s) as [[a|e] s1].
  - by eexists _, _.
  - apply Hh.
Qed.

End SucceedsRules.

Ltac succeeds_step :=
  lazymatch goal with
  | |- succeeds (bind _ _) => apply succeeds_bind; [|intros ?]
  | |- succeeds (try_except _ _) => apply succeeds_try; intros ?
  | |- succeeds (ret _) => apply succeeds_ret
  | |- succeeds (lift (Ok _)) => apply succeeds_lift
  | |- succeeds get_status => apply succeeds_get_status
  | |- succeeds (set_log_path _) => apply succeeds_set_log_path
  | |- succeeds (emit _) => apply succeeds_emit
  | |- succeeds (set_status _) => apply succeeds_set_status
  | |- succeeds (add _ _) => apply succeeds_add
  | |- succeeds (if ?b then _ else _) => destruct b
  | |- succeeds (match ?x with _ => _ end) => destruct x
  | |- succeeds (let _ := _ in _) => cbv zeta
  end.

Ltac succeeds_tac :=
  unfold mbind, M_bind, mret, M_ret; repeat succeeds_step.

Section RobustSteps.
Context `{PyRuntime}.
Variable w : world.

Lemma succeeds_copy_input : succeeds (copy_input w).
Proof. unfold copy_input. succeeds_tac. Qed.

Lemma succeeds_emit_unlinks (deleted : list file) :
  succeeds (fold_right (fun f k => emit (Unlink (f_name f));; k)
              (mret tt) deleted).
Proof.
  induction deleted as [|f deleted IH]; cbn [fold_right].
  - apply succeeds_ret.
  - apply succeeds_bind; [apply succeeds_emit | by intros _].
Qed.

Lemma succeeds_purge (now : Q) (dir : folder) (pattern what : str)
  (days : Z) :
  (days * 86400 < 2 ^ 1024 - 2 ^ 970)%Z →
  succeeds (purge w now dir pattern what days).
Proof.
  intros Hfits. unfold purge.
  destruct (remove_old_files_returns now dir pattern days Hfits) as [r ->].
  apply succeeds_bind; [apply succeeds_lift|]. intros r'.
  apply succeeds_bind; [apply succeeds_emit_unlinks|].
  intros _. succeeds_tac.
Qed.

Lemma succeeds_parse_input (dest_set : bool) :
  succeeds (parse_input w dest_set).
Proof. unfold parse_input. succeeds_tac. Qed.

Lemma succeeds_generate_xml (records : list (gmap str str)) :
  succeeds (generate_xml w records).
Proof. unfold generate_xml. succeeds_tac. Qed.

Lemma succeeds_write_runfile (cfg : config) : succeeds (write_runfile w cfg).
Proof. unfold write_runfile. succeeds_tac. Qed.

Lemma succeeds_after_setup (cfg : config) :
  (retain_days cfg * 86400 < 2 ^ 1024 - 2 ^ 970)%Z →
  succeeds (dest_set ← copy_input w;
            purge w (w_now_inputs w) (w_input_dir w)
              (lit "UnmatchedDepartment_*.csv") (lit "input files")
              (retain_days cfg);;
            records ← parse_input w dest_set;
            xml_generated ← generate_xml w records;
            write_runfile w cfg;;
            mret (cfg, records, xml_generated)).
Proof.
  intros Hfits. unfold mbind, M_bind.
  apply succeeds_bind; [apply succeeds_copy_input|]. intros dest_set.
  apply succeeds_bind; [by apply succeeds_purge|]. intros _.
  apply succeeds_bind; [apply succeeds_parse_input|]. intros records.
  apply succeeds_bind; [apply succeeds_generate_xml|]. intros xml_generated.
  apply succeeds_bind; [apply succeeds_write_runfile|]. intros _.
  apply succeeds_ret.
Qed.

(** The state a successful setup leaves: the path of the run log is
    set and the log has been created with its header. *)
Lemma setup_run (cfg : config) (s : state) :
  w_setup w = Ok cfg →
  setup w s
  = (Ok cfg, {| lines := lines s; subject_status := subject_status s;
                log_path := Some (run_log_name w);
                effects := effects s ++ [CreateLog (log_header w)] |}).
Proof.
  unfold w_setup, setup, mbind, M_bind, bind, lift, set_log_path, emit,
    mret, M_ret, ret.
  destruct (w_prepare w) as [[]|e1]; [|done].
  destruct (w_create_log w) as [[]|e2]; [|done].
  cbn -[lit]. by intros ->.
Qed.

(** A failing setup says nothing and leaves the status alone; the one
    thing it may have done is to create the run log. *)
Lemma setup_fails (e : exn) (s : state) :
  w_setup w = Err e →
  ∃ s', setup w s = (Err e, s') ∧ lines s' = lines s ∧
        subject_status s' = subject_status s ∧
        (effects s' = effects s ∨
         effects s' = effects s ++ [CreateLog (log_header w)]).
Proof.
  unfold w_setup, setup, mbind, M_bind, bind, lift, set_log_path, emit,
    mret, M_ret, ret.
  destruct (w_prepare w) as [[]|e1].
  - destruct (w_create_log w) as [[]|e2]; cbn -[lit].
    + intros ->. eexists. split; [done|]. cbn. by repeat split; right.
    + intros [= ->]. eexists. split; [done|]. cbn. by repeat split; left.
  - intros [= ->]. eexists. split; [done|]. by repeat split; left.
Qed.

Lemma yields_setup : yields (setup w) (fun cfg => w_setup w = Ok cfg).
Proof.
  intros s cfg s' E. destruct (w_setup w) as [c|e] eqn:Hc.
  - rewrite (setup_run c s Hc) in E. by simplify_eq.
  - destruct (setup_fails e s Hc) as (s1 & E1 & _). congruence.
Qed.

Lemma yields_setup_cfg :
  yields (steps_1_to_4 w) (fun x => w_setup w = Ok x.1.1).
Proof.
  unfold steps_1_to_4, mbind, M_bind.
  eapply yields_bind; [apply yields_setup|].
  intros cfg Hcfg.
  eapply yields_bind; [apply yields_any|]. intros dest_set _.
  eapply yields_bind; [apply yields_any|]. intros _ _.
  eapply yields_bind; [apply yields_any|]. intros records _.
  eapply yields_bind; [apply yields_any|]. intros xml_generated _.
  eapply yields_bind; [apply yields_any|]. intros _ _.
  by apply yields_ret.
Qed.

(** With the setup done and a retention that fits a [float], steps 1 to
    4 return the configuration, the parsed records and the flag of the
    document. *)
Lemma setup_reaches_loader (cfg : config) :
  w_setup w = Ok cfg →
  (retain_days cfg * 86400 < 2 ^ 1024 - 2 ^ 970)%Z →
  ∃ xml_generated s4,
    steps_1_to_4 w initial_state
    = (Ok (cfg, parsed_records w, xml_generated), s4).
Proof.
  intros Hcfg Hfits.
  assert (∃ x s4, steps_1_to_4 w initial_state = (Ok x, s4))
    as ([[cfg' records] xml_generated] & s4 & E4).
  { unfold steps_1_to_4, mbind, M_bind. unfold bind at 1.
    rewrite (setup_run cfg _ Hcfg).
    by apply (succeeds_after_setup cfg). }
  pose proof (yields_setup_cfg _ _ _ E4) as Hcfg'. cbn [fst] in Hcfg'.
  pose proof (yields_steps_1_to_4 w _ _ _ E4) as Hrec. cbn [fst snd] in Hrec.
  assert (cfg' = cfg) as -> by congruence. subst records.
  by exists xml_generated, s4.
Qed.

(** The run when the setup fails: the handler, on the state the setup
    left. *)
Lemma main_setup_failure (e : exn) :
  w_setup w = Err e →
  ∃ s', setup w initial_state = (Err e, s') ∧ main w = (fatal w e s').2.
Proof.
  intros He. destruct (setup_fails e initial_state He) as (s' & E & _).
  exists s'. split; [exact E|].
  unfold main, try_except, main_body, steps_1_to_4, mbind, M_bind.
  unfold bind at 1 2. by rewrite E.
Qed.

(** The run when the retention does not fit a [float] and the input
    folder is there: step 1 copies the input, then the pruning raises. *)
Lemma overflow_stops_step_1 (cfg : config) (files : list file) :
  w_setup w = Ok cfg → (0 < retain_days cfg)%Z →
  (2 ^ 1024 - 2 ^ 970 ≤ retain_days cfg * 86400)%Z →
  w_input_dir w = Present files →
  ∃ s, steps_1_to_4 w initial_state = (Err int_too_large, s).
Proof.
  intros Hcfg Hpos Hover Hdir.
  unfold steps_1_to_4, mbind, M_bind. unfold bind at 1.
  rewrite (setup_run cfg _ Hcfg). unfold bind at 1.
  match goal with
  | |- context [copy_input w ?s0] =>
      destruct (succeeds_copy_input s0) as (dest_set & s1 & ->)
  end.
  unfold bind at 1. unfold purge. unfold bind at 1. unfold lift.
  rewrite Hdir, remove_old_files_overflow by done. by eexists.
Qed.


End RobustSteps.


(** ** Runs, case by case *)

Section RunCases.
Context `{PyRuntime}.
Variable w : world.

(** The document flag is set only after a document was written from at
    least one record. *)
Lemma yields_generate_xml_flag (records : list (gmap str str)) :
  yields (generate_xml w records)
         (fun b => b = true → records ≠ [] ∧ ∃ u, w_write_xml w = Ok u).
Proof.
  intros s b s'.
  unfold generate_xml, try_except, bind, mbind, M_bind, mret, M_ret, lift,
    add, set_status, emit, ret.
  destruct records as [|rec records]; cbn -[lit].
  - destruct (log_path s), (w_log_append w); cbn -[lit]; intros ?;
      by simplify_eq.
  - destruct (w_write_xml w) as [u|e]; cbn -[lit];
      destruct (log_path s), (w_log_append w); cbn -[lit]; intros ?;
      simplify_eq; try done; intros _; (split; [done | by exists u]).
Qed.

Lemma yields_steps_flag :
  yields (steps_1_to_4 w)
         (fun x => x.2 = true →
                   parsed_records w ≠ [] ∧ ∃ u, w_write_xml w = Ok u).
Proof.
  unfold steps_1_to_4, mbind, M_bind.
  eapply yields_bind; [apply yields_any|]. intros cfg _.
  eapply yields_bind; [apply yields_copy_input|]. intros dest_set ->.
  eapply yields_bind; [apply yields_any|]. intros _ _.
  eapply yields_bind; [apply yields_parse_input|]. intros records ->.
  eapply yields_bind; [apply yields_generate_xml_flag|].
  intros xml_generated Hflag.
  eapply yields_bind; [apply yields_any|]. intros _ _.
  by apply yields_ret.
Qed.

Section General.
Variables (G : effect -> Prop) (S : str -> Prop).
Hypothesis Hplain : ∀ e, plain e = true → G e.

Lemma does_steps_1_to_4_gen :
  S ISSUE → does G S (generate_xml w (parsed_records w)) →
  does G S (steps_1_to_4 w).
Proof.
  intros HS Hxml. unfold steps_1_to_4, mbind, M_bind.
  apply does_bind; [by apply does_setup|]. intros cfg.
  eapply does_bind_yields;
    [by apply does_copy_input | apply yields_copy_input |].
  intros dest_set ->.
  apply does_bind; [by apply does_purge|]. intros _.
  eapply does_bind_yields;
    [by apply does_parse_input | apply yields_parse_input |].
  intros records ->.
  apply does_bind; [exact Hxml|]. intros xml_generated.
  apply does_bind; [by apply does_write_runfile|]. intros _.
  apply does_ret.
Qed.

Lemma does_main_gen :
  S ISSUE → does G S (generate_xml w (parsed_records w)) →
  (∀ cfg xml_generated,
     (xml_generated = true →
      parsed_records w ≠ [] ∧ ∃ u, w_write_xml w = Ok u) →
     does G S (run_loader w cfg xml_generated)) →
  (∀ cfg, does G S (names ← lift (index_active_list (w_active_list w));
                    steps_7_to_9 w cfg (parsed_records w) names)) →
  does G S (try_except (main_body w) (fatal w)).
Proof.
  intros HS Hxml Hloader Hrest.
  apply does_try; [|intros e; by apply does_fatal].
  unfold main_body, mbind, M_bind.
  eapply (does_bind_yields _ _
            (fun x => x.1.2 = parsed_records w ∧
                      (x.2 = true →
                       parsed_records w ≠ [] ∧ ∃ u, w_write_xml w = Ok u))).
  - by apply does_steps_1_to_4_gen.
  - intros s x s' E. split;
      [by eapply yields_steps_1_to_4 | by eapply yields_steps_flag].
  - intros [[cfg records] xml_generated]. cbn [fst snd]. intros [-> Hflag].
    unfold steps_5_to_9.
    apply does_bind; [by apply Hloader|]. intros _. apply Hrest.
Qed.

End General.

Lemma skipped_is_issue :
  (if startswith (lit "SUCCESS") (classify w false) then SUCCESS else ISSUE)
  = ISSUE.
Proof. reflexivity. Qed.

Lemma does_run_loader_skipped (G : effect -> Prop) (cfg : config) :
  allows_log G → does G (fun v => v = ISSUE) (run_loader w cfg false).
Proof.
  intros Hlog s. rewrite run_loader_run. cbv zeta. cbn [snd].
  rewrite skipped_is_issue. repeat split; cbn [effects lines subject_status].
  - eexists. split; [by rewrite <- app_assoc|].
    unfold loader_effects, log_effects. cbn [andb app effects log_path].
    destruct (log_path s), (w_log_append w); repeat constructor. apply Hlog.
  - by eexists.
  - by right.
Qed.


Lemma filter_no_loader (l : list effect) :
  Forall (fun e => is_run_loader e = false) l →
  List.filter is_run_loader l = [].
Proof.
  induction 1 as [|e l He Hl IH]; [done|]. simpl. by rewrite He.
Qed.

(** X18: a run starts the loader at most once, and only with the setup
    done, the executable present and a document written from at least one
    record; the one call has the command line of the run, the window
    flags of the platform and the timeout of 180 seconds. *)
Theorem loader_runs_at_most_once :
  List.filter is_run_loader (effects (main w)) = [] ∨
  ∃ cfg, w_setup w = Ok cfg ∧ w_exe_exists w = true ∧
         parsed_records w ≠ [] ∧ (∃ u, w_write_xml w = Ok u) ∧
         List.filter is_run_loader (effects (main w))
         = [RunLoader (loader_cmd w cfg) (loader_flags w cfg) 180
              (loader_outcome w)].
Proof.
  destruct (steps_1_to_4 w initial_state)
    as [[[[cfg records] xml_generated]|e] s4] eqn:E4.
  - pose proof (early_steps w initial_state) as Hg4. rewrite E4 in Hg4.
    cbn [snd] in Hg4. destruct Hg4 as ((a4 & Ha4 & Hall4) & _ & _).
    destruct (main_from_loader w _ _ _ _ E4) as ((a9 & Ha9 & Hall9) & _ & _).
    rewrite run_loader_run in Ha9. cbn [snd effects] in Ha9.
    rewrite Ha4 in Ha9. cbn [initial_state effects app] in Ha9.
    rewrite Ha9, !List.filter_app.
    rewrite (filter_no_loader a4 Hall4), (filter_no_loader a9 Hall9).
    rewrite (filter_no_loader _ (log_effects_plain w _ _)).
    cbn [app]. rewrite app_nil_r. unfold loader_effects.
    destruct xml_generated; [|by left].
    destruct (w_exe_exists w) eqn:Hexe; [|by left].
    right. exists cfg.
    pose proof (yields_setup_cfg w _ _ _ E4) as Hcfg.
    destruct (yields_steps_flag _ _ _ E4 eq_refl) as [Hne Hw].
    by repeat split.
  - left. destruct (main_early_failure w _ _ E4) as ((a & Ha & Hall) & _).
    rewrite Ha. cbn [initial_state effects app]. by apply filter_no_loader.
Qed.


End RunCases.

Example sample_run_starts_loader_once :
  parsed_records (sample_world true Absent) ≠ [] ∧
  List.filter is_run_loader (effects (main (sample_world true Absent)))
  = [RunLoader (loader_cmd (sample_world true Absent) sample_config)
       CREATE_NO_WINDOW 180 (Ok 0%Z)].
Proof. split; [by vm_compute | by vm_compute]. Qed.



(** ** Runs that reach their end *)

Section CompleteRun.
Context `{PyRuntime}.
Variable w : world.

Lemma succeeds_send_email_html (sender : str) (to : list str)
  (subject html_body : str) :
  succeeds (send_email_html w sender to subject html_body).
Proof. unfold send_email_html. succeeds_tac. Qed.

Lemma succeeds_report (cfg : config) (records : list (gmap str str))
  (names : gmap str str * gmap str str) (fa_log_html : str) (u : unit) :
  w_ensure_emails_dir w = Ok u →
  succeeds (report w cfg records names fa_log_html).
Proof.
  intros Hdir. unfold report. rewrite Hdir. cbv zeta.
  unfold mbind, M_bind, mret, M_ret.
  apply succeeds_bind; [apply succeeds_lift|]. intros _.
  apply succeeds_bind; [succeeds_tac|]. intros _.
  apply succeeds_bind; [apply succeeds_get_status|]. intros status.
  apply succeeds_bind; [apply succeeds_send_email_html|].
  intros [sent err]. apply succeeds_add.
Qed.

Lemma succeeds_append_full_loader_log (txt_path : option file) :
  succeeds (append_full_loader_log w txt_path).
Proof. unfold append_full_loader_log. succeeds_tac. Qed.

Lemma succeeds_retention_and_append (cfg : config) (fa_txt : option file) :
  (retain_days cfg * 86400 < 2 ^ 1024 - 2 ^ 970)%Z →
  succeeds (retention_and_append w cfg fa_txt).
Proof.
  intros Hfits. unfold retention_and_append, mbind, M_bind, mret, M_ret.
  apply succeeds_bind; [by apply succeeds_purge|]. intros _.
  destruct fa_txt as [p|]; [|apply succeeds_ret].
  destruct (f_read p); [|apply succeeds_ret].
  apply succeeds_append_full_loader_log.
Qed.

(** Step 7 returns when there is no log folder, or when a log newer than
    the start of the loader is there and reading it does not raise. *)
Lemma succeeds_loader_log :
  w_fa_txt_folder w = Absent ∨
  (∃ p, find_latest_txt_after (w_fa_txt_folder w) (w_start_epoch w) = Some p ∧
        ∀ e, f_read p ≠ Some (Err e)) →
  ∃ fa_txt fa_log_html,
    (∀ s, locate_loader_log w s = (Ok fa_txt, s)) ∧
    (∀ s, read_loader_log w fa_txt s = (Ok fa_log_html, s)).
Proof.
  intros [Habs | (p & Hp & Hread)].
  - exists None, (no_log_found w). split; [|done]. intros s.
    unfold locate_loader_log, find_latest_txt_after. by rewrite Habs.
  - destruct (f_read p) as [[content|e]|] eqn:Er.
    + exists (Some p), (html_escape content). split; intros s.
      * unfold locate_loader_log. by rewrite Hp.
      * unfold read_loader_log. by rewrite Er.
    + by destruct (Hread e).
    + exists (Some p), (no_log_found w). split; intros s.
      * unfold locate_loader_log. by rewrite Hp.
      * unfold read_loader_log. by rewrite Er.
Qed.

(** The last line [report] adds tells whether the email was sent. *)
Lemma report_last_line (cfg : config) (records : list (gmap str str))
  (names : gmap str str * gmap str str) (fa_log_html : str) (s s' : state) :
  report w cfg records names fa_log_html s = (Ok tt, s') →
  ∃ front l, lines s' = front ++ [l] ∧
             (l = lit "Email sent" ∨
              ∃ err, l = lit "Email send failed: " ++ err).
Proof.
  unfold report. cbv zeta. unfold mbind, M_bind. unfold bind at 1.
  destruct (lift (w_ensure_emails_dir w) s) as [[[]|e] s1]; [|done].
  unfold bind at 1.
  destruct (try_except _ _ s1) as [[[]|e] s2]; [|done].
  unfold bind at 1. cbn [get_status].
  unfold bind at 1.
  destruct (send_email_html _ _ _ _ _ s2) as [[[sent err]|e] s3]; [|done].
  rewrite add_run. intros E. injection E as <-. cbn [lines].
  exists (lines s3). eexists. split; [done|].
  destruct sent; [by left | right; by eexists].
Qed.


End CompleteRun.


(** ** The email of a run *)

Section EmailFacts.
Context `{PyRuntime}.
Variable w : world.

(** A run ends in one of two ways: steps 1 to 4 raise and the handler
    runs, or step 5 is done and steps 6 to 9 run under the handler. *)
Lemma main_cases :
  (∃ e s4, steps_1_to_4 w initial_state = (Err e, s4) ∧
           main w = (fatal w e s4).2) ∨
  (∃ cfg xml_generated s4 s5,
     w_setup w = Ok cfg ∧
     steps_1_to_4 w initial_state
     = (Ok (cfg, parsed_records w, xml_generated), s4) ∧
     run_loader w cfg xml_generated s4 = (Ok tt, s5) ∧
     main w = (try_except
                 (names ← lift (index_active_list (w_active_list w));
                  steps_7_to_9 w cfg (parsed_records w) names)
                 (fatal w) s5).2).
Proof.
  destruct (steps_1_to_4 w initial_state)
    as [[[[cfg records] xml_generated]|e] s4] eqn:E4.
  - right.
    pose proof (yields_setup_cfg w _ _ _ E4) as Hcfg.
    pose proof (yields_steps_1_to_4 w _ _ _ E4) as Hrec.
    cbn [fst snd] in Hcfg, Hrec. subst records.
    pose proof (run_loader_run w cfg xml_generated s4) as E5. cbv zeta in E5.
    destruct (run_loader w cfg xml_generated s4) as [r s5] eqn:Erun.
    injection E5 as -> _.
    exists cfg, xml_generated, s4, s5.
    split; [done|]. split; [done|]. split; [done|].
    unfold main, try_except, main_body, steps_5_to_9, mbind, M_bind.
    unfold bind at 1. rewrite E4. unfold bind at 1. by rewrite Erun.
  - left. exists e, s4. split; [done|].
    unfold main, try_except, main_body, mbind, M_bind, bind. by rewrite E4.
Qed.

Section AtStatus.
Variables (G : effect -> Prop) (st : str).
Hypothesis Hplain : ∀ e, plain e = true → G e.

(** Sequencing, for a first part that leaves the status alone. *)
Lemma grows_bind_at {A B} (m : M A) (f : A -> M B) (s : state) :
  subject_status s = st →
  does G (fun _ => False) m →
  (∀ a s1, subject_status s1 = st →
           grows G (fun _ => False) s1 (f a s1).2) →
  grows G (fun _ => False) s (bind m f s).2.
Proof.
  intros Hst Hm Hf. unfold bind. pose proof (Hm s) as Hg.
  destruct (m s) as [[a|e] s1]; cbn [snd] in Hg; [|exact Hg].
  eapply grows_trans; [exact Hg|]. apply Hf.
  destruct Hg as (_ & _ & [Hs|[]]). congruence.
Qed.

Lemma does_send_email_html (sender : str) (to : list str)
  (subject html_body : str) :
  (to ≠ [] → w_smtp w = Ok tt → G (SendEmail sender to subject html_body)) →
  does G (fun _ => False) (send_email_html w sender to subject html_body).
Proof.
  intros HG. unfold send_email_html.
  destruct to as [|a to]; cbn [is_empty]; [does_tac|].
  destruct (w_smtp w) as [[]|e]; [does_tac|].
  intros s. apply grows_refl.
Qed.

Lemma report_at_status (cfg : config) (names : gmap str str * gmap str str)
  (fa_log_html : str) (s : state) :
  (∀ e, mail_matches w cfg st e → G e) →
  subject_status s = st →
  grows G (fun _ => False) s
        (report w cfg (parsed_records w) names fa_log_html s).2.
Proof.
  intros HG Hst. pose proof (log_allowed G Hplain) as Hlog.
  unfold report. cbv zeta. unfold mbind, M_bind.
  apply grows_bind_at; [done | apply does_lift|]. intros _ s1 Hs1.
  apply grows_bind_at; [done| |].
  { apply does_try.
    - apply does_bind; [apply does_lift|]. intros _.
      apply does_bind; [|intros _; by apply does_add].
      apply does_emit. by apply (HG (WriteEmail _ _)).
    - intros e. by apply does_add. }
  intros _ s2 Hs2. unfold bind at 1. cbn [get_status]. rewrite Hs2.
  apply does_bind.
  - apply does_send_email_html. intros Hto Hsmtp.
    apply (HG (SendEmail _ _ _ _)). by repeat split.
  - intros [sent err]. by apply does_add.
Qed.

Lemma late_steps_at_status (cfg : config) (s : state) :
  (∀ e, mail_matches w cfg st e → G e) →
  subject_status s = st →
  grows G (fun _ => False) s
        (try_except
           (names ← lift (index_active_list (w_active_list w));
            steps_7_to_9 w cfg (parsed_records w) names)
           (fatal w) s).2.
Proof.
  intros HG Hst.
  assert (grows G (fun _ => False) s
            ((names ← lift (index_active_list (w_active_list w));
              steps_7_to_9 w cfg (parsed_records w) names) s).2) as Hbody.
  { unfold mbind, M_bind.
    apply grows_bind_at; [done | apply does_lift|]. intros names s1 Hs1.
    unfold steps_7_to_9, mbind, M_bind.
    apply grows_bind_at; [done | by apply does_locate_loader_log|].
    intros fa_txt s2 Hs2.
    apply grows_bind_at; [done | by apply does_read_loader_log|].
    intros fa_log_html s3 Hs3. unfold bind.
    pose proof (report_at_status cfg names fa_log_html s3 HG Hs3) as Hg.
    destruct (report _ _ _ _ _ s3) as [[[]|e] s4]; cbn [snd] in Hg;
      [|exact Hg].
    eapply grows_trans; [exact Hg|].
    by apply does_retention_and_append. }
  unfold try_except.
  destruct ((names ← lift _; _) s) as [[[]|e] s9]; cbn [snd] in Hbody;
    [exact Hbody|].
  eapply grows_trans; [exact Hbody|]. by apply does_fatal.
Qed.

End AtStatus.


End EmailFacts.

Example sample_run_sends_one_email :
  List.filter is_send_email (effects (main (sample_world true Absent)))
  = [SendEmail (lit "no-reply@example.org") [lit "fleet@example.org"]
       (email_subject (sample_world true Absent) SUCCESS
          (parsed_records (sample_world true Absent)))
       (email_html (sample_world true Absent)
          (concat
             (List.map
                (row_line
                   (index_rows
                      [[lit "10"; lit "Sales"; lit "Jane"; lit "007"]]).1
                   (index_rows
                      [[lit "10"; lit "Sales"; lit "Jane"; lit "007"]]).2)
                (parsed_records (sample_world true Absent))))
          (no_log_found (sample_world true Absent)))].
Proof. by vm_compute. Qed.

(** ** The run log and the narrative *)

Section MirrorRules.
Variable w : world.
Variable u : unit.
Hypothesis Hlog : w_log_append w = Ok u.

Lemma run_log_text_app (l1 l2 : list effect) :
  run_log_text (l1 ++ l2) = run_log_text l1 ++ run_log_text l2.
Proof. unfold run_log_text. apply flat_map_app. Qed.

Lemma keeps_ret {A} (a : A) : keeps (mirrored w) (ret a).
Proof. by intros s. Qed.

Lemma keeps_lift {A} (r : result A) : keeps (mirrored w) (lift r).
Proof. by intros s. Qed.

Lemma keeps_get_status : keeps (mirrored w) get_status.
Proof. by intros s. Qed.

Lemma keeps_set_status (v : str) : keeps (mirrored w) (set_status v).
Proof. by intros s. Qed.

Lemma keeps_emit (e : effect) :
  run_log_text [e] = [] → keeps (mirrored w) (emit e).
Proof.
  intros He s [Hpath Htext]. split; [done|].
  cbn [emit snd effects]. change (narrative_text _) with (narrative_text s).
  by rewrite run_log_text_app, He, app_nil_r.
Qed.

Lemma keeps_add (msg : str) : keeps (mirrored w) (add w msg).
Proof.
  intros s [[p Hpath] Htext]. unfold add. rewrite Hpath, Hlog.
  split; [by eexists|].
  cbn [emit snd effects]. unfold narrative_text. cbn [lines].
  rewrite run_log_text_app, Htext, List.map_app, concat_app.
  unfold narrative_text. cbn [List.map concat run_log_text flat_map].
  by rewrite !app_nil_r, <- app_assoc.
Qed.

Lemma keeps_bind {A B} (I : state -> Prop) (m : M A) (f : A -> M B) :
  keeps I m → (∀ a, keeps I (f a)) → keeps I (bind m f).
Proof.
  intros Hm Hf s Hs. unfold bind. pose proof (Hm s Hs) as H1.
  destruct (m s) as [[a|e] s1]; [|exact H1]. by apply Hf.
Qed.

Lemma keeps_try {A} (I : state -> Prop) (m : M A) (h : exn -> M A) :
  keeps I m → (∀ e, keeps I (h e)) → keeps I (try_except m h).
Proof.
  intros Hm Hh s Hs. unfold try_except. pose proof (Hm s Hs) as H1.
  destruct (m s) as [[a|e] s1]; [exact H1|]. by apply Hh.
Qed.

Lemma leads_bind {A B} (I J : state -> Prop) (m : M A) (f : A -> M B) :
  (∀ s, I s → J s) → keeps I m → (∀ a, leads I J (f a)) →
  leads I J (bind m f).
Proof.
  intros HIJ Hm Hf s Hs. unfold bind. pose proof (Hm s Hs) as H1.
  destruct (m s) as [[a|e] s1]; [by apply Hf | by apply HIJ].
Qed.

Lemma leads_try {A} (I J : state -> Prop) (m : M A) (h : exn -> M A) :
  leads I J m → (∀ e, keeps J (h e)) → leads I J (try_except m h).
Proof.
  intros Hm Hh s Hs. unfold try_except. pose proof (Hm s Hs) as H1.
  destruct (m s) as [[a|e] s1]; [exact H1|]. by apply Hh.
Qed.

Lemma mirrored_is_tailed (s : state) :
  mirrored w s → mirrored_with_loader_log w s.
Proof.
  intros [_ Htext]. exists []. split; [by rewrite app_nil_r | by left].
Qed.

End MirrorRules.

Ltac keeps_step :=
  lazymatch goal with
  | |- keeps _ (bind _ _) => apply keeps_bind; [|intros ?]
  | |- keeps _ (try_except _ _) => apply keeps_try; [|intros ?]
  | |- keeps _ (ret _) => apply keeps_ret
  | |- keeps _ (lift _) => apply keeps_lift
  | |- keeps _ get_status => apply keeps_get_status
  | |- keeps _ (emit _) => apply keeps_emit; reflexivity
  | |- keeps _ (set_status _) => apply keeps_set_status
  | |- keeps _ (add _ _) => eapply keeps_add; eassumption
  | |- keeps _ (if ?b then _ else _) => destruct b
  | |- keeps _ (match ?x with _ => _ end) => destruct x
  | |- keeps _ (let _ := _ in _) => cbv zeta
  end.

Ltac keeps_tac :=
  unfold mbind, M_bind, mret, M_ret; repeat keeps_step.

Section MirrorFacts.
Context `{PyRuntime}.
Variable w : world.
Variable u : unit.
Hypothesis Hlog : w_log_append w = Ok u.

Lemma keeps_copy_input : keeps (mirrored w) (copy_input w).
Proof. unfold copy_input. keeps_tac. Qed.

Lemma keeps_emit_unlinks (deleted : list file) :
  keeps (mirrored w)
        (fold_right (fun f k => emit (Unlink (f_name f));; k)
           (mret tt) deleted).
Proof.
  induction deleted as [|f deleted IH]; cbn [fold_right].
  - apply keeps_ret.
  - apply keeps_bind; [by apply keeps_emit | by intros _].
Qed.

Lemma keeps_purge (now : Q) (dir : folder) (pattern what : str) (days : Z) :
  keeps (mirrored w) (purge w now dir pattern what days).
Proof.
  unfold purge. apply keeps_bind; [apply keeps_lift|]. intros r.
  apply keeps_bind; [apply keeps_emit_unlinks|].
  intros _. keeps_tac.
Qed.

Lemma keeps_parse_input (dest_set : bool) :
  keeps (mirrored w) (parse_input w dest_set).
Proof. unfold parse_input. keeps_tac. Qed.

Lemma keeps_generate_xml (records : list (gmap str str)) :
  keeps (mirrored w) (generate_xml w records).
Proof. unfold generate_xml. keeps_tac. Qed.

Lemma keeps_write_runfile (cfg : config) :
  keeps (mirrored w) (write_runfile w cfg).
Proof. unfold write_runfile. keeps_tac. Qed.

Lemma keeps_after_setup (cfg : config) :
  keeps (mirrored w)
    (dest_set ← copy_input w;
     purge w (w_now_inputs w) (w_input_dir w)
       (lit "UnmatchedDepartment_*.csv") (lit "input files")
       (retain_days cfg);;
     records ← parse_input w dest_set;
     xml_generated ← generate_xml w records;
     write_runfile w cfg;;
     mret (cfg, records, xml_generated)).
Proof.
  unfold mbind, M_bind.
  apply keeps_bind; [apply keeps_copy_input|]. intros dest_set.
  apply keeps_bind; [apply keeps_purge|]. intros _.
  apply keeps_bind; [apply keeps_parse_input|]. intros records.
  apply keeps_bind; [apply keeps_generate_xml|]. intros xml_generated.
  apply keeps_bind; [apply keeps_write_runfile|]. intros _.
  apply keeps_ret.
Qed.

Lemma keeps_run_loader (cfg : config) (xml_generated : bool) :
  keeps (mirrored w) (run_loader w cfg xml_generated).
Proof.
  unfold run_loader, loader_result, subprocess_run.
  unfold mbind, M_bind, mret, M_ret.
  apply keeps_bind; [keeps_tac|]. intros fa_result.
  apply keeps_bind; [apply keeps_set_status|]. intros _.
  by eapply keeps_add.
Qed.

(** [append_full_loader_log] writes after the narrative, once. *)
Lemma leads_append_full_loader_log (txt_path : option file) :
  leads (mirrored w) (mirrored_with_loader_log w)
        (append_full_loader_log w txt_path).
Proof.
  intros s Hs. pose proof (mirrored_is_tailed w s Hs) as Ht.
  unfold append_full_loader_log.
  destruct txt_path as [p|]; [|exact Ht].
  destruct (f_read p) as [[content|e]|]; [|exact Ht|exact Ht].
  unfold try_except, bind, lift, emit, mret, M_ret, ret.
  destruct (w_append_loader_log w) as [[]|e] eqn:Ea; [|exact Ht].
  cbn -[lit loader_log_banner]. destruct Hs as [_ Htext].
  exists (loader_log_banner ++ content ++ nl).
  split; [|right; split; by eexists].
  change (narrative_text _) with (narrative_text s). cbn [effects].
  rewrite run_log_text_app, Htext. cbn [run_log_text flat_map].
  by rewrite app_nil_r, <- app_assoc.
Qed.

Lemma leads_steps_7_to_9 (cfg : config) (records : list (gmap str str))
  (names : gmap str str * gmap str str) :
  leads (mirrored w) (mirrored_with_loader_log w)
        (steps_7_to_9 w cfg records names).
Proof.
  pose proof (mirrored_is_tailed w) as Hweak.
  unfold steps_7_to_9, mbind, M_bind.
  apply leads_bind; [done | unfold locate_loader_log; keeps_tac|].
  intros fa_txt.
  apply leads_bind; [done | unfold read_loader_log; keeps_tac|].
  intros fa_log_html.
  apply leads_bind; [done | unfold report, send_email_html; keeps_tac|].
  intros _. unfold retention_and_append, mbind, M_bind.
  apply leads_bind; [done | apply keeps_purge|]. intros _.
  destruct fa_txt as [p|]; [|by intros s Hs; apply Hweak].
  destruct (f_read p) eqn:Er; [|by intros s Hs; apply Hweak].
  apply leads_append_full_loader_log.
Qed.

Lemma keeps_fatal (I : state -> Prop) (e : exn) :
  (∀ s name line,
     I s → I {| lines := lines s; subject_status := subject_status s;
                log_path := log_path s;
                effects := effects s ++ [FatalLog name line] |}) →
  keeps I (fatal w e).
Proof.
  intros HI s Hs. unfold fatal, try_except, bind, lift, emit, mret, M_ret,
    ret.
  destruct (w_fatal_log w) as [[]|e']; cbn -[lit]; [by apply HI | done].
Qed.

Lemma fatal_line_mirrored (s : state) (name line : str) :
  mirrored w s →
  mirrored w {| lines := lines s; subject_status := subject_status s;
                log_path := log_path s;
                effects := effects s ++ [FatalLog name line] |}.
Proof.
  intros [Hpath Htext]. split; [done|]. cbn [effects].
  change (narrative_text _) with (narrative_text s).
  rewrite run_log_text_app. cbn [run_log_text flat_map].
  by rewrite !app_nil_r.
Qed.

Lemma fatal_line_tailed (s : state) (name line : str) :
  mirrored_with_loader_log w s →
  mirrored_with_loader_log w
    {| lines := lines s; subject_status := subject_status s;
       log_path := log_path s;
       effects := effects s ++ [FatalLog name line] |}.
Proof.
  intros (tail & Htext & Htail). exists tail. split; [|done]. cbn [effects].
  change (narrative_text _) with (narrative_text s).
  rewrite run_log_text_app. cbn [run_log_text flat_map].
  by rewrite !app_nil_r.
Qed.


End MirrorFacts.


Example sample_run_log_text :
  let w := sample_world true
             (Present [sample_file "load.txt" 1709272805]) in
  run_log_text (effects (main w))
  = log_header w ++ narrative_text (main w) ++
    loader_log_banner ++ lit "Load complete" ++ nl.
Proof. by vm_compute. Qed.

(** ** The numbers of the document *)

Section DocumentNumbers.
Context `{PyRuntime}.

Lemma plain_digit_cases (c : char) :
  is_plain_digit c = true →
  c = 48 ∨ c = 49 ∨ c = 50 ∨ c = 51 ∨ c = 52 ∨ c = 53 ∨ c = 54 ∨ c = 55 ∨
  c = 56 ∨ c = 57.
Proof.
  unfold is_plain_digit. intros Hc.
  apply andb_true_iff in Hc as [H1 H2].
  apply N.leb_le in H1, H2. lia.
Qed.

Ltac digit_cases c Hc :=
  destruct (plain_digit_cases c Hc)
    as [->|[->|[->|[->|[->|[->|[->|[->|[->| ->]]]]]]]]].

Lemma lit_digits_uint (s : str) :
  forallb is_plain_digit s = true →
  lit (NilEmpty.string_of_uint (digits_uint s)) = s.
Proof.
  induction s as [|c s IH]; [done|]. cbn [forallb].
  intros Hs. apply andb_true_iff in Hs as [Hc Hs].
  specialize (IH Hs). unfold lit in IH |- *. cbn [digits_uint fold_right].
  fold (digits_uint s).
  digit_cases c Hc; cbn; by rewrite IH.
Qed.

Lemma string_of_digits_uint (c : char) (s : str) :
  is_plain_digit c = true →
  NilZero.string_of_uint (digits_uint (c :: s))
  = NilEmpty.string_of_uint (digits_uint (c :: s)).
Proof.
  intros Hc. cbn [digits_uint fold_right]. by digit_cases c Hc.
Qed.

Lemma of_uint_acc_digits (s : str) (acc : positive) :
  forallb is_plain_digit s = true →
  Z.pos (Pos.of_uint_acc (digits_uint s) acc)
  = fold_left (fun acc c => (acc * 10 + Z.of_N (c - 48))%Z) s (Z.pos acc).
Proof.
  revert acc. induction s as [|c s IH]; intros acc; [done|]. cbn [forallb].
  intros Hs. apply andb_true_iff in Hs as [Hc Hs].
  cbn [digits_uint fold_right fold_left]. fold (digits_uint s).
  digit_cases c Hc; cbn [digit_uint N.eqb Pos.eqb Pos.of_uint_acc];
    rewrite (IH _ Hs); f_equal; lia.
Qed.

Lemma of_uint_digits (s : str) :
  forallb is_plain_digit s = true →
  Z.of_N (Pos.of_uint (digits_uint s)) = digits_value s.
Proof.
  unfold digits_value. induction s as [|c s IH]; [done|]. cbn [forallb].
  intros Hs. apply andb_true_iff in Hs as [Hc Hs].
  cbn [digits_uint fold_right fold_left]. fold (digits_uint s).
  digit_cases c Hc; cbn [digit_uint N.eqb Pos.eqb Pos.of_uint];
    [by apply IH|..]; cbn [Z.of_N]; by rewrite (of_uint_acc_digits _ _ Hs).
Qed.

Lemma unorm_digits (s : str) :
  forallb is_plain_digit s = true →
  s = lit "0" ∨ (∃ c r, s = c :: r ∧ c ≠ 48) →
  Decimal.unorm (digits_uint s) = digits_uint s.
Proof.
  intros Hs [->|(c & r & -> & Hc)]; [reflexivity|].
  cbn [forallb] in Hs. apply andb_true_iff in Hs as [Hd _].
  cbn [digits_uint fold_right].
  digit_cases c Hd; done.
Qed.

(** [str(int(s))] is [s] for ASCII digits without a leading zero, and
    for ["0"]. *)
Lemma str_of_digits_value (s : str) :
  forallb is_plain_digit s = true →
  s = lit "0" ∨ (∃ c r, s = c :: r ∧ c ≠ 48) →
  str_of_int (digits_value s) = s.
Proof.
  intros Hs Hcanon. unfold str_of_int.
  rewrite <- (of_uint_digits s Hs).
  change (Z.of_N (Pos.of_uint (digits_uint s)))
    with (Z.of_int (Decimal.Pos (digits_uint s))).
  rewrite DecimalZ.to_of. cbn [Decimal.norm].
  rewrite (unorm_digits s Hs Hcanon). cbn [NilZero.string_of_int].
  assert (∃ c r, s = c :: r) as (c & r & ->).
  { destruct Hcanon as [->|(c & r & -> & _)]; by eexists _, _. }
  rewrite string_of_digits_uint.
  - by apply lit_digits_uint.
  - cbn [forallb] in Hs. by apply andb_true_iff in Hs as [Hd _].
Qed.

(** X23: when the digits of a cell are ASCII digits, at least one and at
    most 4300, the number the document shows for the cell, which is
    [str(int(v))] of the normalized value [v], is [v] itself, character by
    character. *)
Theorem document_shows_normalized_value (s : str) :
  List.filter isdigit s ≠ [] →
  (∀ c, c ∈ s → isdigit c = true → is_plain_digit c = true) →
  (length (List.filter isdigit s) ≤ 4300)%nat →
  ∃ v, py_int (norm_num s) = Ok v ∧ str_of_int v = norm_num s.
Proof.
  intros Hd Hplain Hlen. unfold norm_num, lstrip_zeros.
  destruct (List.filter isdigit s) as [|c t] eqn:E; [done|].
  assert (∀ x, x ∈ c :: t → is_plain_digit x = true) as Hall.
  { intros x Hx. rewrite <- E in Hx.
    apply list_elem_of_In, filter_In in Hx as [Hin Hdig].
    apply Hplain; [by apply list_elem_of_In | done]. }
  pose proof (dropwhile_length (N.eqb 48) (c :: t)) as Hshort.
  destruct (dropwhile (N.eqb 48) (c :: t)) as [|d r] eqn:Ez.
  { exists 0%Z. split; reflexivity. }
  cbn [str_or].
  assert (forallb is_plain_digit (d :: r) = true) as Hdigits.
  { apply forallb_forall. intros x Hx. apply Hall.
    apply dropwhile_incl with (N.eqb 48). rewrite Ez.
    by apply list_elem_of_In. }
  exists (digits_value (d :: r)). split.
  - unfold py_int, plain_digits. rewrite Hdigits.
    cbn [is_empty negb andb].
    assert ((length (d :: r) <=? 4300)%nat = true) as ->; [|done].
    apply Nat.leb_le. lia.
  - apply str_of_digits_value; [done|]. right. exists d, r.
    split; [done|]. apply dropwhile_head in Ez.
    by apply N.eqb_neq in Ez.
Qed.

End DocumentNumbers.

Lemma document_shows_normalized_value_witness :
  List.filter isdigit (lit " #0042") ≠ [] ∧
  norm_num (lit " #0042") = lit "42" ∧
  ∃ v, py_int (lit "42") = Ok v ∧ str_of_int v = lit "42".
Proof.
  assert (List.filter isdigit (lit " #0042") ≠ []) as Hd
    by (vm_compute; discriminate).
  split; [exact Hd|]. split; [reflexivity|].
  apply (document_shows_normalized_value (lit " #0042") Hd).
  - intros c Hc Hdig. vm_compute in Hc.
    repeat (apply elem_of_cons in Hc as [->|Hc];
            [reflexivity || discriminate Hdig|]).
    by apply elem_of_nil in Hc.
  - vm_compute. lia.
Defined.

(** ** What a run deletes *)

Section DeletionRules.
Context `{PyRuntime}.
Variables (w : world) (G : effect -> Prop) (S : str -> Prop).
Hypothesis Hmost : ∀ e, is_unlink e = false → G e.
Hypothesis HS : ∀ v, S v.

Lemma log_allowed_most : allows_log G.
Proof. intros l. by apply Hmost. Qed.
Hint Resolve log_allowed_most : core.

Lemma removed_files (now : Q) (dir : folder) (pattern : str) (days : Z)
  (r : Z * list file) (f : file) :
  remove_old_files now dir pattern days = Ok r → f ∈ r.2 →
  ∃ files, dir = Present files ∧ (0 < days)%Z ∧ f ∈ files ∧
           doomed (now - inject_Z (days * 86400))%Q pattern f = true.
Proof.
  unfold remove_old_files. destruct dir as [|files].
  { intros [= <-] Hf. by apply elem_of_nil in Hf. }
  destruct (days <=? 0)%Z eqn:Hdays.
  { intros [= <-] Hf. by apply elem_of_nil in Hf. }
  destruct (float_overflows (days * 86400)); [done|].
  rewrite purge_fold. intros [= <-]. cbn [snd app]. intros Hf.
  apply list_elem_of_In, filter_In in Hf as [Hin Hdoomed].
  exists files. split; [done|]. split; [by apply Z.leb_gt in Hdays|].
  split; [by apply list_elem_of_In | done].
Qed.

Lemma unlinks_allowed (deleted : list file) :
  (∀ f, f ∈ deleted → G (Unlink (f_name f))) →
  does G S (fold_right (fun f k => emit (Unlink (f_name f));; k)
              (mret tt) deleted).
Proof.
  induction deleted as [|f deleted IH]; intros HG; cbn [fold_right].
  - apply does_ret.
  - apply does_bind.
    + apply does_emit. apply HG. by left.
    + intros _. apply IH. intros g Hg. apply HG. by right.
Qed.

Lemma purge_allowed (now : Q) (dir : folder) (pattern what : str)
  (days : Z) :
  (∀ r f, remove_old_files now dir pattern days = Ok r → f ∈ r.2 →
          G (Unlink (f_name f))) →
  does G S (purge w now dir pattern what days).
Proof.
  intros HG. unfold purge.
  destruct (remove_old_files now dir pattern days) as [r|e] eqn:Er.
  - apply (does_bind_yields _ _ (fun r' => r' = r)); [apply does_lift| |].
    + intros s r' s' [= <- _]. done.
    + intros r' ->.
      apply does_bind;
        [apply unlinks_allowed; intros f Hf; by apply (HG r f)|].
      intros _. does_tac.
  - intros s. apply grows_refl.
Qed.

Lemma keeps_files_setup : does G S (setup w).
Proof. unfold setup. does_tac. Qed.

Lemma keeps_files_copy_input : does G S (copy_input w).
Proof. unfold copy_input. does_tac. Qed.

Lemma keeps_files_parse_input (dest_set : bool) :
  does G S (parse_input w dest_set).
Proof. unfold parse_input. does_tac. Qed.

Lemma keeps_files_generate_xml (records : list (gmap str str)) :
  does G S (generate_xml w records).
Proof. unfold generate_xml. does_tac. Qed.

Lemma keeps_files_write_runfile (cfg : config) :
  does G S (write_runfile w cfg).
Proof. unfold write_runfile. does_tac. Qed.

Lemma keeps_files_run_loader (cfg : config) (xml_generated : bool) :
  does G S (run_loader w cfg xml_generated).
Proof.
  unfold run_loader, loader_result, subprocess_run.
  unfold mbind, M_bind, mret, M_ret.
  apply does_bind; [does_tac|]. intros fa_result.
  apply does_bind; [by apply does_set_status|]. intros _.
  by apply does_add.
Qed.

Lemma keeps_files_fatal (e : exn) : does G S (fatal w e).
Proof. unfold fatal. does_tac. Qed.

Hypothesis Hexpired :
  ∀ cfg name, w_setup w = Ok cfg → deletes_expired w cfg name →
              G (Unlink name).

Lemma deletes_in_steps_1_to_4 : does G S (steps_1_to_4 w).
Proof.
  unfold steps_1_to_4, mbind, M_bind.
  eapply does_bind_yields; [apply keeps_files_setup | apply yields_setup |].
  intros cfg Hcfg.
  apply does_bind; [apply keeps_files_copy_input|]. intros dest_set.
  apply does_bind.
  { apply purge_allowed. intros r f Er Hf.
    destruct (removed_files _ _ _ _ _ _ Er Hf)
      as (files & Hdir & Hdays & Hin & Hdoomed).
    apply (Hexpired cfg); [done|]. exists files, f.
    split; [done|]. split; [done|]. split; [done|]. by left. }
  intros _.
  apply does_bind; [apply keeps_files_parse_input|]. intros records.
  apply does_bind; [apply keeps_files_generate_xml|]. intros xml_generated.
  apply does_bind; [apply keeps_files_write_runfile|]. intros _.
  apply does_ret.
Qed.

Lemma deletes_in_steps_6_to_9 (cfg : config)
  (records : list (gmap str str)) :
  w_setup w = Ok cfg →
  does G S (try_except
              (names ← lift (index_active_list (w_active_list w));
               steps_7_to_9 w cfg records names)
              (fatal w)).
Proof.
  intros Hcfg. apply does_try; [|apply keeps_files_fatal].
  unfold mbind, M_bind. apply does_bind; [apply does_lift|]. intros names.
  unfold steps_7_to_9, mbind, M_bind.
  apply does_bind; [unfold locate_loader_log; does_tac|]. intros fa_txt.
  apply does_bind; [unfold read_loader_log; does_tac|]. intros fa_log_html.
  apply does_bind; [unfold report, send_email_html; does_tac|]. intros _.
  unfold retention_and_append, append_full_loader_log, mbind, M_bind.
  apply does_bind; [|intros _; does_tac].
  apply purge_allowed. intros r f Er Hf.
  destruct (removed_files _ _ _ _ _ _ Er Hf)
    as (files & Hdir & Hdays & Hin & Hdoomed).
  apply (Hexpired cfg); [done|]. exists files, f.
  split; [done|]. split; [done|]. split; [done|]. by right.
Qed.

End DeletionRules.

Section DeletionFacts.
Context `{PyRuntime}.
Variable w : world.

(** X24: a run deletes nothing but expired files of its two managed
    folders: every file it unlinks is a file of the input folder matching
    [UnmatchedDepartment_*.csv], or a file of the logs folder matching
    [*.txt], whose modification time is before the time of the scan less
    the configured number of days, that number being positive. *)
Theorem run_deletes_only_expired :
  Forall (fun e => ∀ name, e = Unlink name →
                   ∃ cfg, w_setup w = Ok cfg ∧ deletes_expired w cfg name)
         (effects (main w)).
Proof.
  set (G := fun e => ∀ name, e = Unlink name →
                     ∃ cfg, w_setup w = Ok cfg ∧ deletes_expired w cfg name).
  assert (∀ e, is_unlink e = false → G e) as Hmost
    by (intros e He name ->; discriminate He).
  assert (∀ cfg name, w_setup w = Ok cfg → deletes_expired w cfg name →
                      G (Unlink name)) as Hexpired.
  { intros cfg name Hcfg Hdel name' [= <-]. by exists cfg. }
  pose proof (deletes_in_steps_1_to_4 w G (fun _ => True) Hmost
                (fun _ => I) Hexpired initial_state) as Hg4.
  destruct (main_cases w) as [(e & s4 & E4 & Hmain) |
                              (cfg & xml & s4 & s5 & Hcfg & E4 & E5 & Hmain)];
    rewrite E4 in Hg4; cbn [snd] in Hg4;
    destruct Hg4 as ((a4 & Ha4 & Hall4) & _).
  - pose proof (keeps_files_fatal w G (fun _ => True) Hmost e s4) as Hgf.
    rewrite <- Hmain in Hgf. destruct Hgf as ((af & Haf & Hallf) & _).
    rewrite Haf, Ha4. cbn [initial_state effects app]. by apply Forall_app.
  - pose proof (keeps_files_run_loader w G (fun _ => True) Hmost
                  (fun _ => I) cfg xml s4) as Hg5.
    rewrite E5 in Hg5. cbn [snd] in Hg5.
    pose proof (deletes_in_steps_6_to_9 w G (fun _ => True) Hmost
                  Hexpired cfg (parsed_records w) Hcfg s5) as Hg9.
    rewrite <- Hmain in Hg9.
    destruct Hg5 as ((a5 & Ha5 & Hall5) & _).
    destruct Hg9 as ((a9 & Ha9 & Hall9) & _).
    rewrite Ha9, Ha5, Ha4. cbn [initial_state effects app].
    apply Forall_app. split; [by apply Forall_app | done].
Qed.

End DeletionFacts.
